(** * SkillCart backend: lecture and wishlist controllers, enrollment router

    A shallow embedding of
      - backend/controller/lecture.controller.js
      - the wishlist controller (getMyWishlist ... clearWishlist)
      - the enrollment router
    Handlers are written in a small state-and-exception monad over a [World]
    that holds the document store, the response object of the request being
    served, the log of ORM calls issued so far and a schedule of ORM
    failures.

    Conventions of the model:
      - requests are served one after the other;
      - an ORM call either throws or takes its whole effect, as the fault
        schedule of the world says; schema errors of the models and cast
        errors on ids are among the faults;
      - object ids are strings in canonical form, compared as strings;
      - JavaScript numbers that carry a lecture order are integer valued
        after validation and are kept as [Z], their sum being rounded as
        binary64 sums are; JSON numbers are rationals;
      - the models, [ApiResponse] and the middleware are not part of the
        sources read here: documents keep the fields the controllers use,
        and an envelope keeps its kind, its message and its data. *)

From Stdlib Require Import List String Ascii ZArith QArith Bool Lia.
From Stdlib Require Import Permutation Sorted DecimalString DecimalNat.
Import ListNotations.
Set Warnings "-register-all".
Close Scope Q_scope.
Open Scope Z_scope.
Open Scope nat_scope.
Open Scope string_scope.
Open Scope list_scope.

(** ** Request bodies and the zod schemas *)

Inductive Json : Type :=
| JNull
| JBool (b : bool)
| JNum (q : Q)
| JStr (s : string)
| JArr (items : list Json)
| JObj (fields : list (string * Json)).

Inductive PathElem : Type :=
| Key (k : string)
| Index (i : nat).

Inductive IssueCode : Type :=
| invalid_type
| too_small
| invalid_string.

Record ZodIssue : Type := mkIssue {
  issue_code : IssueCode;
  issue_path : list PathElem
}.

(** The outcome of [schema.safeParse]; [parse] throws [ZodError issues] on
    [Invalid issues]. *)
Inductive Parsed (A : Type) : Type :=
| Valid (a : A)
| Invalid (issues : list ZodIssue).
Arguments Valid {A} a.
Arguments Invalid {A} issues.

Definition parsed_map {A B} (f : A -> B) (p : Parsed A) : Parsed B :=
  match p with
  | Valid a => Valid (f a)
  | Invalid i => Invalid i
  end.

(** zod keeps going after a failing key and reports the issues of all keys. *)
Definition parsed_pair {A B} (pa : Parsed A) (pb : Parsed B) : Parsed (A * B) :=
  match pa, pb with
  | Valid a, Valid b => Valid (a, b)
  | Valid _, Invalid j => Invalid j
  | Invalid i, Valid _ => Invalid i
  | Invalid i, Invalid j => Invalid (i ++ j)
  end.

Definition issues_of {A} (p : Parsed A) : list ZodIssue :=
  match p with
  | Valid _ => []
  | Invalid i => i
  end.

(** [obj[k]]: [None] is JavaScript's [undefined]. *)
Fixpoint get_key (k : string) (fields : list (string * Json)) : option Json :=
  match fields with
  | [] => None
  | (k', v) :: rest => if String.eqb k k' then Some v else get_key k rest
  end.

Definition is_integer (q : Q) : bool :=
  Z.eqb (Qnum q mod Zpos (Qden q)) 0.

Definition to_integer (q : Q) : Z := Qnum q / Zpos (Qden q).

(** ** Number arithmetic

    A lecture order is a JavaScript number, a binary64 value that holds an
    integer.  The integers of magnitude up to [2^53] are all binary64
    values; above, the binary64 values are the multiples of [2^e] with at
    most 53 significant bits, [e] being the position of the leading bit less
    52.  A sum [x + y] is the exact sum rounded to the nearest binary64
    value, a tie going to the even significand (a sum that stays finite, as
    [x + 1] does for every binary64 [x]). *)

Definition round_magnitude (n : Z) : Z :=
  let e := (Z.log2 n - 52)%Z in
  if (e <=? 0)%Z then n
  else
    let q := Z.shiftr n e in
    let r := (n - Z.shiftl q e)%Z in
    let half := Z.shiftl 1 (e - 1) in
    let up := if (half <? r)%Z then true
              else if (r <? half)%Z then false
              else Z.odd q in
    Z.shiftl (if up then q + 1 else q)%Z e.

Definition binary64_round (z : Z) : Z :=
  if (z <? 0)%Z then (- round_magnitude (- z))%Z else round_magnitude z.

(** [x + y] on numbers that hold integers. *)
Definition js_add (x y : Z) : Z := binary64_round (x + y).

(** [Number.isSafeInteger] *)
Definition safe_integer (z : Z) : Prop := (Z.abs z < 2 ^ 53)%Z.

Definition z_string (path : list PathElem) (v : option Json) : Parsed string :=
  match v with
  | Some (JStr s) => Valid s
  | _ => Invalid [mkIssue invalid_type path]
  end.

(** [z.string().min(n)] *)
Definition z_string_min (n : nat) (path : list PathElem) (v : option Json)
  : Parsed string :=
  match z_string path v with
  | Valid s => if Nat.ltb (String.length s) n
               then Invalid [mkIssue too_small path] else Valid s
  | Invalid i => Invalid i
  end.

(** [z.number().min(0)] *)
Definition z_number_min0 (path : list PathElem) (v : option Json) : Parsed Q :=
  match v with
  | Some (JNum q) => if Qle_bool 0 q then Valid q
                     else Invalid [mkIssue too_small path]
  | _ => Invalid [mkIssue invalid_type path]
  end.

(** [z.number().int().min(0)]: both checks run on a number. *)
Definition z_number_int_min0 (path : list PathElem) (v : option Json)
  : Parsed Z :=
  match v with
  | Some (JNum q) =>
      match is_integer q, Qle_bool 0 q with
      | true, true => Valid (to_integer q)
      | i, m => Invalid ((if i then [] else [mkIssue invalid_type path]) ++
                         (if m then [] else [mkIssue too_small path]))
      end
  | _ => Invalid [mkIssue invalid_type path]
  end.

Definition z_boolean (path : list PathElem) (v : option Json) : Parsed bool :=
  match v with
  | Some (JBool b) => Valid b
  | _ => Invalid [mkIssue invalid_type path]
  end.

(** [schema.optional()]: [undefined] is accepted as it is. *)
Definition z_optional {A} (schema : list PathElem -> option Json -> Parsed A)
  (path : list PathElem) (v : option Json) : Parsed (option A) :=
  match v with
  | None => Valid None
  | Some _ => parsed_map Some (schema path v)
  end.

Fixpoint z_array_items (path : list PathElem) (i : nat) (items : list Json)
  : Parsed (list string) :=
  match items with
  | [] => Valid []
  | x :: rest =>
      parsed_map (fun p => fst p :: snd p)
        (parsed_pair (z_string (path ++ [Index i]) (Some x))
                     (z_array_items path (S i) rest))
  end.

(** [z.array(z.string()).min(1)]: the length issue comes first, then the
    issues of the items. *)
Definition z_array_string_min1 (path : list PathElem) (v : option Json)
  : Parsed (list string) :=
  match v with
  | Some (JArr items) =>
      parsed_map snd
        (parsed_pair
           (if Nat.ltb (List.length items) 1
            then Invalid [mkIssue too_small path] else Valid tt)
           (z_array_items path 0 items))
  | _ => Invalid [mkIssue invalid_type path]
  end.

(** [z.object(shape)]: anything but an object is one issue at the root. *)
Definition z_object {A} (shape : list (string * Json) -> Parsed A)
  (body : option Json) : Parsed A :=
  match body with
  | Some (JObj fields) => shape fields
  | _ => Invalid [mkIssue invalid_type []]
  end.

Record CreateLectureBody : Type := mkCreateBody {
  cb_title : string;
  cb_videoUrl : option string;
  cb_duration : option Q;
  cb_isPreview : option bool;
  cb_order : option Z
}.

Record UpdateLectureBody : Type := mkUpdateBody {
  ub_title : option string;
  ub_videoUrl : option string;
  ub_duration : option Q;
  ub_isPreview : option bool;
  ub_order : option Z
}.

Section Schemas.

(** [z.string().url()] accepts what [new URL(s)] accepts; the URL parser is
    the platform's and is taken as given. *)
Variable isUrl : string -> bool.

Definition z_string_url (path : list PathElem) (v : option Json)
  : Parsed string :=
  match z_string path v with
  | Valid s => if isUrl s then Valid s
               else Invalid [mkIssue invalid_string path]
  | Invalid i => Invalid i
  end.

Definition createLectureSchema (body : option Json) : Parsed CreateLectureBody :=
  z_object (fun o =>
    parsed_map
      (fun p => match p with
                | (t, (v, (d, (i, r)))) => mkCreateBody t v d i r
                end)
      (parsed_pair (z_string_min 3 [Key "title"] (get_key "title" o))
      (parsed_pair (z_optional z_string_url [Key "videoUrl"] (get_key "videoUrl" o))
      (parsed_pair (z_optional z_number_min0 [Key "duration"] (get_key "duration" o))
      (parsed_pair (z_optional z_boolean [Key "isPreview"] (get_key "isPreview" o))
                   (z_optional z_number_int_min0 [Key "order"] (get_key "order" o)))))))
    body.

Definition updateLectureSchema (body : option Json) : Parsed UpdateLectureBody :=
  z_object (fun o =>
    parsed_map
      (fun p => match p with
                | (t, (v, (d, (i, r)))) => mkUpdateBody t v d i r
                end)
      (parsed_pair (z_optional (z_string_min 3) [Key "title"] (get_key "title" o))
      (parsed_pair (z_optional z_string_url [Key "videoUrl"] (get_key "videoUrl" o))
      (parsed_pair (z_optional z_number_min0 [Key "duration"] (get_key "duration" o))
      (parsed_pair (z_optional z_boolean [Key "isPreview"] (get_key "isPreview" o))
                   (z_optional z_number_int_min0 [Key "order"] (get_key "order" o)))))))
    body.

Definition reorderSchema (body : option Json) : Parsed (list string) :=
  z_object (fun o => z_array_string_min1 [Key "lectureIds"] (get_key "lectureIds" o))
    body.

Definition addToWishlistSchema (body : option Json) : Parsed string :=
  z_object (fun o => z_string_min 1 [Key "courseId"] (get_key "courseId" o)) body.

End Schemas.

(** ** Documents

    Object ids are compared through their string form, as the controllers do
    with [toString()]; only the fields the controllers read are kept. *)

Definition Id : Type := string.

Record User : Type := mkUser {
  user_id : Id;
  user_role : string
}.

Record Course : Type := mkCourse {
  course_id : Id;
  course_instructor : Id;
  course_published : bool
}.

Record SectionDoc : Type := mkSection {
  section_id : Id;
  section_course : Id
}.

Record Lecture : Type := mkLecture {
  lecture_id : Id;
  lecture_title : string;
  lecture_section : Id;
  lecture_videoUrl : option string;
  lecture_duration : option Q;
  lecture_isPreview : bool;
  lecture_order : Z
}.

Record Enrollment : Type := mkEnrollment {
  enrollment_user : Id;
  enrollment_course : Id
}.

Record Wishlist : Type := mkWishlist {
  wishlist_id : Id;
  wishlist_user : Id;
  wishlist_courses : list Id
}.

Record Db : Type := mkDb {
  courses : list Course;
  sections : list SectionDoc;
  lectures : list Lecture;
  enrollments : list Enrollment;
  wishlists : list Wishlist
}.

Definition set_lectures (ls : list Lecture) (d : Db) : Db :=
  mkDb (courses d) (sections d) ls (enrollments d) (wishlists d).

Definition set_wishlists (ws : list Wishlist) (d : Db) : Db :=
  mkDb (courses d) (sections d) (lectures d) (enrollments d) ws.

(** *** Queries *)

Definition find_course (id : Id) (d : Db) : option Course :=
  find (fun c => String.eqb (course_id c) id) (courses d).

Definition find_section (id : Id) (d : Db) : option SectionDoc :=
  find (fun s => String.eqb (section_id s) id) (sections d).

Definition find_lecture (id : Id) (d : Db) : option Lecture :=
  find (fun l => String.eqb (lecture_id l) id) (lectures d).

(** [populate('course')]: a reference to a missing document populates to
    [null]. *)
Definition PopulatedSection : Type := (SectionDoc * option Course)%type.

Definition populate_section (d : Db) (s : SectionDoc) : PopulatedSection :=
  (s, find_course (section_course s) d).

Definition PopulatedLecture : Type := (Lecture * option PopulatedSection)%type.

Definition populate_lecture (d : Db) (l : Lecture) : PopulatedLecture :=
  (l, option_map (populate_section d) (find_section (lecture_section l) d)).

Definition in_section (sectionId : Id) (l : Lecture) : bool :=
  String.eqb (lecture_section l) sectionId.

(** Stable insertion sort; [le a b] says that [a] may stand before [b]. *)
Fixpoint insert_by {A} (le : A -> A -> bool) (x : A) (l : list A) : list A :=
  match l with
  | [] => [x]
  | y :: rest => if le x y then x :: l else y :: insert_by le x rest
  end.

Fixpoint sort_by {A} (le : A -> A -> bool) (l : list A) : list A :=
  match l with
  | [] => []
  | x :: rest => insert_by le x (sort_by le rest)
  end.

Definition order_asc (a b : Lecture) : bool :=
  Z.leb (lecture_order a) (lecture_order b).

Definition order_desc (a b : Lecture) : bool :=
  Z.leb (lecture_order b) (lecture_order a).

(** [Lecture.find({ section }).sort({ order: 1 })] *)
Definition lectures_of_section (sectionId : Id) (d : Db) : list Lecture :=
  sort_by order_asc (filter (in_section sectionId) (lectures d)).

(** [Lecture.findOne({ section }).sort({ order: -1 })] *)
Definition last_lecture (sectionId : Id) (d : Db) : option Lecture :=
  hd_error (sort_by order_desc (filter (in_section sectionId) (lectures d))).

(** [Enrollment.findOne({ user, course })]; an [undefined] user matches no
    enrollment, every enrollment having a user. *)
Definition find_enrollment (user : option Id) (course : Id) (d : Db)
  : option Enrollment :=
  match user with
  | None => None
  | Some u =>
      find (fun e => String.eqb (enrollment_user e) u &&
                     String.eqb (enrollment_course e) course)
           (enrollments d)
  end.

Definition find_wishlist_of (user : Id) (d : Db) : option Wishlist :=
  find (fun w => String.eqb (wishlist_user w) user) (wishlists d).

Definition find_wishlist (id : Id) (d : Db) : option Wishlist :=
  find (fun w => String.eqb (wishlist_id w) id) (wishlists d).

(** [populate('courses')] on an array drops the ids with no document. *)
Record PopulatedWishlist : Type := mkPopulatedWishlist {
  pw_id : option Id;
  pw_user : Id;
  pw_courses : list Course
}.

Fixpoint populate_courses (d : Db) (ids : list Id) : list Course :=
  match ids with
  | [] => []
  | i :: rest =>
      match find_course i d with
      | Some c => c :: populate_courses d rest
      | None => populate_courses d rest
      end
  end.

Definition populate_wishlist (d : Db) (w : Wishlist) : PopulatedWishlist :=
  mkPopulatedWishlist (Some (wishlist_id w)) (wishlist_user w)
    (populate_courses d (wishlist_courses w)).

(** [array.includes(id)] *)
Definition includes (id : Id) (ids : list Id) : bool :=
  existsb (String.eqb id) ids.

(** *** Writes *)

Definition replace_lecture (doc : Lecture) (ls : list Lecture) : list Lecture :=
  map (fun l => if String.eqb (lecture_id l) (lecture_id doc) then doc else l) ls.

Definition with_order (order : Z) (l : Lecture) : Lecture :=
  mkLecture (lecture_id l) (lecture_title l) (lecture_section l)
    (lecture_videoUrl l) (lecture_duration l) (lecture_isPreview l) order.

Definition update_order (id : Id) (order : Z) (ls : list Lecture) : list Lecture :=
  map (fun l => if String.eqb (lecture_id l) id then with_order order l else l) ls.

Definition delete_lecture (id : Id) (ls : list Lecture) : list Lecture :=
  filter (fun l => negb (String.eqb (lecture_id l) id)) ls.

Definition replace_wishlist (doc : Wishlist) (ws : list Wishlist) : list Wishlist :=
  map (fun w => if String.eqb (wishlist_id w) (wishlist_id doc) then doc else w) ws.

(** The calls the controllers make on the models. *)
Inductive OrmCall : Type :=
| Section_findById (id : Id)
| Lecture_find (sectionId : Id)
| Lecture_findById (id : Id)
| Lecture_findOne (sectionId : Id)
| Lecture_create (doc : Lecture)
| Lecture_save (doc : Lecture)
| Lecture_findByIdAndDelete (id : Id)
| Lecture_findByIdAndUpdate (id : Id) (order : Z)
| Enrollment_findOne (user : option Id) (course : Id)
| Course_findById (id : Id)
| Wishlist_findOne (user : Id)
| Wishlist_findById (id : Id)
| Wishlist_create (doc : Wishlist)
| Wishlist_save (doc : Wishlist).

Definition mutating (c : OrmCall) : bool :=
  match c with
  | Lecture_create _ | Lecture_save _ | Lecture_findByIdAndDelete _
  | Lecture_findByIdAndUpdate _ _ | Wishlist_create _ | Wishlist_save _ => true
  | _ => false
  end.

(** What a call that succeeds does to the store. *)
Definition apply_call (c : OrmCall) (d : Db) : Db :=
  match c with
  | Lecture_create doc => set_lectures (lectures d ++ [doc]) d
  | Lecture_save doc => set_lectures (replace_lecture doc (lectures d)) d
  | Lecture_findByIdAndDelete id => set_lectures (delete_lecture id (lectures d)) d
  | Lecture_findByIdAndUpdate id order =>
      set_lectures (update_order id order (lectures d)) d
  | Wishlist_create doc => set_wishlists (wishlists d ++ [doc]) d
  | Wishlist_save doc => set_wishlists (replace_wishlist doc (wishlists d)) d
  | _ => d
  end.

Record LogEntry : Type := mkEntry {
  entry_call : OrmCall;
  entry_failed : bool
}.

(** ** Responses: the [ApiResponse] envelope *)

Inductive JsVal : Type :=
| JsNull
| JsBool (b : bool).

Definition truthy (v : JsVal) : bool :=
  match v with
  | JsNull => false
  | JsBool b => b
  end.

Definition is_boolean (v : JsVal) : bool :=
  match v with
  | JsNull => false
  | JsBool _ => true
  end.

Inductive Payload : Type :=
| NoData
| DataLectures (ls : list Lecture)
| DataLecture (l : Lecture)
| DataPopulatedLecture (l : PopulatedLecture)
| DataIssues (issues : list ZodIssue)
| DataWishlist (w : option PopulatedWishlist)
| DataCheck (isInWishlist : JsVal).

Inductive ResponseKind : Type :=
| Success
| Created
| BadRequest
| Forbidden
| NotFound
| Conflict
| ServerError.

Record ApiResponse : Type := mkResponse {
  response_kind : ResponseKind;
  response_message : string;
  response_data : Payload
}.

Module ApiResponse.
Definition success (message : string) (data : Payload) : ApiResponse :=
  mkResponse Success message data.
Definition created (message : string) (data : Payload) : ApiResponse :=
  mkResponse Created message data.
Definition badRequest (message : string) (issues : list ZodIssue) : ApiResponse :=
  mkResponse BadRequest message (DataIssues issues).
Definition forbidden (message : string) : ApiResponse :=
  mkResponse Forbidden message NoData.
Definition notFound (message : string) : ApiResponse :=
  mkResponse NotFound message NoData.
Definition conflict (message : string) : ApiResponse :=
  mkResponse Conflict message NoData.
Definition serverError (message : string) : ApiResponse :=
  mkResponse ServerError message NoData.
End ApiResponse.

(** ** The world a request runs in *)

Record World : Type := mkWorld {
  db : Db;
  faults : list bool;     (* one entry per ORM call to come: [true] = it throws *)
  nextOid : nat;          (* the object ids handed out so far *)
  log : list LogEntry;    (* the ORM calls issued, oldest first *)
  res : list ApiResponse  (* what has been sent on the response object *)
}.

Inductive Exn : Type :=
| ZodError (issues : list ZodIssue)
| TypeError
| OrmError.

Inductive Result (A : Type) : Type :=
| Ok (a : A)
| Throw (e : Exn).
Arguments Ok {A} a.
Arguments Throw {A} e.

Definition M (A : Type) : Type := World -> Result A * World.

Definition ret {A} (a : A) : M A := fun w => (Ok a, w).

Definition bind {A B} (m : M A) (k : A -> M B) : M B :=
  fun w =>
    match m w with
    | (Ok a, w') => k a w'
    | (Throw e, w') => (Throw e, w')
    end.

Notation "x <- m ;; k" := (bind m (fun x => k))
  (at level 61, m at next level, right associativity).
Notation "m ;;; k" := (bind m (fun _ => k))
  (at level 61, right associativity).

Definition throw {A} (e : Exn) : M A := fun w => (Throw e, w).

(** [try { body } catch (error) { handler(error) }] *)
Definition try_catch {A} (body : M A) (handler : Exn -> M A) : M A :=
  fun w =>
    match body w with
    | (Ok a, w') => (Ok a, w')
    | (Throw e, w') => handler e w'
    end.

(** [schema.parse(body)] *)
Definition parse {A} (p : Parsed A) : M A :=
  match p with
  | Valid a => ret a
  | Invalid issues => throw (ZodError issues)
  end.

(** Reading a property of [null] or [undefined] throws a [TypeError]. *)
Definition deref {A} (o : option A) : M A :=
  match o with
  | Some a => ret a
  | None => throw TypeError
  end.

(** [response.send(res)] *)
Definition send (r : ApiResponse) : M unit :=
  fun w => (Ok tt, mkWorld (db w) (faults w) (nextOid w) (log w) (res w ++ [r])).

(** One call on a model: it is logged, and it either throws, as the fault
    schedule says, or takes its effect on the store. *)
Definition orm (c : OrmCall) : M unit :=
  fun w =>
    let failed := hd false (faults w) in
    (if failed then Throw OrmError else Ok tt,
     mkWorld (if failed then db w else apply_call c (db w)) (tl (faults w))
             (nextOid w) (log w ++ [mkEntry c failed]) (res w)).

Definition query {A} (f : Db -> A) : M A := fun w => (Ok (f (db w)), w).

Definition oid (n : nat) : Id :=
  String.append "oid" (NilEmpty.string_of_uint (Nat.to_uint n)).

Definition new_oid : M Id :=
  fun w => (Ok (oid (nextOid w)),
            mkWorld (db w) (faults w) (S (nextOid w)) (log w) (res w)).

(** [Promise.all(promises)]: every promise of the array runs, whether or
    not another one rejects; the result rejects when one of them does. *)
Fixpoint promise_all {A} (promises : list (M A)) : M (list A) :=
  match promises with
  | [] => ret []
  | p :: rest =>
      fun w =>
        match p w with
        | (r, w1) =>
            match promise_all rest w1 with
            | (rs, w2) =>
                (match r, rs with
                 | Ok a, Ok l => Ok (a :: l)
                 | Throw e, _ => Throw e
                 | Ok _, Throw e => Throw e
                 end, w2)
            end
        end
  end.

(** [array.map((x, index) => f(x, index))] *)
Fixpoint map_index_from {A B} (f : A -> nat -> B) (i : nat) (l : list A) : list B :=
  match l with
  | [] => []
  | x :: rest => f x i :: map_index_from f (S i) rest
  end.

Definition map_index {A B} (f : A -> nat -> B) (l : list A) : list B :=
  map_index_from f 0 l.

(** *** The model methods the controllers call *)

Module Section_.
(** [Section.findById(id).populate('course')] *)
Definition findById_populate (id : Id) : M (option PopulatedSection) :=
  orm (Section_findById id) ;;;
  query (fun d => option_map (populate_section d) (find_section id d)).
End Section_.

Module Lecture_.
Definition find_sorted (sectionId : Id) : M (list Lecture) :=
  orm (Lecture_find sectionId) ;;; query (lectures_of_section sectionId).

(** [Lecture.findById(id).populate({ path: 'section', populate: ... })] *)
Definition findById_populate (id : Id) : M (option PopulatedLecture) :=
  orm (Lecture_findById id) ;;;
  query (fun d => option_map (populate_lecture d) (find_lecture id d)).

Definition findOne_last (sectionId : Id) : M (option Lecture) :=
  orm (Lecture_findOne sectionId) ;;; query (last_lecture sectionId).

Definition create (title : string) (sectionId : Id) (videoUrl : option string)
  (duration : option Q) (isPreview : bool) (order : Z) : M Lecture :=
  id <- new_oid ;;
  let doc := mkLecture id title sectionId videoUrl duration isPreview order in
  orm (Lecture_create doc) ;;; ret doc.

Definition save (doc : Lecture) : M unit := orm (Lecture_save doc).

Definition findByIdAndDelete (id : Id) : M unit :=
  orm (Lecture_findByIdAndDelete id).

Definition findByIdAndUpdate (id : Id) (order : Z) : M (option Lecture) :=
  before <- query (find_lecture id) ;;
  orm (Lecture_findByIdAndUpdate id order) ;;; ret before.
End Lecture_.

Module Enrollment_.
Definition findOne (user : option Id) (course : Id) : M (option Enrollment) :=
  orm (Enrollment_findOne user course) ;;; query (find_enrollment user course).
End Enrollment_.

Module Course_.
Definition findById (id : Id) : M (option Course) :=
  orm (Course_findById id) ;;; query (find_course id).
End Course_.

Module Wishlist_.
Definition findOne (user : Id) : M (option Wishlist) :=
  orm (Wishlist_findOne user) ;;; query (find_wishlist_of user).

Definition findOne_populate (user : Id) : M (option PopulatedWishlist) :=
  orm (Wishlist_findOne user) ;;;
  query (fun d => option_map (populate_wishlist d) (find_wishlist_of user d)).

Definition findById_populate (id : Id) : M (option PopulatedWishlist) :=
  orm (Wishlist_findById id) ;;;
  query (fun d => option_map (populate_wishlist d) (find_wishlist id d)).

Definition create (user : Id) (courseIds : list Id) : M Wishlist :=
  id <- new_oid ;;
  let doc := mkWishlist id user courseIds in
  orm (Wishlist_create doc) ;;; ret doc.

Definition save (doc : Wishlist) : M unit := orm (Wishlist_save doc).
End Wishlist_.

(** ** Requests *)

Record Request : Type := mkRequest {
  params_sectionId : Id;
  params_id : Id;
  params_courseId : Id;
  body : option Json;
  user : option User     (* [req.user], set by the authentication middleware *)
}.

(** [instructor.toString() !== req.user._id.toString() && req.user.role !== 'admin'] *)
Definition not_instructor_nor_admin (c : Course) (u : User) : bool :=
  negb (String.eqb (course_instructor c) (user_id u)) &&
  negb (String.eqb (user_role u) "admin").

(** [!req.user || (instructor !== req.user._id && req.user.role !== 'admin')] *)
Definition no_user_or_not_instructor_nor_admin (c : Course) (u : option User)
  : bool :=
  match u with
  | None => true
  | Some u => not_instructor_nor_admin c u
  end.

(** [isPreview || false] *)
Definition or_false (o : option bool) : bool :=
  match o with
  | Some b => b
  | None => false
  end.

(** [if (updates.f !== undefined) lecture.f = updates.f], field by field *)
Definition apply_updates (updates : UpdateLectureBody) (l : Lecture) : Lecture :=
  mkLecture (lecture_id l)
    (match ub_title updates with Some t => t | None => lecture_title l end)
    (lecture_section l)
    (match ub_videoUrl updates with Some v => Some v | None => lecture_videoUrl l end)
    (match ub_duration updates with Some d => Some d | None => lecture_duration l end)
    (match ub_isPreview updates with Some b => b | None => lecture_isPreview l end)
    (match ub_order updates with Some o => o | None => lecture_order l end).

Definition count_message (count : nat) : string :=
  String.append "Wishlist cleared ("
    (String.append (NilEmpty.string_of_uint (Nat.to_uint count)) " items removed)").

Definition is_none {A} (o : option A) : bool :=
  match o with
  | Some _ => false
  | None => true
  end.

Definition invalid_issues {A} (p : Parsed A) : option (list ZodIssue) :=
  match p with
  | Valid _ => None
  | Invalid issues => Some issues
  end.

(** The course a section belongs to, when both documents exist. *)
Definition course_of_section (sectionId : Id) (d : Db) : option Course :=
  match find_section sectionId d with
  | Some s => find_course (section_course s) d
  | None => None
  end.

Section Controllers.

Variable isUrl : string -> bool.

(** ** lecture.controller.js *)

Definition getSectionLectures_try (req : Request) : M unit :=
  let sectionId := params_sectionId req in
  section <- Section_.findById_populate sectionId ;;
  match section with
  | None => send (ApiResponse.notFound "Section not found")
  | Some (_, course) =>
      course <- deref course ;;
      if negb (course_published course) &&
         no_user_or_not_instructor_nor_admin course (user req)
      then send (ApiResponse.forbidden "Unauthorized access")
      else
        lectures <- Lecture_.find_sorted sectionId ;;
        send (ApiResponse.success "Lectures fetched successfully"
                (DataLectures lectures))
  end.

Definition getSectionLectures (req : Request) : M unit :=
  try_catch (getSectionLectures_try req)
    (fun _ => send (ApiResponse.serverError "Failed to fetch lectures")).

Definition getLecture_try (req : Request) : M unit :=
  let id := params_id req in
  lecture <- Lecture_.findById_populate id ;;
  match lecture with
  | None => send (ApiResponse.notFound "Lecture not found")
  | Some (l, section) =>
      section <- deref section ;;
      course <- deref (snd section) ;;
      (* the dynamic [import] of the enrollment model is taken to succeed *)
      not_enrolled <-
        (if (negb (course_published course) || negb (lecture_isPreview l)) &&
            no_user_or_not_instructor_nor_admin course (user req)
         then
           enrollment <- Enrollment_.findOne (option_map user_id (user req))
                           (course_id course) ;;
           ret (match enrollment with None => true | Some _ => false end)
         else ret false) ;;
      if not_enrolled : bool
      then send (ApiResponse.forbidden "You must be enrolled to access this lecture")
      else send (ApiResponse.success "Lecture fetched successfully"
                   (DataPopulatedLecture (l, Some section)))
  end.

Definition getLecture (req : Request) : M unit :=
  try_catch (getLecture_try req)
    (fun _ => send (ApiResponse.serverError "Failed to fetch lecture")).

Definition createLecture_try (req : Request) : M unit :=
  let sectionId := params_sectionId req in
  parsed <- parse (createLectureSchema isUrl (body req)) ;;
  section <- Section_.findById_populate sectionId ;;
  match section with
  | None => send (ApiResponse.notFound "Section not found")
  | Some (_, course) =>
      course <- deref course ;;
      u <- deref (user req) ;;
      if not_instructor_nor_admin course u
      then send (ApiResponse.forbidden "Only the course instructor can create lectures")
      else
        lectureOrder <-
          match cb_order parsed with
          | Some order => ret order
          | None =>
              lastLecture <- Lecture_.findOne_last sectionId ;;
              ret (match lastLecture with
                   | Some last => js_add (lecture_order last) 1
                   | None => 0%Z
                   end)
          end ;;
        lecture <- Lecture_.create (cb_title parsed) sectionId (cb_videoUrl parsed)
                     (cb_duration parsed) (or_false (cb_isPreview parsed))
                     lectureOrder ;;
        send (ApiResponse.created "Lecture created successfully" (DataLecture lecture))
  end.

(** The [catch] of the handlers that validate a body. *)
Definition catch_zod (message : string) (error : Exn) : M unit :=
  match error with
  | ZodError issues => send (ApiResponse.badRequest "Validation failed" issues)
  | _ => send (ApiResponse.serverError message)
  end.

Definition createLecture (req : Request) : M unit :=
  try_catch (createLecture_try req) (catch_zod "Failed to create lecture").

Definition updateLecture_try (req : Request) : M unit :=
  let id := params_id req in
  updates <- parse (updateLectureSchema isUrl (body req)) ;;
  lecture <- Lecture_.findById_populate id ;;
  match lecture with
  | None => send (ApiResponse.notFound "Lecture not found")
  | Some (l, section) =>
      section <- deref section ;;
      course <- deref (snd section) ;;
      u <- deref (user req) ;;
      if not_instructor_nor_admin course u
      then send (ApiResponse.forbidden "Only the course instructor can update lectures")
      else
        let l' := apply_updates updates l in
        Lecture_.save l' ;;;
        send (ApiResponse.success "Lecture updated successfully"
                (DataPopulatedLecture (l', Some section)))
  end.

Definition updateLecture (req : Request) : M unit :=
  try_catch (updateLecture_try req) (catch_zod "Failed to update lecture").

Definition deleteLecture_try (req : Request) : M unit :=
  let id := params_id req in
  lecture <- Lecture_.findById_populate id ;;
  match lecture with
  | None => send (ApiResponse.notFound "Lecture not found")
  | Some (_, section) =>
      section <- deref section ;;
      course <- deref (snd section) ;;
      u <- deref (user req) ;;
      if not_instructor_nor_admin course u
      then send (ApiResponse.forbidden "Only the course instructor can delete lectures")
      else
        Lecture_.findByIdAndDelete id ;;;
        send (ApiResponse.success "Lecture deleted successfully" NoData)
  end.

Definition deleteLecture (req : Request) : M unit :=
  try_catch (deleteLecture_try req)
    (fun _ => send (ApiResponse.serverError "Failed to delete lecture")).

Definition reorderLectures_try (req : Request) : M unit :=
  let sectionId := params_sectionId req in
  lectureIds <- parse (reorderSchema (body req)) ;;
  section <- Section_.findById_populate sectionId ;;
  match section with
  | None => send (ApiResponse.notFound "Section not found")
  | Some (_, course) =>
      course <- deref course ;;
      u <- deref (user req) ;;
      if not_instructor_nor_admin course u
      then send (ApiResponse.forbidden "Only the course instructor can reorder lectures")
      else
        let updatePromises :=
          map_index (fun lectureId index =>
                       Lecture_.findByIdAndUpdate lectureId (Z.of_nat index))
                    lectureIds in
        promise_all updatePromises ;;;
        updatedLectures <- Lecture_.find_sorted sectionId ;;
        send (ApiResponse.success "Lectures reordered successfully"
                (DataLectures updatedLectures))
  end.

Definition reorderLectures (req : Request) : M unit :=
  try_catch (reorderLectures_try req) (catch_zod "Failed to reorder lectures").

(** ** The wishlist controller *)

Definition getMyWishlist_try (req : Request) : M unit :=
  u <- deref (user req) ;;
  wishlist <- Wishlist_.findOne_populate (user_id u) ;;
  let wishlist :=
    match wishlist with
    | Some w => w
    | None => mkPopulatedWishlist None (user_id u) []
    end in
  send (ApiResponse.success "Wishlist fetched successfully"
          (DataWishlist (Some wishlist))).

Definition getMyWishlist (req : Request) : M unit :=
  try_catch (getMyWishlist_try req)
    (fun _ => send (ApiResponse.serverError "Failed to fetch wishlist")).

Definition addToWishlist_try (req : Request) : M unit :=
  courseId <- parse (addToWishlistSchema (body req)) ;;
  course <- Course_.findById courseId ;;
  match course with
  | None => send (ApiResponse.notFound "Course not found")
  | Some _ =>
      u <- deref (user req) ;;
      found <- Wishlist_.findOne (user_id u) ;;
      let populate_and_send (wishlist : Wishlist) : M unit :=
        populatedWishlist <- Wishlist_.findById_populate (wishlist_id wishlist) ;;
        send (ApiResponse.created "Course added to wishlist"
                (DataWishlist populatedWishlist)) in
      match found with
      | None =>
          wishlist <- Wishlist_.create (user_id u) [courseId] ;;
          populate_and_send wishlist
      | Some wishlist =>
          if includes courseId (wishlist_courses wishlist)
          then send (ApiResponse.conflict "Course already in wishlist")
          else
            let wishlist :=
              mkWishlist (wishlist_id wishlist) (wishlist_user wishlist)
                (wishlist_courses wishlist ++ [courseId]) in
            Wishlist_.save wishlist ;;;
            populate_and_send wishlist
      end
  end.

Definition addToWishlist (req : Request) : M unit :=
  try_catch (addToWishlist_try req) (catch_zod "Failed to add to wishlist").

Definition removeFromWishlist_try (req : Request) : M unit :=
  let courseId := params_courseId req in
  u <- deref (user req) ;;
  found <- Wishlist_.findOne (user_id u) ;;
  match found with
  | None => send (ApiResponse.notFound "Course not in wishlist")
  | Some wishlist =>
      if negb (includes courseId (wishlist_courses wishlist))
      then send (ApiResponse.notFound "Course not in wishlist")
      else
        let wishlist :=
          mkWishlist (wishlist_id wishlist) (wishlist_user wishlist)
            (filter (fun id => negb (String.eqb id courseId))
                    (wishlist_courses wishlist)) in
        Wishlist_.save wishlist ;;;
        send (ApiResponse.success "Course removed from wishlist" NoData)
  end.

Definition removeFromWishlist (req : Request) : M unit :=
  try_catch (removeFromWishlist_try req)
    (fun _ => send (ApiResponse.serverError "Failed to remove from wishlist")).

Definition checkWishlist_try (req : Request) : M unit :=
  let courseId := params_courseId req in
  u <- deref (user req) ;;
  wishlist <- Wishlist_.findOne (user_id u) ;;
  (* [wishlist && wishlist.courses.includes(courseId)]: the left operand
     itself when it is falsy *)
  let isInWishlist :=
    match wishlist with
    | None => JsNull
    | Some w => JsBool (includes courseId (wishlist_courses w))
    end in
  send (ApiResponse.success "Wishlist status checked" (DataCheck isInWishlist)).

Definition checkWishlist (req : Request) : M unit :=
  try_catch (checkWishlist_try req)
    (fun _ => send (ApiResponse.serverError "Failed to check wishlist status")).

Definition clearWishlist_try (req : Request) : M unit :=
  u <- deref (user req) ;;
  found <- Wishlist_.findOne (user_id u) ;;
  match found with
  | None => send (ApiResponse.success "Wishlist is already empty" NoData)
  | Some wishlist =>
      let count := List.length (wishlist_courses wishlist) in
      let wishlist := mkWishlist (wishlist_id wishlist) (wishlist_user wishlist) [] in
      Wishlist_.save wishlist ;;;
      send (ApiResponse.success (count_message count) NoData)
  end.

Definition clearWishlist (req : Request) : M unit :=
  try_catch (clearWishlist_try req)
    (fun _ => send (ApiResponse.serverError "Failed to clear wishlist")).

(** The eleven operations of the two controllers. *)
Inductive Handler : Type :=
| GetSectionLectures
| GetLecture
| CreateLecture
| UpdateLecture
| DeleteLecture
| ReorderLectures
| GetMyWishlist
| AddToWishlist
| RemoveFromWishlist
| CheckWishlist
| ClearWishlist.

(** The [try] block of a handler and the handler itself. *)
Definition try_block (h : Handler) : Request -> M unit :=
  match h with
  | GetSectionLectures => getSectionLectures_try
  | GetLecture => getLecture_try
  | CreateLecture => createLecture_try
  | UpdateLecture => updateLecture_try
  | DeleteLecture => deleteLecture_try
  | ReorderLectures => reorderLectures_try
  | GetMyWishlist => getMyWishlist_try
  | AddToWishlist => addToWishlist_try
  | RemoveFromWishlist => removeFromWishlist_try
  | CheckWishlist => checkWishlist_try
  | ClearWishlist => clearWishlist_try
  end.

Definition handle (h : Handler) : Request -> M unit :=
  match h with
  | GetSectionLectures => getSectionLectures
  | GetLecture => getLecture
  | CreateLecture => createLecture
  | UpdateLecture => updateLecture
  | DeleteLecture => deleteLecture
  | ReorderLectures => reorderLectures
  | GetMyWishlist => getMyWishlist
  | AddToWishlist => addToWishlist
  | RemoveFromWishlist => removeFromWishlist
  | CheckWishlist => checkWishlist
  | ClearWishlist => clearWishlist
  end.

(** The world a request is served in: the response object is fresh. *)
Definition fresh_res (w : World) : World :=
  mkWorld (db w) (faults w) (nextOid w) (log w) [].

Definition serve (h : Handler) (req : Request) (w : World) : World :=
  snd (handle h req (fresh_res w)).

(** ** Failure classes of a request *)

(** The issues the schema of a handler finds in the body; [None] when the
    handler validates no body or the body is valid. *)
Definition rejected (h : Handler) (b : option Json) : option (list ZodIssue) :=
  match h with
  | CreateLecture => invalid_issues (createLectureSchema isUrl b)
  | UpdateLecture => invalid_issues (updateLectureSchema isUrl b)
  | ReorderLectures => invalid_issues (reorderSchema b)
  | AddToWishlist => invalid_issues (addToWishlistSchema b)
  | _ => None
  end.

(** The resource the request names does not exist: the section, the
    lecture, the course, or the entry of the requester's wishlist. *)
Definition resource_missing (h : Handler) (req : Request) (d : Db) : bool :=
  match h with
  | GetSectionLectures | CreateLecture | ReorderLectures =>
      is_none (find_section (params_sectionId req) d)
  | GetLecture | UpdateLecture | DeleteLecture =>
      is_none (find_lecture (params_id req) d)
  | AddToWishlist =>
      match addToWishlistSchema (body req) with
      | Valid courseId => is_none (find_course courseId d)
      | Invalid _ => false
      end
  | RemoveFromWishlist =>
      match user req with
      | Some u =>
          match find_wishlist_of (user_id u) d with
          | Some wishlist =>
              negb (includes (params_courseId req) (wishlist_courses wishlist))
          | None => true
          end
      | None => false
      end
  | _ => false
  end.

(** The authorization check of the handler is reached and fails. *)
Definition authorization_fails (h : Handler) (req : Request) (d : Db) : bool :=
  match h with
  | GetSectionLectures =>
      match course_of_section (params_sectionId req) d with
      | Some c => negb (course_published c) &&
                  no_user_or_not_instructor_nor_admin c (user req)
      | None => false
      end
  | CreateLecture | ReorderLectures =>
      match course_of_section (params_sectionId req) d, user req with
      | Some c, Some u => not_instructor_nor_admin c u
      | _, _ => false
      end
  | GetLecture =>
      match find_lecture (params_id req) d with
      | Some l =>
          match course_of_section (lecture_section l) d with
          | Some c =>
              (negb (course_published c) || negb (lecture_isPreview l)) &&
              no_user_or_not_instructor_nor_admin c (user req) &&
              is_none (find_enrollment (option_map user_id (user req))
                         (course_id c) d)
          | None => false
          end
      | None => false
      end
  | UpdateLecture | DeleteLecture =>
      match find_lecture (params_id req) d with
      | Some l =>
          match course_of_section (lecture_section l) d, user req with
          | Some c, Some u => not_instructor_nor_admin c u
          | _, _ => false
          end
      | None => false
      end
  | _ => false
  end.

(** The checks of [reorderLectures] pass: the body is valid, the section and
    its course are found and the requester may reorder. *)
Definition may_reorder (req : Request) (d : Db) (ids : list Id) : Prop :=
  reorderSchema (body req) = Valid ids
  /\ exists s c u,
       find_section (params_sectionId req) d = Some s
       /\ find_course (section_course s) d = Some c
       /\ user req = Some u
       /\ not_instructor_nor_admin c u = false.

(** The updates of [reorderLectures] are reached: the checks pass and the
    lookup of the section does not fail. *)
Definition reaches_updates (req : Request) (w : World) (ids : list Id) : Prop :=
  may_reorder req (db w) ids /\ hd false (faults w) = false.

(** ** Sequences of wishlist calls *)

Inductive WishlistCall : Type :=
| Add (req : Request)
| Remove (req : Request)
| Clear (req : Request).

Definition call (c : WishlistCall) (w : World) : World :=
  match c with
  | Add req => serve AddToWishlist req w
  | Remove req => serve RemoveFromWishlist req w
  | Clear req => serve ClearWishlist req w
  end.

Definition calls (cs : list WishlistCall) (w : World) : World :=
  fold_left (fun w c => call c w) cs w.

End Controllers.

(** The ownership or role test as the specification words it:
    [instructor === user] or [role === 'admin']. *)
Definition instructor_or_admin (c : Course) (u : User) : bool :=
  String.eqb (course_instructor c) (user_id u) || String.eqb (user_role u) "admin".

(** The largest order among some lectures, if there is a lecture. *)
Fixpoint largest_order (ls : list Lecture) : option Z :=
  match ls with
  | [] => None
  | l :: rest =>
      match largest_order rest with
      | Some m => Some (Z.max (lecture_order l) m)
      | None => Some (lecture_order l)
      end
  end.

(** No wishlist holds a course id twice. *)
Definition unique_courses (d : Db) : Prop :=
  Forall (fun wl => NoDup (wishlist_courses wl)) (wishlists d).

(** A wishlist holds no course id twice, and only ids of courses there are. *)
Definition good_wishlist (d : Db) (wl : Wishlist) : Prop :=
  NoDup (wishlist_courses wl)
  /\ Forall (fun id => find_course id d <> None) (wishlist_courses wl).

Definition wishlists_good (d : Db) : Prop :=
  Forall (good_wishlist d) (wishlists d).

(** Every wishlist there is is empty. *)
Definition wishlists_empty (d : Db) : Prop :=
  Forall (fun wl => wishlist_courses wl = []) (wishlists d).

(** ** The enrollment router

    The router is the list of its layers in registration order.  The two
    middleware functions live in auth.middleware.js and are parameters of the
    dispatch; the enrollment controllers end the request they are given. *)

Inductive Method : Type := GET | POST | PUT | PATCH | DELETE.

Definition method_eqb (a b : Method) : bool :=
  match a, b with
  | GET, GET | POST, POST | PUT, PUT | PATCH, PATCH | DELETE, DELETE => true
  | _, _ => false
  end.

Inductive PathSegment : Type :=
| Lit (s : string)
| Param (name : string).

Inductive EnrollmentController : Type :=
| enrollCourse
| getMyEnrollments
| getEnrollment
| checkEnrollment
| unenrollCourse
| getCourseEnrollments
| markCourseCompleted.

Inductive Middleware : Type :=
| authenticate
| authorize (roles : list string).

Inductive Layer : Type :=
| Use (m : Middleware)
| Route (verb : Method) (pattern : list PathSegment) (guards : list Middleware)
        (controller : EnrollmentController).

Definition enrollmentRouter : list Layer :=
  [ Use authenticate;
    Route POST [] [] enrollCourse;
    Route GET [Lit "my"] [] getMyEnrollments;
    Route GET [Lit "check"; Param "courseId"] [] checkEnrollment;
    Route GET [Param "courseId"] [] getEnrollment;
    Route DELETE [Param "courseId"] [] unenrollCourse;
    Route PATCH [Param "courseId"; Lit "complete"] [] markCourseCompleted;
    Route GET [Lit "course"; Param "courseId"] [authorize ["instructor"; "admin"]]
          getCourseEnrollments ].

Record HttpRequest : Type := mkHttpRequest {
  http_method : Method;
  http_path : list string;       (* the segments of the path below the mount
                                    point, as sent, a trailing slash left out *)
  http_token : option string;    (* the credentials the request carries *)
  http_user : option User        (* [req.user] *)
}.

(** [Router()] is created with no option: routing is not case sensitive,
    the letters [A] to [Z] of a path count as [a] to [z]. *)
Definition lower_ascii (c : ascii) : ascii :=
  let n := nat_of_ascii c in
  if Nat.leb 65 n && Nat.leb n 90 then ascii_of_nat (n + 32) else c.

Fixpoint lower (s : string) : string :=
  match s with
  | EmptyString => EmptyString
  | String c rest => String (lower_ascii c) (lower rest)
  end.

(** The segment [x] is the literal [lit], the case of letters apart. *)
Definition spells (lit x : string) : bool := String.eqb (lower lit) (lower x).

(** A literal segment takes a segment that spells it; a parameter segment
    takes one non-empty segment of the path. *)
Fixpoint path_matches (pattern : list PathSegment) (path : list string) : bool :=
  match pattern, path with
  | [], [] => true
  | Lit s :: pattern', x :: path' => spells s x && path_matches pattern' path'
  | Param _ :: pattern', x :: path' =>
      negb (String.eqb x "") && path_matches pattern' path'
  | _, _ => false
  end.

(** A segment with no percent sign: there is nothing to decode in it. *)
Fixpoint plain (s : string) : bool :=
  match s with
  | EmptyString => true
  | String c rest => negb (Ascii.eqb c "%") && plain rest
  end.

(** A middleware calls [next()], perhaps after changing the request, or ends
    the request with a response of its own. *)
Inductive MiddlewareResult : Type :=
| Next (req : HttpRequest)
| Ended.

(** [BadParameter]: a layer whose path matches throws while it decodes a
    parameter; the router hands the error (status 400) to the error
    handlers and enters no route. *)
Inductive DispatchResult : Type :=
| Reached (controller : EnrollmentController) (req : HttpRequest)
| StoppedBy (m : Middleware)
| BadParameter
| Unmatched.

Section Router.

(** [decodeURIComponent] does not throw on the segment; the decoder is the
    platform's and is taken as given. *)
Variable decodes : string -> bool.

Variable run_middleware : Middleware -> HttpRequest -> MiddlewareResult.

(** The values of the parameters of a layer that matches are decoded before
    the verb of the route is looked at. *)
Fixpoint params_decode (pattern : list PathSegment) (path : list string) : bool :=
  match pattern, path with
  | Param _ :: pattern', x :: path' => decodes x && params_decode pattern' path'
  | _ :: pattern', _ :: path' => params_decode pattern' path'
  | _, _ => true
  end.

Fixpoint run_guards (guards : list Middleware) (req : HttpRequest)
  : HttpRequest + Middleware :=
  match guards with
  | [] => inl req
  | g :: rest =>
      match run_middleware g req with
      | Next req' => run_guards rest req'
      | Ended => inr g
      end
  end.

Fixpoint dispatch (stack : list Layer) (req : HttpRequest) : DispatchResult :=
  match stack with
  | [] => Unmatched
  | Use m :: rest =>
      match run_middleware m req with
      | Next req' => dispatch rest req'
      | Ended => StoppedBy m
      end
  | Route verb pattern guards controller :: rest =>
      if path_matches pattern (http_path req)
      then
        if params_decode pattern (http_path req)
        then
          if method_eqb verb (http_method req)
          then match run_guards guards req with
               | inl req' => Reached controller req'
               | inr g => StoppedBy g
               end
          else dispatch rest req
        else BadParameter
      else dispatch rest req
  end.

End Router.

(** ** A small school, for the examples *)

Definition any_url (s : string) : bool := true.

Definition teacher : User := mkUser "u-teacher" "instructor".
Definition student : User := mkUser "u-student" "student".
Definition principal : User := mkUser "u-admin" "admin".

Definition course1 : Course := mkCourse "c1" "u-teacher" true.
Definition course2 : Course := mkCourse "c2" "u-teacher" false.
Definition section1 : SectionDoc := mkSection "s1" "c1".
Definition section2 : SectionDoc := mkSection "s2" "c2".
Definition lectureA : Lecture := mkLecture "l1" "Welcome" "s1" None None false 0.
Definition lectureB : Lecture := mkLecture "l2" "Basics" "s1" None None true 1.
Definition lectureC : Lecture := mkLecture "l3" "Drafts" "s2" None None false 5.

Definition school : Db :=
  mkDb [course1; course2] [section1; section2] [lectureA; lectureB; lectureC]
       [mkEnrollment "u-student" "c1"] [].

(** The school with an ORM that answers every call. *)
Definition world0 : World := mkWorld school [] 0 [] [].

(** The same with a fault schedule. *)
Definition world_failing (fs : list bool) : World := mkWorld school fs 0 [] [].

Definition lecture_request (id : Id) (u : option User) (b : option Json) : Request :=
  mkRequest "" id "" b u.

Definition section_request (sectionId : Id) (u : option User) (b : option Json)
  : Request :=
  mkRequest sectionId "" "" b u.

Definition wishlist_request (courseId : Id) (u : option User) (b : option Json)
  : Request :=
  mkRequest "" "" courseId b u.

Definition lectureIds_body (ids : list string) : option Json :=
  Some (JObj [("lectureIds", JArr (map JStr ids))]).

Definition courseId_body (id : string) : option Json :=
  Some (JObj [("courseId", JStr id)]).

(** Modelled from the spec: the authentication and role middleware of
    auth.middleware.js, which is not among the sources.  [authenticate] lets
    a request through when its token is that of a known user, whom it puts
    on the request; [authorize] lets it through when the role of that user
    is one of the roles listed.  Used for the examples only. *)
Definition auth_middleware (sessions : list (string * User)) (m : Middleware)
  (req : HttpRequest) : MiddlewareResult :=
  match m with
  | authenticate =>
      match http_token req with
      | Some token =>
          match find (fun s => String.eqb (fst s) token) sessions with
          | Some (_, u) =>
              Next (mkHttpRequest (http_method req) (http_path req)
                                  (http_token req) (Some u))
          | None => Ended
          end
      | None => Ended
      end
  | authorize roles =>
      match http_user req with
      | Some u => if existsb (String.eqb (user_role u)) roles then Next req else Ended
      | None => Ended
      end
  end.

Definition sessions0 : list (string * User) :=
  [("t-teacher", teacher); ("t-student", student)].

(** ** Reading the log *)

(** The store after the calls of a log, the failed ones taking no effect. *)
Definition replay (entries : list LogEntry) (d : Db) : Db :=
  fold_left (fun d e => if entry_failed e then d else apply_call (entry_call e) d)
            entries d.

Definition mutating_calls (entries : list LogEntry) : nat :=
  List.length (filter (fun e => mutating (entry_call e)) entries).

(** The world after the call [c], which fails or not as the schedule says. *)
Definition after_call (c : OrmCall) (w : World) : World :=
  mkWorld (if hd false (faults w) then db w else apply_call c (db w))
          (tl (faults w)) (nextOid w)
          (log w ++ [mkEntry c (hd false (faults w))]) (res w).

(** The ORM answers every call to come. *)
Definition reliable (w : World) : Prop :=
  Forall (fun b => b = false) (faults w).

(** The entries the updates of [reorderLectures] leave in the log, the
    first id being at index [i], under the fault schedule [fs]. *)
Fixpoint batch_log (ids : list Id) (i : nat) (fs : list bool) : list LogEntry :=
  match ids with
  | [] => []
  | id :: rest =>
      mkEntry (Lecture_findByIdAndUpdate id (Z.of_nat i)) (hd false fs)
      :: batch_log rest (S i) (tl fs)
  end.

Definition update_promises (ids : list Id) (i : nat) : list (M (option Lecture)) :=
  map_index_from
    (fun lectureId index => Lecture_.findByIdAndUpdate lectureId (Z.of_nat index))
    i ids.

(** A call that failed is issued again later in the log. *)
Fixpoint retried (entries : list LogEntry) : Prop :=
  match entries with
  | [] => False
  | e :: rest =>
      (entry_failed e = true /\
       exists e', In e' rest /\ entry_call e' = entry_call e)
      \/ retried rest
  end.

(** The order the updates of a batch leave on the lecture [id]: that of the
    last update of [id] that did not fail, if there is one. *)
Fixpoint assigned_order (ids : list Id) (i : nat) (fs : list bool) (id : Id)
  : option Z :=
  match ids with
  | [] => None
  | x :: rest =>
      match assigned_order rest (S i) (tl fs) id with
      | Some o => Some o
      | None => if String.eqb id x && negb (hd false fs)
                then Some (Z.of_nat i) else None
      end
  end.

Definition reordered (ids : list Id) (fs : list bool) (l : Lecture) : Lecture :=
  match assigned_order ids 0 fs (lecture_id l) with
  | Some o => with_order o l
  | None => l
  end.

(** ** Further readings of the handlers *)

(** The handlers behind the GET routes. *)
Definition read_only (h : Handler) : bool :=
  match h with
  | GetSectionLectures | GetLecture | GetMyWishlist | CheckWishlist => true
  | _ => false
  end.

(** The responses that blame the request: 400, 403, 404 and 409. *)
Definition client_error (k : ResponseKind) : bool :=
  match k with
  | BadRequest | Forbidden | NotFound | Conflict => true
  | _ => false
  end.

(** The handler reads [req.user._id] (or [req.user.role]) without testing
    [req.user] first, on the path the request takes. *)
Definition reads_user (isUrl : string -> bool) (h : Handler) (req : Request)
  (d : Db) : bool :=
  match h with
  | GetSectionLectures | GetLecture => false
  | CreateLecture | ReorderLectures =>
      negb (is_none (course_of_section (params_sectionId req) d))
  | UpdateLecture | DeleteLecture =>
      match find_lecture (params_id req) d with
      | Some l => negb (is_none (course_of_section (lecture_section l) d))
      | None => false
      end
  | AddToWishlist =>
      match addToWishlistSchema (body req) with
      | Valid courseId => negb (is_none (find_course courseId d))
      | Invalid _ => false
      end
  | GetMyWishlist | RemoveFromWishlist | CheckWishlist | ClearWishlist => true
  end.

(** What the schemas ask of a lecture, read on a stored document: a title
    of three characters at least and an order that is not negative. *)
Definition lecture_valid (l : Lecture) : Prop :=
  3 <= String.length (lecture_title l) /\ (0 <= lecture_order l)%Z.

Definition lectures_valid (d : Db) : Prop := Forall lecture_valid (lectures d).

(** Requests served one after the other. *)
Definition serve_all (isUrl : string -> bool) (reqs : list (Handler * Request))
  (w : World) : World :=
  fold_left (fun w hr => serve isUrl (fst hr) (snd hr) w) reqs w.

(** Wishlist documents are told apart by their user and by their id, and
    their ids come from the supply of object ids. *)
Definition wishlists_keyed (ws : list Wishlist) (next : nat) : Prop :=
  NoDup (map wishlist_user ws)
  /\ NoDup (map wishlist_id ws)
  /\ Forall (fun i => exists k, k < next /\ i = oid k) (map wishlist_id ws).

(** The lecture [l'] has every field of [l], the order apart. *)
Definition keeps_but_order (l l' : Lecture) : Prop :=
  lecture_id l' = lecture_id l
  /\ lecture_title l' = lecture_title l
  /\ lecture_section l' = lecture_section l
  /\ lecture_videoUrl l' = lecture_videoUrl l
  /\ lecture_duration l' = lecture_duration l
  /\ lecture_isPreview l' = lecture_isPreview l.

(** The order [createLecture] gives a lecture: the one of the body, or the
    sum of that of the last lecture of the section and [1], or [0]. *)
Definition chosen_order (b : CreateLectureBody) (sectionId : Id) (d : Db) : Z :=
  match cb_order b with
  | Some order => order
  | None =>
      match last_lecture sectionId d with
      | Some last => js_add (lecture_order last) 1
      | None => 0%Z
      end
  end.

(** The document [createLecture] hands to [Lecture.create]. *)
Definition created_lecture (b : CreateLectureBody) (sectionId : Id) (w : World)
  : Lecture :=
  mkLecture (oid (nextOid w)) (cb_title b) sectionId (cb_videoUrl b)
    (cb_duration b) (or_false (cb_isPreview b)) (chosen_order b sectionId (db w)).

(** What [getMyWishlist] shows: the populated document, or a stand-in with
    no id and no course. *)
Definition shown_wishlist (u : User) (d : Db) : PopulatedWishlist :=
  match find_wishlist_of (user_id u) d with
  | Some wl => populate_wishlist d wl
  | None => mkPopulatedWishlist None (user_id u) []
  end.

(** * Properties *)

Arguments orm : simpl never.

Lemma round_magnitude_exact (n : Z) :
  (0 <= n <= 2 ^ 53)%Z -> round_magnitude n = n.
Proof.
  intros [H0 H1].
  destruct (Z.eq_dec n (2 ^ 53)) as [-> | Hne]; [reflexivity|].
  unfold round_magnitude.
  destruct (Z.eq_dec n 0) as [-> | Hpos]; [reflexivity|].
  assert (Hlog : (Z.log2 n < 53)%Z) by (apply Z.log2_lt_pow2; lia).
  destruct (Z.leb_spec (Z.log2 n - 52) 0); [reflexivity | lia].
Qed.

Lemma round_magnitude_nonneg (n : Z) : (0 <= n)%Z -> (0 <= round_magnitude n)%Z.
Proof.
  intros H. unfold round_magnitude.
  destruct (Z.leb_spec (Z.log2 n - 52) 0); [exact H|].
  apply Z.shiftl_nonneg.
  assert (0 <= Z.shiftr n (Z.log2 n - 52))%Z by (apply Z.shiftr_nonneg; exact H).
  match goal with
  | |- (0 <= (if ?up then _ else _))%Z => destruct up; lia
  end.
Qed.

Lemma js_add_exact (x y : Z) :
  (- 2 ^ 53 <= x + y <= 2 ^ 53)%Z -> js_add x y = (x + y)%Z.
Proof.
  intros H. unfold js_add, binary64_round.
  destruct (Z.ltb_spec (x + y) 0).
  - rewrite round_magnitude_exact by lia. lia.
  - apply round_magnitude_exact. lia.
Qed.

Lemma js_add_nonneg (x y : Z) : (0 <= x + y)%Z -> (0 <= js_add x y)%Z.
Proof.
  intros H. unfold js_add, binary64_round.
  destruct (Z.ltb_spec (x + y) 0); [lia|]. now apply round_magnitude_nonneg.
Qed.

Lemma js_add_1_safe (m : Z) : safe_integer m -> js_add m 1 = (m + 1)%Z.
Proof. unfold safe_integer. intros H. apply js_add_exact. lia. Qed.

Arguments js_add : simpl never.

Lemma reliable_hd (l : list bool) :
  Forall (fun b => b = false) l -> hd false l = false.
Proof. destruct 1; auto. Qed.

Lemma reliable_tl (l : list bool) :
  Forall (fun b => b = false) l -> Forall (fun b => b = false) (tl l).
Proof. destruct 1; simpl; auto. Qed.

Lemma replay_app (a b : list LogEntry) (d : Db) :
  replay (a ++ b) d = replay b (replay a d).
Proof. apply fold_left_app. Qed.

Lemma mutating_calls_app (a b : list LogEntry) :
  mutating_calls (a ++ b) = mutating_calls a + mutating_calls b.
Proof. unfold mutating_calls. now rewrite filter_app, length_app. Qed.

Lemma findByIdAndUpdate_run (id : Id) (order : Z) (w : World) :
  Lecture_.findByIdAndUpdate id order w =
    (if hd false (faults w) then Throw OrmError else Ok (find_lecture id (db w)),
     after_call (Lecture_findByIdAndUpdate id order) w).
Proof.
  unfold Lecture_.findByIdAndUpdate, bind, query, orm, ret, after_call.
  destruct (hd false (faults w)); reflexivity.
Qed.

Lemma skipn_tl {A} (n : nat) (l : list A) : skipn n (tl l) = skipn (S n) l.
Proof. destruct l; simpl; auto using skipn_nil. Qed.

Lemma existsb_firstn_S (n : nat) (l : list bool) :
  existsb (fun b => b) (firstn (S n) l) =
    hd false l || existsb (fun b => b) (firstn n (tl l)).
Proof. destruct l; simpl; auto. now rewrite firstn_nil. Qed.

Lemma mutating_calls_cons (e : LogEntry) (l : list LogEntry) :
  mutating_calls (e :: l) =
    (if mutating (entry_call e) then 1 else 0) + mutating_calls l.
Proof. unfold mutating_calls. simpl. now destruct (mutating (entry_call e)). Qed.

(** What the batch of updates leaves behind, whatever fails. *)
Lemma promise_all_batch (ids : list Id) :
  forall (i : nat) (w : World),
    snd (promise_all (update_promises ids i) w) =
      mkWorld (replay (batch_log ids i (faults w)) (db w))
              (skipn (List.length ids) (faults w)) (nextOid w)
              (log w ++ batch_log ids i (faults w)) (res w)
    /\ (existsb (fun b => b) (firstn (List.length ids) (faults w)) = true ->
        fst (promise_all (update_promises ids i) w) = Throw OrmError)
    /\ (existsb (fun b => b) (firstn (List.length ids) (faults w)) = false ->
        exists l, fst (promise_all (update_promises ids i) w) = Ok l).
Proof.
  induction ids as [|id rest IH]; intros i w.
  - simpl. destruct w; simpl. rewrite app_nil_r. repeat split; eauto; discriminate.
  - change (update_promises (id :: rest) i)
      with (Lecture_.findByIdAndUpdate id (Z.of_nat i) :: update_promises rest (S i)).
    cbn [promise_all List.length batch_log].
    rewrite findByIdAndUpdate_run, existsb_firstn_S.
    set (w1 := after_call _ w).
    destruct (IH (S i) w1) as (Hw & Ht & Ho).
    destruct (promise_all (update_promises rest (S i)) w1) as [rs w2].
    cbn [fst snd] in *. subst w2. subst w1. cbn [after_call db faults nextOid log res] in *.
    rewrite <- app_assoc, skipn_tl. cbn [app replay fold_left entry_failed entry_call].
    split; [reflexivity|split]; intros H.
    + destruct (hd false (faults w)); cbn in *; auto.
      rewrite (Ht H). reflexivity.
    + destruct (hd false (faults w)); cbn in *; try discriminate.
      destruct (Ho H) as [l ->]. eauto.
Qed.

Lemma reorder_batch (ids : list Id) (w : World) :
  let run :=
    promise_all
      (map_index (fun lectureId index =>
                    Lecture_.findByIdAndUpdate lectureId (Z.of_nat index)) ids) w in
  snd run =
    mkWorld (replay (batch_log ids 0 (faults w)) (db w))
            (skipn (List.length ids) (faults w)) (nextOid w)
            (log w ++ batch_log ids 0 (faults w)) (res w)
  /\ (existsb (fun b => b) (firstn (List.length ids) (faults w)) = true ->
      fst run = Throw OrmError)
  /\ (existsb (fun b => b) (firstn (List.length ids) (faults w)) = false ->
      exists l, fst run = Ok l).
Proof. exact (promise_all_batch ids 0 w). Qed.

(** Symbolic execution of a handler: the model methods and the monad are
    unfolded and every branch point is split. *)
Ltac unfold_handler :=
  unfold getSectionLectures, getLecture, createLecture, updateLecture,
    deleteLecture, reorderLectures, getMyWishlist, addToWishlist,
    removeFromWishlist, checkWishlist, clearWishlist,
    getSectionLectures_try, getLecture_try, createLecture_try,
    updateLecture_try, deleteLecture_try, reorderLectures_try,
    getMyWishlist_try, addToWishlist_try, removeFromWishlist_try,
    checkWishlist_try, clearWishlist_try, catch_zod, try_catch,
    Section_.findById_populate, Lecture_.find_sorted,
    Lecture_.findById_populate, Lecture_.findOne_last, Lecture_.create,
    Lecture_.save, Lecture_.findByIdAndDelete, Enrollment_.findOne,
    Course_.findById, Wishlist_.findOne, Wishlist_.findOne_populate,
    Wishlist_.findById_populate, Wishlist_.create, Wishlist_.save,
    parse, deref, bind, ret, throw, send, query, new_oid, orm.

Ltac world_simpl :=
  cbn [db faults nextOid log res fst snd fresh_res] in *.

Ltac split_batch :=
  match goal with
  | |- context [promise_all (map_index ?f ?ids) ?w] =>
      let H := fresh "Hbatch" in
      let r := fresh "r" in
      let w2 := fresh "w" in
      let Hw := fresh "Hw" in
      let Ht := fresh "Ht" in
      let Ho := fresh "Ho" in
      let Hany := fresh "Hany" in
      pose proof (reorder_batch ids w) as H;
      cbv zeta in H;
      destruct (promise_all (map_index f ids) w) as [r w2];
      cbn [db faults nextOid log res fst snd] in H;
      destruct H as (Hw & Ht & Ho); subst w2;
      match type of Ht with
      | ?b = true -> _ =>
          destruct b eqn:Hany;
          [ rewrite (Ht eq_refl) | destruct (Ho eq_refl) as [? ->] ];
          clear Ht Ho
      end
  end.

Ltac split_branch :=
  match goal with
  | |- context [match ?x with _ => _ end] =>
      lazymatch x with
      | context [match _ with _ => _ end] => fail
      | context [promise_all] => fail
      | _ => destruct x eqn:?
      end
  end.

Ltac run_handler :=
  unfold_handler; world_simpl;
  repeat (first [split_batch | split_branch]; world_simpl).

(** ** The batch of [reorderLectures] *)

Lemma batch_log_mutating (ids : list Id) :
  forall i fs, mutating_calls (batch_log ids i fs) = List.length ids.
Proof.
  induction ids as [|id rest IH]; intros i fs; [reflexivity|].
  unfold mutating_calls in *. simpl. now rewrite IH.
Qed.

Lemma batch_log_calls (ids : list Id) :
  forall i fs e, In e (batch_log ids i fs) ->
    exists id j, i <= j /\ entry_call e = Lecture_findByIdAndUpdate id (Z.of_nat j).
Proof.
  induction ids as [|id rest IH]; intros i fs e; simpl; [tauto|].
  intros [<- | Hin].
  - exists id, i. split; [lia | reflexivity].
  - destruct (IH _ _ _ Hin) as (id' & j & Hj & He).
    exists id', j. split; [lia | exact He].
Qed.

Lemma batch_log_nth (ids : list Id) :
  forall i fs k id, nth_error ids k = Some id ->
    nth_error (batch_log ids i fs) k =
      Some (mkEntry (Lecture_findByIdAndUpdate id (Z.of_nat (i + k)))
                    (nth k fs false)).
Proof.
  induction ids as [|x rest IH]; intros i fs [|k] id H; simpl in *; try discriminate.
  - injection H as ->. rewrite Nat.add_0_r. destruct fs; reflexivity.
  - rewrite (IH (S i) (tl fs) k id H).
    replace (S i + k) with (i + S k) by lia.
    destruct fs; simpl; [destruct k|]; reflexivity.
Qed.

Lemma retried_app_clean (a b : list LogEntry) :
  ~ retried a -> ~ retried b ->
  (forall e e', In e a -> In e' b -> entry_call e' <> entry_call e) ->
  ~ retried (a ++ b).
Proof.
  induction a as [|x a IH]; simpl; intros Ha Hb Hd; [exact Hb|].
  intros [(Hf & e' & Hin & He) | Hr].
  - apply in_app_or in Hin. destruct Hin as [Hin | Hin].
    + apply Ha. left. eauto.
    + exact (Hd x e' (or_introl eq_refl) Hin He).
  - revert Hr. apply IH; auto.
Qed.

Lemma batch_log_not_retried (ids : list Id) :
  forall i fs, ~ retried (batch_log ids i fs).
Proof.
  induction ids as [|id rest IH]; intros i fs; simpl; [tauto|].
  intros [(_ & e' & Hin & He) | Hr].
  - destruct (batch_log_calls _ _ _ _ Hin) as (id' & j & Hj & Hc).
    rewrite Hc in He. injection He as _ He. lia.
  - exact (IH _ _ Hr).
Qed.

Lemma batch_log_failed (ids : list Id) :
  forall i fs,
    existsb entry_failed (batch_log ids i fs) =
      existsb (fun b => b) (firstn (List.length ids) fs).
Proof.
  induction ids as [|id rest IH]; intros i fs; [reflexivity|].
  cbn [batch_log existsb entry_failed List.length].
  now rewrite IH, existsb_firstn_S.
Qed.

Lemma batch_then_read_not_retried (ids : list Id) (i : nat) (fs : list bool)
  (sectionId : Id) (b : bool) :
  ~ retried (batch_log ids i fs ++ [mkEntry (Lecture_find sectionId) b]).
Proof.
  apply retried_app_clean.
  - apply batch_log_not_retried.
  - simpl. intros [(_ & e' & [] & _) | []].
  - intros e e' He [<- | []]. simpl.
    destruct (batch_log_calls _ _ _ _ He) as (id & j & _ & ->). discriminate.
Qed.

Lemma batch_log_all_mutating (ids : list Id) :
  forall i fs,
    filter (fun e => mutating (entry_call e)) (batch_log ids i fs) =
      batch_log ids i fs.
Proof.
  induction ids as [|id rest IH]; intros i fs; simpl; [reflexivity|].
  now rewrite IH.
Qed.

Lemma batch_log_reliable (ids : list Id) :
  forall i fs,
    Forall (fun b => b = false) fs ->
    batch_log ids i fs =
      map_index_from
        (fun id k => mkEntry (Lecture_findByIdAndUpdate id (Z.of_nat k)) false)
        i ids.
Proof.
  induction ids as [|id rest IH]; intros i fs H; simpl; [reflexivity|].
  rewrite (reliable_hd _ H), (IH _ _ (reliable_tl _ H)). reflexivity.
Qed.

Lemma batch_log_firstn (ids : list Id) :
  forall n i fs, firstn n (batch_log ids i fs) = batch_log (firstn n ids) i fs.
Proof.
  induction ids as [|id rest IH]; intros [|n] i fs; simpl; try reflexivity.
  now rewrite IH.
Qed.

Lemma batch_log_length (ids : list Id) :
  forall i fs, List.length (batch_log ids i fs) = List.length ids.
Proof.
  induction ids as [|id rest IH]; intros i fs; simpl; [reflexivity|].
  now rewrite IH.
Qed.

Lemma reliable_nth (l : list bool) (k : nat) :
  Forall (fun b => b = false) l -> nth k l false = false.
Proof.
  intros H. revert k. induction H as [|b l Hb _ IH]; intros [|k]; simpl; auto.
Qed.

Lemma find_map_same_id (f : Lecture -> Lecture) (id : Id) (ls : list Lecture) :
  (forall l, lecture_id (f l) = lecture_id l) ->
  find (fun l => String.eqb (lecture_id l) id) (map f ls) =
    option_map f (find (fun l => String.eqb (lecture_id l) id) ls).
Proof.
  intros Hf. induction ls as [|l ls IH]; simpl; [reflexivity|].
  rewrite Hf. destruct (String.eqb (lecture_id l) id); auto.
Qed.

Lemma replay_batch (ids : list Id) :
  forall i fs d,
    replay (batch_log ids i fs) d =
      set_lectures
        (map (fun l => match assigned_order ids i fs (lecture_id l) with
                       | Some o => with_order o l
                       | None => l
                       end) (lectures d)) d.
Proof.
  induction ids as [|id rest IH]; intros i fs d.
  - simpl. unfold set_lectures. rewrite map_id. now destruct d.
  - cbn [batch_log replay fold_left entry_failed entry_call assigned_order].
    fold (replay (batch_log rest (S i) (tl fs))).
    rewrite IH. destruct (hd false fs); cbn [apply_call negb andb].
    + unfold set_lectures. f_equal. apply map_ext. intros l.
      rewrite Bool.andb_false_r.
      destruct (assigned_order rest (S i) (tl fs) (lecture_id l)); reflexivity.
    + unfold set_lectures, update_order. cbn [lectures courses sections enrollments wishlists].
      f_equal. rewrite map_map. apply map_ext. intros l.
      rewrite Bool.andb_true_r.
      destruct (String.eqb (lecture_id l) id) eqn:E; cbn [with_order lecture_id];
        rewrite ?E;
        destruct (assigned_order rest (S i) (tl fs) (lecture_id l)); reflexivity.
Qed.

Lemma assigned_order_none (ids : list Id) :
  forall i fs id, ~ In id ids -> assigned_order ids i fs id = None.
Proof.
  induction ids as [|x rest IH]; intros i fs id Hn; simpl; [reflexivity|].
  rewrite IH by (intros H; apply Hn; now right).
  destruct (String.eqb_spec id x) as [->|]; [|reflexivity].
  exfalso. apply Hn. now left.
Qed.

(** Right after its own update, which does not fail, an id has its index. *)
Lemma assigned_order_last (ids : list Id) :
  forall i fs k id,
    nth_error ids k = Some id ->
    nth k fs false = false ->
    assigned_order (firstn (S k) ids) i fs id = Some (Z.of_nat (i + k)).
Proof.
  induction ids as [|x rest IH]; intros i fs [|k] id Hk Hf; try discriminate.
  - injection Hk as ->. cbn [firstn assigned_order].
    rewrite String.eqb_refl, Nat.add_0_r.
    destruct fs; simpl in *; [reflexivity | now rewrite Hf].
  - cbn [nth_error] in Hk.
    change (firstn (S (S k)) (x :: rest)) with (x :: firstn (S k) rest).
    cbn [assigned_order].
    rewrite (IH (S i) (tl fs) k id Hk).
    + f_equal. lia.
    + destruct fs; simpl in *; [now destruct k | exact Hf].
Qed.

(** An id listed once, whose update does not fail, gets its index. *)
Lemma assigned_order_once (ids : list Id) :
  forall i fs k id,
    nth_error ids k = Some id ->
    (forall j, nth_error ids j = Some id -> j = k) ->
    nth k fs false = false ->
    assigned_order ids i fs id = Some (Z.of_nat (i + k)).
Proof.
  induction ids as [|x rest IH]; intros i fs [|k] id Hk Hu Hf; simpl in *;
    try discriminate.
  - injection Hk as ->.
    rewrite assigned_order_none.
    + rewrite String.eqb_refl, Nat.add_0_r.
      destruct fs; simpl in *; [reflexivity | now rewrite Hf].
    + intros Hin. apply In_nth_error in Hin. destruct Hin as [j Hj].
      specialize (Hu (S j) Hj). discriminate.
  - rewrite (IH (S i) (tl fs) k id Hk).
    + f_equal. lia.
    + intros j Hj. specialize (Hu (S j) Hj). lia.
    + destruct fs; simpl in *; [now destruct k | exact Hf].
Qed.

(** ** Sorting by order *)

Section Sorting.

Variable A : Type.
Variable le : A -> A -> bool.
Hypothesis le_total : forall a b, le a b = false -> le b a = true.
Hypothesis le_trans : forall a b c, le a b = true -> le b c = true -> le a c = true.

Lemma insert_by_perm (x : A) (l : list A) : Permutation (x :: l) (insert_by le x l).
Proof.
  induction l as [|y l IH]; simpl; [auto|].
  destruct (le x y); [auto|].
  transitivity (y :: x :: l); [apply perm_swap | now apply perm_skip].
Qed.

Lemma sort_by_perm (l : list A) : Permutation l (sort_by le l).
Proof.
  induction l as [|x l IH]; simpl; [auto|].
  transitivity (x :: sort_by le l); [now apply perm_skip | apply insert_by_perm].
Qed.

Lemma insert_by_sorted (x : A) (l : list A) :
  StronglySorted (fun a b => le a b = true) l ->
  StronglySorted (fun a b => le a b = true) (insert_by le x l).
Proof.
  induction 1 as [|y l Hs IH Hy]; simpl.
  - repeat constructor.
  - destruct (le x y) eqn:E.
    + constructor; [now constructor|].
      constructor; [exact E|].
      rewrite Forall_forall in *. intros z Hz. eauto.
    + constructor; [exact IH|].
      rewrite Forall_forall in *. intros z Hz.
      apply (Permutation_in _ (Permutation_sym (insert_by_perm x l))) in Hz.
      destruct Hz as [<- | Hz]; auto.
Qed.

Lemma sort_by_sorted (l : list A) :
  StronglySorted (fun a b => le a b = true) (sort_by le l).
Proof.
  induction l as [|x l IH]; simpl; [constructor | now apply insert_by_sorted].
Qed.

(** The head of the sorted list stands before every element. *)
Lemma sort_by_head (l : list A) (x : A) :
  (forall a, le a a = true) ->
  hd_error (sort_by le l) = Some x ->
  In x l /\ forall y, In y l -> le x y = true.
Proof.
  intros Hrefl Hx.
  pose proof (sort_by_sorted l) as Hs. pose proof (sort_by_perm l) as Hp.
  destruct (sort_by le l) as [|z rest]; [discriminate|].
  injection Hx as ->.
  split.
  - apply (Permutation_in _ (Permutation_sym Hp)). now left.
  - intros y Hy. apply (Permutation_in _ Hp) in Hy.
    inversion Hs as [|? ? _ Hall]; subst.
    destruct Hy as [<- | Hy]; [apply Hrefl|].
    rewrite Forall_forall in Hall. auto.
Qed.

Lemma sort_by_nil (l : list A) : sort_by le l = [] -> l = [].
Proof.
  intros H. pose proof (sort_by_perm l) as Hp. rewrite H in Hp.
  now apply Permutation_sym, Permutation_nil in Hp.
Qed.

End Sorting.

Lemma order_asc_total (a b : Lecture) : order_asc a b = false -> order_asc b a = true.
Proof. unfold order_asc. rewrite Z.leb_gt, Z.leb_le. lia. Qed.

Lemma order_asc_trans (a b c : Lecture) :
  order_asc a b = true -> order_asc b c = true -> order_asc a c = true.
Proof. unfold order_asc. rewrite !Z.leb_le. lia. Qed.

Lemma order_desc_total (a b : Lecture) : order_desc a b = false -> order_desc b a = true.
Proof. unfold order_desc. rewrite Z.leb_gt, Z.leb_le. lia. Qed.

Lemma order_desc_trans (a b c : Lecture) :
  order_desc a b = true -> order_desc b c = true -> order_desc a c = true.
Proof. unfold order_desc. rewrite !Z.leb_le. lia. Qed.

(** [Lecture.find(...).sort({ order: 1 })] lists the lectures of the section,
    each once, by ascending order. *)
Lemma lectures_of_section_sorted (sectionId : Id) (d : Db) :
  Permutation (filter (in_section sectionId) (lectures d))
              (lectures_of_section sectionId d)
  /\ StronglySorted (fun a b => (lecture_order a <= lecture_order b)%Z)
                    (lectures_of_section sectionId d).
Proof.
  unfold lectures_of_section. split.
  - apply sort_by_perm.
  - pose proof (sort_by_sorted _ order_asc order_asc_total order_asc_trans
                  (filter (in_section sectionId) (lectures d))) as H.
    induction H as [|x l _ IH Hall]; constructor; auto.
    rewrite Forall_forall in *. intros y Hy.
    apply Z.leb_le. exact (Hall y Hy).
Qed.

Lemma largest_order_spec (ls : list Lecture) (m : Z) :
  largest_order ls = Some m <->
  (exists x, In x ls /\ lecture_order x = m)
  /\ forall y, In y ls -> (lecture_order y <= m)%Z.
Proof.
  revert m. induction ls as [|l rest IH]; intros m; simpl.
  - split; [discriminate | intros [[x [[] _]] _]].
  - destruct (largest_order rest) as [m'|] eqn:E.
    + destruct (proj1 (IH m') eq_refl) as [[x [Hx Hxm]] Hle].
      split.
      * intros [= <-]. split.
        -- destruct (Z.max_spec (lecture_order l) m') as [[_ ->] | [_ ->]]; eauto.
        -- intros y [<- | Hy]; [lia | specialize (Hle y Hy); lia].
      * intros [[z [Hz Hzm]] Hall]. f_equal.
        assert (lecture_order l <= m)%Z by auto.
        assert (m' <= m)%Z by (rewrite <- Hxm; auto).
        destruct Hz as [<- | Hz]; [lia | specialize (Hle z Hz); lia].
    + assert (rest = []) as ->.
      { destruct rest as [|r rest']; [reflexivity|]. simpl in E.
        destruct (largest_order rest'); discriminate. }
      split.
      * intros [= <-]. split; [eauto | intros y [<- | []]; lia].
      * intros [[z [[<- | []] Hzm]] _]. now f_equal.
Qed.

(** [Lecture.findOne({ section }).sort({ order: -1 })] carries the largest
    order of the section. *)
Lemma last_lecture_largest (sectionId : Id) (d : Db) :
  option_map lecture_order (last_lecture sectionId d) =
    largest_order (filter (in_section sectionId) (lectures d)).
Proof.
  unfold last_lecture.
  set (ls := filter (in_section sectionId) (lectures d)).
  destruct (hd_error (sort_by order_desc ls)) as [x|] eqn:E; simpl.
  - symmetry. apply largest_order_spec.
    destruct (sort_by_head _ order_desc order_desc_total order_desc_trans ls x)
      as [Hin Hmax]; auto.
    + intros a. unfold order_desc. apply Z.leb_refl.
    + split; [eauto|]. intros y Hy. apply Z.leb_le. exact (Hmax y Hy).
  - assert (ls = []) as ->; [|reflexivity].
    apply (sort_by_nil _ order_desc).
    destruct (sort_by order_desc ls); [reflexivity | discriminate].
Qed.

Lemma parsed_map_valid {A B} (f : A -> B) (p : Parsed A) (y : B) :
  parsed_map f p = Valid y -> exists x, p = Valid x /\ y = f x.
Proof. destruct p; simpl; [intros [= <-]; eauto | discriminate]. Qed.

Lemma parsed_pair_valid {A B} (pa : Parsed A) (pb : Parsed B) (x : A * B) :
  parsed_pair pa pb = Valid x -> pa = Valid (fst x) /\ pb = Valid (snd x).
Proof. destruct pa, pb; simpl; try discriminate. intros [= <-]. auto. Qed.

Lemma reliable_facts (w : World) :
  reliable w ->
  hd false (faults w) = false
  /\ hd false (tl (faults w)) = false
  /\ hd false (tl (tl (faults w))) = false
  /\ hd false (tl (tl (tl (faults w)))) = false
  /\ (forall n, existsb (fun b => b) (firstn n (tl (faults w))) = false)
  /\ (forall n, hd false (skipn n (tl (faults w))) = false).
Proof.
  unfold reliable. intros H.
  pose proof (reliable_tl _ H) as H1.
  pose proof (reliable_tl _ H1) as H2.
  pose proof (reliable_tl _ H2) as H3.
  repeat split; auto using reliable_hd.
  - intros n. revert H1. generalize (tl (faults w)). clear.
    intros l. revert n. induction l as [|b l IH]; intros [|n] H; simpl; auto.
    inversion H; subst. simpl. auto.
  - intros n. apply reliable_hd. revert H1. generalize (tl (faults w)). clear.
    intros l. revert n. induction l as [|b l IH]; intros [|n] H; simpl; auto.
    inversion H; subst. auto.
Qed.

(** Execution that first uses what the context already knows about the
    lookups and the fault schedule. *)
Ltac rewrite_known :=
  repeat match goal with
         | H : ?a = _ |- context [?a] =>
             lazymatch a with
             | context [match _ with _ => _ end] => fail
             | _ => rewrite H
             end
         | H : forall n, existsb _ (firstn n ?l) = _
           |- context [existsb _ (firstn _ ?l)] => rewrite H
         | H : forall n, hd false (skipn n ?l) = _
           |- context [hd false (skipn _ ?l)] => rewrite H
         end.

Ltac settle :=
  world_simpl; cbn [apply_call option_map populate_section populate_lecture] in *;
  repeat (progress
            (rewrite_known;
             cbn [db faults nextOid log res fst snd apply_call option_map
                  populate_section populate_lecture])).

Ltac absurd_case :=
  match goal with
  | H : _ = _ |- _ =>
      rewrite ?Bool.andb_false_r, ?Bool.andb_true_r in H; discriminate H
  | H : ?a = _, H' : ?a = _ |- _ => rewrite H in H'; discriminate H'
  | H : forall n, existsb _ (firstn n ?l) = false,
    H' : existsb _ (firstn _ ?l) = true |- _ => rewrite H in H'; discriminate H'
  end.

Ltac run_known :=
  unfold_handler;
  repeat (settle; first [split_batch | split_branch]); settle.

Ltac split_hyp H :=
  repeat match type of H with
         | context [match ?x with _ => _ end] =>
             lazymatch x with
             | context [match _ with _ => _ end] => fail
             | _ => destruct x eqn:?; try discriminate H
             end
         end.

Ltac use_reliable H :=
  let F := fresh "F" in
  pose proof (reliable_facts _ H) as F;
  destruct F as (? & ? & ? & ? & ? & ?).

Section ControllerProperties.

Variable isUrl : string -> bool.

(** A [try] block that throws has sent nothing; one that completes has sent
    one response. *)
Lemma try_block_sends (h : Handler) (req : Request) (w : World) :
  match try_block isUrl h req w with
  | (Ok _, w1) => exists r, res w1 = res w ++ [r]
  | (Throw e, w1) =>
      res w1 = res w /\
      forall issues, e = ZodError issues -> rejected isUrl h (body req) = Some issues
  end.
Proof.
  destruct h; unfold try_block, rejected; run_handler;
    try (eexists; reflexivity);
    (split; [reflexivity | intros; try discriminate]).
  all: cbn [invalid_issues]; congruence.
Qed.

(** C7. Whatever the request and the state of the world, and whichever path
    is taken (success, not found, forbidden, conflict, validation failure or
    caught exception), a lecture or wishlist handler sends exactly one
    [ApiResponse] envelope on the response object and nothing else. *)
Theorem every_path_sends_one_envelope (h : Handler) (req : Request) (w : World) :
  exists r : ApiResponse,
    res (snd (handle isUrl h req w)) = res w ++ [r]
    /\ In (response_kind r)
          [Success; Created; NotFound; Forbidden; Conflict; BadRequest; ServerError].
Proof.
  destruct h; unfold handle; run_handler;
    eexists; (split; [reflexivity | simpl; tauto]).
Qed.

Ltac log_suffix :=
  repeat rewrite <- app_assoc; cbn [app];
  first [ eexists; split; [reflexivity|]
        | exists []; split; [symmetry; apply app_nil_r|] ].

(** C5, as amended. Every handler but [reorderLectures] issues at most one
    mutating ORM call in a request.  [reorderLectures] issues no mutating
    call when it stops before its updates.  When it reaches them (the body
    is valid, the lookup of the section answers and the checks pass) its
    mutating calls are one [findByIdAndUpdate] for each id of the submitted
    array and nothing else: the call at position [k] is
    [findByIdAndUpdate(lectureIds[k], { order: k })]. *)
Theorem mutating_calls_per_request (h : Handler) (req : Request) (w : World) :
  exists new : list LogEntry,
    log (snd (handle isUrl h req w)) = log w ++ new
    /\ match h with
       | ReorderLectures =>
           (forall ids,
              reaches_updates req w ids ->
              let updates :=
                map entry_call (filter (fun e => mutating (entry_call e)) new) in
              mutating_calls new = List.length ids
              /\ List.length updates = List.length ids
              /\ forall k id,
                   nth_error ids k = Some id ->
                   nth_error updates k =
                     Some (Lecture_findByIdAndUpdate id (Z.of_nat k)))
           /\ ((forall ids, ~ reaches_updates req w ids) ->
               mutating_calls new = 0)
       | _ => mutating_calls new <= 1
       end.
Proof.
  destruct h;
    try (unfold handle; run_handler; log_suffix;
         rewrite ?mutating_calls_cons, ?mutating_calls_app, ?batch_log_mutating;
         cbn; lia).
  unfold handle.
  destruct (reorderSchema (body req)) as [ids|issues] eqn:Hbody.
  2: { run_known. log_suffix. split; [|reflexivity].
       intros ids [[Hv _] _]. congruence. }
  destruct (hd false (faults w)) eqn:Hf.
  { run_known. log_suffix. split; [|reflexivity].
    intros ids' [_ Hf']. congruence. }
  destruct (find_section (params_sectionId req) (db w)) as [s|] eqn:Hs.
  2: { run_known. log_suffix. split; [|reflexivity].
       intros ids' [(_ & s & c & u & Hs' & _) _]. congruence. }
  destruct (find_course (section_course s) (db w)) as [c|] eqn:Hc.
  2: { run_known. log_suffix. split; [|reflexivity].
       intros ids' [(_ & s' & c & u & Hs' & Hc' & _) _]. congruence. }
  destruct (user req) as [u|] eqn:Hu.
  2: { run_known. log_suffix. split; [|reflexivity].
       intros ids' [(_ & s' & c' & u & _ & _ & Hu' & _) _]. congruence. }
  destruct (not_instructor_nor_admin c u) eqn:Hauth.
  { run_known. log_suffix. split; [|reflexivity].
    intros ids' [(_ & s' & c' & u' & Hs' & Hc' & Hu' & Ha') _]. congruence. }
  assert (Hreach : reaches_updates req w ids).
  { split; [|exact Hf]. split; [exact Hbody|]. now exists s, c, u. }
  run_known; log_suffix.
  all: split; [|intros Hno; destruct (Hno ids Hreach)].
  all: intros ids0 [[Hv _] _]; rewrite Hbody in Hv; injection Hv as <-; cbv zeta.
  all: unfold mutating_calls; cbn [filter entry_call mutating];
    rewrite ?filter_app, batch_log_all_mutating; cbn [filter entry_call mutating];
    rewrite ?app_nil_r, ?length_map, batch_log_length.
  all: split; [reflexivity|]; split; [reflexivity|].
  all: intros k id Hk; rewrite nth_error_map, (batch_log_nth _ 0 _ k id Hk);
    reflexivity.
Qed.

Ltac not_retried :=
  cbn [retried app entry_failed entry_call];
  repeat match goal with
         | |- ~ _ => intro
         | H : _ \/ _ |- _ => destruct H
         | H : _ /\ _ |- _ => destruct H
         | H : exists _, _ |- _ => destruct H
         | H : False |- _ => destruct H
         | H : In _ [] |- _ => destruct H
         | H : false = true |- _ => discriminate H
         | H : retried (batch_log _ _ _) |- _ =>
             exact (batch_log_not_retried _ _ _ H)
         | H : retried (batch_log _ _ _ ++ [_]) |- _ =>
             exact (batch_then_read_not_retried _ _ _ _ _ H)
         end.

(** C4. In the log of a request no failed call is issued a second time; the
    store after the request is the store before it with every call that did
    not fail applied, so nothing is undone; and a failed call ends in exactly
    one server-error response.  For [reorderLectures] in particular: when
    one of its updates fails, the response is the server error, and every
    update that did not fail keeps its effect (for an id listed once, the
    lecture has the index as its order). *)
Theorem no_retry_no_rollback (h : Handler) (req : Request) (w : World) :
  let w' := snd (handle isUrl h req w) in
  (exists new : list LogEntry,
     log w' = log w ++ new
     /\ db w' = replay new (db w)
     /\ ~ retried new
     /\ (existsb entry_failed new = true ->
         exists msg, res w' = res w ++ [ApiResponse.serverError msg]))
  /\ (forall ids,
        h = ReorderLectures ->
        reaches_updates req w ids ->
        existsb (fun b => b) (firstn (List.length ids) (tl (faults w))) = true ->
        res w' = res w ++ [ApiResponse.serverError "Failed to reorder lectures"]
        /\ forall k id l,
             nth_error ids k = Some id ->
             nth k (tl (faults w)) false = false ->
             (forall j, nth_error ids j = Some id -> j = k) ->
             find_lecture id (db w) = Some l ->
             find_lecture id (db w') = Some (with_order (Z.of_nat k) l)).
Proof.
  cbv zeta. split.
  - destruct h; unfold handle; run_handler; log_suffix;
      (split; [unfold replay; cbn [fold_left entry_failed entry_call];
               rewrite ?fold_left_app; reflexivity |]);
      (split; [not_retried |]);
      cbn [existsb entry_failed orb]; rewrite ?existsb_app, ?batch_log_failed;
      cbn [existsb entry_failed orb]; intros Hfail; try discriminate Hfail;
      eauto.
    rewrite Hany in Hfail. discriminate Hfail.
  - intros ids -> ((Hbody & s & c & u & Hs & Hc & Hu & Hauth) & Hhd) Hfail.
    unfold handle. unfold_handler. world_simpl.
    rewrite Hbody, Hhd. cbn [apply_call]. rewrite Hs. cbn [option_map populate_section].
    rewrite Hc, Hu, Hauth. world_simpl.
    split_batch; [|congruence].
    world_simpl. split; [reflexivity|].
    intros k id l Hk Hf Huniq Hl.
    rewrite replay_batch. unfold find_lecture in *. cbn [lectures set_lectures].
    rewrite find_map_same_id, Hl.
    + cbn [option_map]. unfold find in Hl.
      assert (Hid : lecture_id l = id).
      { apply find_some in Hl. now apply String.eqb_eq. }
      rewrite Hid, (assigned_order_once ids 0 _ k id Hk Huniq Hf). reflexivity.
    + intros l0. destruct (assigned_order ids 0 _ (lecture_id l0)); reflexivity.
Qed.

(** C2. The error result of a handler follows the class of the failure: a
    body its schema rejects gives a bad request that carries the issues; a
    section, lecture, course or wishlist entry that does not exist gives not
    found; an authorization check that fails gives forbidden; and any other
    exception thrown in the [try] block is caught and gives a server error. *)
Theorem error_result_by_failure_class (h : Handler) (req : Request) (w : World) :
  let w' := snd (handle isUrl h req w) in
  (forall issues,
     rejected isUrl h (body req) = Some issues ->
     res w' = res w ++ [ApiResponse.badRequest "Validation failed" issues])
  /\ (rejected isUrl h (body req) = None ->
      reliable w ->
      resource_missing h req (db w) = true ->
      exists msg, res w' = res w ++ [ApiResponse.notFound msg])
  /\ (rejected isUrl h (body req) = None ->
      reliable w ->
      authorization_fails h req (db w) = true ->
      exists msg, res w' = res w ++ [ApiResponse.forbidden msg])
  /\ (forall e w1,
        try_block isUrl h req w = (Throw e, w1) ->
        (forall issues, e <> ZodError issues) ->
        exists msg, res w' = res w ++ [ApiResponse.serverError msg]).
Proof.
  cbv zeta. repeat split.
  - intros issues. destruct h; unfold rejected, invalid_issues, handle;
      intros Hrej; try discriminate Hrej; run_known;
      try discriminate Hrej; congruence.
  - intros Hrej Hrel. use_reliable Hrel.
    destruct h; unfold rejected, invalid_issues, resource_missing, is_none, handle in *;
      intros Hmiss; try discriminate Hmiss; split_hyp Hmiss; run_known;
      try absurd_case; eauto.
  - intros Hrej Hrel. use_reliable Hrel.
    destruct h;
      unfold rejected, invalid_issues, authorization_fails, course_of_section,
        is_none, handle in *;
      intros Hden; try discriminate Hden; split_hyp Hden; run_known;
      try absurd_case; eauto.
  - intros e w1 Htry Hzod.
    pose proof (try_block_sends h req w) as Hs. rewrite Htry in Hs.
    destruct Hs as [Hres _].
    destruct h; unfold handle, try_block in *;
      unfold getSectionLectures, getLecture, createLecture, updateLecture,
        deleteLecture, reorderLectures, getMyWishlist, addToWishlist,
        removeFromWishlist, checkWishlist, clearWishlist, try_catch, catch_zod, send;
      rewrite Htry; destruct e; cbn [snd res]; rewrite Hres; eauto;
      exfalso; eapply Hzod; reflexivity.
Qed.

Lemma createLectureSchema_omitted (fields : list (string * Json))
  (b : CreateLectureBody) :
  createLectureSchema isUrl (Some (JObj fields)) = Valid b ->
  (get_key "order" fields = None -> cb_order b = None)
  /\ (get_key "isPreview" fields = None -> cb_isPreview b = None).
Proof.
  unfold createLectureSchema, z_object. intros H.
  apply parsed_map_valid in H. destruct H as ([t [v [d [i r]]]] & H & ->).
  apply parsed_pair_valid in H. destruct H as [_ H].
  apply parsed_pair_valid in H. destruct H as [_ H].
  apply parsed_pair_valid in H. destruct H as [_ H].
  apply parsed_pair_valid in H. destruct H as [Hi Hr].
  cbn [fst snd cb_order cb_isPreview] in *.
  split; intros Hk; rewrite Hk in *; cbn [z_optional] in *; congruence.
Qed.

(** C9, as amended. A create request whose body has no [order] gets the sum
    of the largest order of the lectures of the section and one, as
    JavaScript adds numbers: exactly one more whenever that largest order is
    a safe integer, below [2^53] in magnitude, and at [2^53] that same order
    again; it gets [0] when the section has no lecture; a body with no
    [isPreview] is stored with [isPreview] false. *)
Theorem createLecture_default_order (req : Request) (w : World)
  (fields : list (string * Json)) (b : CreateLectureBody)
  (s : SectionDoc) (c : Course) (u : User) :
  reliable w ->
  body req = Some (JObj fields) ->
  createLectureSchema isUrl (body req) = Valid b ->
  get_key "order" fields = None ->
  find_section (params_sectionId req) (db w) = Some s ->
  find_course (section_course s) (db w) = Some c ->
  user req = Some u ->
  not_instructor_nor_admin c u = false ->
  let w' := snd (createLecture isUrl req w) in
  let largest := largest_order (filter (in_section (params_sectionId req))
                                       (lectures (db w))) in
  exists doc : Lecture,
    res w' = res w ++ [ApiResponse.created "Lecture created successfully"
                         (DataLecture doc)]
    /\ lectures (db w') = lectures (db w) ++ [doc]
    /\ lecture_section doc = params_sectionId req
    /\ (forall m, largest = Some m ->
        lecture_order doc = js_add m 1
        /\ (safe_integer m -> lecture_order doc = (m + 1)%Z)
        /\ (m = (2 ^ 53)%Z -> lecture_order doc = m))
    /\ (largest = None -> lecture_order doc = 0%Z)
    /\ (get_key "isPreview" fields = None -> lecture_isPreview doc = false).
Proof.
  intros Hrel Hbody Hvalid Horder Hs Hc Hu Hauth.
  use_reliable Hrel.
  assert (Hb := Hvalid). rewrite Hbody in Hb.
  destruct (createLectureSchema_omitted fields b Hb) as [Ho Hp].
  specialize (Ho Horder).
  pose proof (last_lecture_largest (params_sectionId req) (db w)) as Hlast.
  cbv zeta. rewrite <- Hlast. clear Hlast.
  destruct (last_lecture (params_sectionId req) (db w)) eqn:Hl; cbn [option_map];
    run_known.
  all: eexists; split; [reflexivity|]; split; [reflexivity|];
    split; [reflexivity|];
    cbn [lecture_order lecture_section lecture_isPreview].
  all: split; [|split; [|intros Hk; rewrite (Hp Hk); reflexivity]].
  - intros m [= <-]. split; [reflexivity|]. split; [apply js_add_1_safe|].
    intros ->. reflexivity.
  - discriminate.
  - discriminate.
  - reflexivity.
Qed.

(** C10. [checkWishlist] answers with success whether or not the requester
    has a wishlist.  With no wishlist document the [isInWishlist] of the
    payload is the [null] the lookup returned, which is falsy and is not a
    boolean; with a wishlist document it is the boolean [includes] gives. *)
Theorem checkWishlist_payload (req : Request) (w : World) (u : User) :
  reliable w ->
  user req = Some u ->
  let w' := snd (checkWishlist req w) in
  exists v : JsVal,
    res w' = res w ++ [ApiResponse.success "Wishlist status checked" (DataCheck v)]
    /\ match find_wishlist_of (user_id u) (db w) with
       | None => v = JsNull /\ truthy v = false /\ is_boolean v = false
                 /\ v <> JsBool false
       | Some wl =>
           v = JsBool (includes (params_courseId req) (wishlist_courses wl))
           /\ is_boolean v = true
       end.
Proof.
  intros Hrel Hu. use_reliable Hrel. cbv zeta. run_known;
    eexists; (split; [reflexivity|]); repeat split; discriminate.
Qed.

Lemma not_instructor_nor_admin_spec (c : Course) (u : User) :
  not_instructor_nor_admin c u = negb (instructor_or_admin c u).
Proof.
  unfold not_instructor_nor_admin, instructor_or_admin.
  now rewrite Bool.negb_orb.
Qed.

Ltac by_role :=
  try reflexivity;
  unfold no_user_or_not_instructor_nor_admin in *;
  rewrite ?not_instructor_nor_admin_spec in *;
  repeat match goal with
         | H : context [instructor_or_admin ?c ?u] |- _ =>
             destruct (instructor_or_admin c u)
         | |- context [instructor_or_admin ?c ?u] =>
             destruct (instructor_or_admin c u)
         end;
  cbn [negb andb orb is_none response_kind ApiResponse.success
       ApiResponse.created ApiResponse.forbidden] in *;
  rewrite ?Bool.orb_true_r, ?Bool.orb_false_r, ?Bool.andb_false_r in *;
  cbn [negb andb orb] in *;
  try reflexivity; try congruence.

(** C1, as amended. With the ORM answering, a request that reaches the
    authorization check of [getSectionLectures] (on an unpublished course),
    [createLecture], [updateLecture], [deleteLecture] or [reorderLectures]
    gets past it exactly when its user is the instructor of the course or an
    admin, and is answered forbidden otherwise ([getSectionLectures] also
    answers forbidden when the request has no user).  [getLecture], on an
    unpublished course or a lecture that is not a preview, also lets in every
    requester who has an enrollment in the course. *)
Theorem authorization_check (req : Request) (w : World) :
  reliable w ->
  (forall s c,
     find_section (params_sectionId req) (db w) = Some s ->
     find_course (section_course s) (db w) = Some c ->
     (course_published c = false ->
      exists r, res (snd (getSectionLectures req w)) = res w ++ [r]
                /\ response_kind r =
                     if match user req with
                        | Some u => instructor_or_admin c u
                        | None => false
                        end
                     then Success else Forbidden)
     /\ (forall u b,
          user req = Some u ->
          createLectureSchema isUrl (body req) = Valid b ->
          exists r, res (snd (createLecture isUrl req w)) = res w ++ [r]
                    /\ response_kind r =
                         if instructor_or_admin c u then Created else Forbidden)
     /\ (forall u ids,
          user req = Some u ->
          reorderSchema (body req) = Valid ids ->
          exists r, res (snd (reorderLectures req w)) = res w ++ [r]
                    /\ response_kind r =
                         if instructor_or_admin c u then Success else Forbidden))
  /\ (forall l s c,
       find_lecture (params_id req) (db w) = Some l ->
       find_section (lecture_section l) (db w) = Some s ->
       find_course (section_course s) (db w) = Some c ->
       (forall u b,
          user req = Some u ->
          updateLectureSchema isUrl (body req) = Valid b ->
          exists r, res (snd (updateLecture isUrl req w)) = res w ++ [r]
                    /\ response_kind r =
                         if instructor_or_admin c u then Success else Forbidden)
       /\ (forall u,
            user req = Some u ->
            exists r, res (snd (deleteLecture req w)) = res w ++ [r]
                      /\ response_kind r =
                           if instructor_or_admin c u then Success else Forbidden)
       /\ (course_published c = false \/ lecture_isPreview l = false ->
           exists r, res (snd (getLecture req w)) = res w ++ [r]
                     /\ response_kind r =
                          if match user req with
                             | Some u => instructor_or_admin c u
                             | None => false
                             end
                             || negb (is_none
                                        (find_enrollment
                                           (option_map user_id (user req))
                                           (course_id c) (db w)))
                          then Success else Forbidden)).
Proof.
  intros Hrel. use_reliable Hrel. split.
  - intros s c Hs Hc. repeat split.
    + intros Hpub. run_known; (eexists; split; [reflexivity|]); by_role.
    + intros u b Hu Hb. run_known; (eexists; split; [reflexivity|]); by_role.
    + intros u ids Hu Hb. run_known; (eexists; split; [reflexivity|]);
        try absurd_case; by_role.
  - intros l s c Hl Hs Hc. repeat split.
    + intros u b Hu Hb. run_known; (eexists; split; [reflexivity|]); by_role.
    + intros u Hu. run_known; (eexists; split; [reflexivity|]); by_role.
    + intros Hcase. run_known; (eexists; split; [reflexivity|]);
        destruct Hcase as [Hcase | Hcase]; rewrite ?Hcase in *; by_role.
Qed.

(** The updates of [reorderLectures] and the documents they write. *)
Lemma reorderLectures_updates (req : Request) (w : World) (ids : list Id) :
  reliable w ->
  may_reorder req (db w) ids ->
  let w' := snd (reorderLectures req w) in
  (exists new,
     log w' = log w ++ new
     /\ filter (fun e => mutating (entry_call e)) new =
          map_index
            (fun id k => mkEntry (Lecture_findByIdAndUpdate id (Z.of_nat k)) false)
            ids
     /\ db w' = replay new (db w)
     /\ forall k id l,
          nth_error ids k = Some id ->
          find_lecture id (db w) = Some l ->
          nth_error new (S k) =
            Some (mkEntry (Lecture_findByIdAndUpdate id (Z.of_nat k)) false)
          /\ find_lecture id (replay (firstn (S (S k)) new) (db w)) =
               Some (with_order (Z.of_nat k) l))
  /\ (forall k id l,
        nth_error ids k = Some id ->
        (forall j, nth_error ids j = Some id -> j = k) ->
        find_lecture id (db w) = Some l ->
        find_lecture id (db w') = Some (with_order (Z.of_nat k) l))
  /\ (exists listed,
        res w' = res w ++ [ApiResponse.success "Lectures reordered successfully"
                             (DataLectures listed)]
        /\ Permutation (filter (in_section (params_sectionId req))
                               (lectures (db w'))) listed
        /\ StronglySorted (fun a b => (lecture_order a <= lecture_order b)%Z)
                          listed).
Proof.
  intros Hrel (Hbody & s & c & u & Hs & Hc & Hu & Hauth).
  pose proof (reliable_tl _ Hrel) as Hrel'.
  use_reliable Hrel. cbv zeta. run_known; try absurd_case.
  split; [|split].
  - log_suffix. cbn [filter entry_call mutating].
    rewrite filter_app, batch_log_all_mutating. cbn [filter entry_call mutating].
    rewrite app_nil_r. split; [apply batch_log_reliable; exact Hrel'|].
    split.
    { unfold replay. cbn [fold_left entry_failed entry_call].
      rewrite fold_left_app. reflexivity. }
    intros k id l Hk Hl.
    assert (Hlt : k < List.length ids) by (apply nth_error_Some; congruence).
    split.
    + cbn [nth_error]. rewrite nth_error_app1 by (rewrite batch_log_length; exact Hlt).
      rewrite (batch_log_nth _ 0 _ k id Hk), (reliable_nth _ _ Hrel'). reflexivity.
    + rewrite firstn_cons, firstn_app.
      replace (S k - List.length (batch_log ids 0 (tl (faults w)))) with 0
        by (rewrite batch_log_length; lia).
      rewrite firstn_0, app_nil_r, batch_log_firstn.
      unfold replay at 1. cbn [fold_left entry_failed entry_call apply_call].
      fold (replay (batch_log (firstn (S k) ids) 0 (tl (faults w)))).
      rewrite replay_batch. unfold find_lecture in *. cbn [lectures set_lectures].
      rewrite find_map_same_id, Hl.
      * cbn [option_map].
        assert (Hid : lecture_id l = id).
        { apply find_some in Hl. now apply String.eqb_eq. }
        rewrite Hid, (assigned_order_last ids 0 _ k id Hk (reliable_nth _ _ Hrel')).
        reflexivity.
      * intros l0.
        destruct (assigned_order (firstn (S k) ids) 0 _ (lecture_id l0)); reflexivity.
  - intros k id l Hk Huniq Hl.
    rewrite replay_batch. unfold find_lecture in *. cbn [lectures set_lectures].
    rewrite find_map_same_id, Hl.
    + cbn [option_map].
      assert (Hid : lecture_id l = id).
      { apply find_some in Hl. now apply String.eqb_eq. }
      rewrite Hid, (assigned_order_once ids 0 _ k id Hk Huniq (reliable_nth _ _ Hrel')).
      reflexivity.
    + intros l0. destruct (assigned_order ids 0 _ (lecture_id l0)); reflexivity.
  - eexists. split; [reflexivity|]. apply lectures_of_section_sorted.
Qed.

(** C8. When its checks pass and the ORM answers, [reorderLectures] issues
    one update for each index [i] of the submitted array,
    [findByIdAndUpdate(lectureIds[i], { order: i })], and no other write;
    that update sets the order of the lecture with that id, if there is one,
    to [i] and leaves its other fields as they were, whatever section the
    lecture belongs to: no membership in the section of the URL is checked.  In particular a lecture whose id is
    listed once has the index as its order when the request is over.  The
    response lists the lectures of the section of the URL, each once, by
    ascending order. *)
Theorem reorderLectures_sets_order (req : Request) (w : World) (ids : list Id) :
  reliable w ->
  may_reorder req (db w) ids ->
  let w' := snd (reorderLectures req w) in
  (exists new,
     log w' = log w ++ new
     /\ filter (fun e => mutating (entry_call e)) new =
          map_index
            (fun id k => mkEntry (Lecture_findByIdAndUpdate id (Z.of_nat k)) false)
            ids
     /\ db w' = replay new (db w)
     /\ forall k id l,
          nth_error ids k = Some id ->
          find_lecture id (db w) = Some l ->
          nth_error new (S k) =
            Some (mkEntry (Lecture_findByIdAndUpdate id (Z.of_nat k)) false)
          /\ exists l',
               find_lecture id (replay (firstn (S (S k)) new) (db w)) = Some l'
               /\ lecture_order l' = Z.of_nat k
               /\ keeps_but_order l l')
  /\ (forall k id l,
        nth_error ids k = Some id ->
        (forall j, nth_error ids j = Some id -> j = k) ->
        find_lecture id (db w) = Some l ->
        exists l',
          find_lecture id (db w') = Some l'
          /\ lecture_order l' = Z.of_nat k
          /\ keeps_but_order l l')
  /\ (exists listed,
        res w' = res w ++ [ApiResponse.success "Lectures reordered successfully"
                             (DataLectures listed)]
        /\ Permutation (filter (in_section (params_sectionId req))
                               (lectures (db w'))) listed
        /\ StronglySorted (fun a b => (lecture_order a <= lecture_order b)%Z)
                          listed).
Proof.
  intros Hrel Hmay.
  destruct (reorderLectures_updates req w ids Hrel Hmay)
    as ((new & Hlog & Hfilter & Hdb & Hstep) & Hfinal & Hlisted).
  cbv zeta. split; [|split; [|exact Hlisted]].
  - exists new. split; [exact Hlog|]. split; [exact Hfilter|].
    split; [exact Hdb|].
    intros k id l Hk Hl. destruct (Hstep k id l Hk Hl) as [Hcall Hfound].
    split; [exact Hcall|].
    exists (with_order (Z.of_nat k) l). split; [exact Hfound|].
    repeat split.
  - intros k id l Hk Huniq Hl.
    exists (with_order (Z.of_nat k) l).
    split; [exact (Hfinal k id l Hk Huniq Hl)|]. repeat split.
Qed.

(** ** The wishlist invariant *)

Lemma includes_In (id : Id) (ids : list Id) :
  includes id ids = true <-> In id ids.
Proof.
  unfold includes. rewrite existsb_exists. split.
  - intros (x & Hx & He). apply String.eqb_eq in He. now subst.
  - intros H. exists id. split; [exact H | apply String.eqb_refl].
Qed.

Lemma found_wishlist_good (d : Db) (u : Id) (wl : Wishlist) :
  wishlists_good d -> find_wishlist_of u d = Some wl -> good_wishlist d wl.
Proof.
  unfold wishlists_good, find_wishlist_of. rewrite Forall_forall.
  intros H Hf. apply find_some in Hf. apply H, Hf.
Qed.

Lemma wishlists_good_create (d : Db) (doc : Wishlist) :
  wishlists_good d -> good_wishlist d doc ->
  wishlists_good (set_wishlists (wishlists d ++ [doc]) d).
Proof.
  unfold wishlists_good. cbn. intros H Hd.
  apply Forall_app. split; [exact H | constructor; [exact Hd | constructor]].
Qed.

Lemma wishlists_good_save (d : Db) (doc : Wishlist) :
  wishlists_good d -> good_wishlist d doc ->
  wishlists_good (set_wishlists (replace_wishlist doc (wishlists d)) d).
Proof.
  unfold wishlists_good. cbn. intros H Hd. unfold replace_wishlist.
  rewrite Forall_forall in *. intros x Hx. apply in_map_iff in Hx.
  destruct Hx as (y & <- & Hy).
  destruct (String.eqb (wishlist_id y) (wishlist_id doc)); [exact Hd | exact (H y Hy)].
Qed.

Lemma good_wishlist_push (d : Db) (wl : Wishlist) (id : Id) (c : Course) :
  good_wishlist d wl ->
  includes id (wishlist_courses wl) = false ->
  find_course id d = Some c ->
  good_wishlist d (mkWishlist (wishlist_id wl) (wishlist_user wl)
                              (wishlist_courses wl ++ [id])).
Proof.
  intros [Hn Hk] Hi Hc. split; cbn.
  - apply NoDup_app; [exact Hn | repeat constructor; intros [] | ].
    intros x Hx [<- | []]. apply includes_In in Hx. congruence.
  - apply Forall_app. split; [exact Hk|]. repeat constructor. congruence.
Qed.

Lemma good_wishlist_filter (d : Db) (wl : Wishlist) (f : Id -> bool) :
  good_wishlist d wl ->
  good_wishlist d (mkWishlist (wishlist_id wl) (wishlist_user wl)
                              (filter f (wishlist_courses wl))).
Proof.
  intros [Hn Hk]. split; cbn.
  - now apply NoDup_filter.
  - rewrite Forall_forall in *. intros x Hx. apply filter_In in Hx. now apply Hk.
Qed.

Lemma wishlists_good_call (c : WishlistCall) (w : World) :
  wishlists_good (db w) -> wishlists_good (db (call isUrl c w)).
Proof.
  intros Hinv.
  destruct c; unfold call, serve, handle; run_handler;
    cbn [apply_call] in *;
    repeat match goal with
           | H : find_wishlist_of _ _ = Some _ |- _ =>
               apply (found_wishlist_good _ _ _ Hinv) in H
           end;
    first [ exact Hinv
          | apply wishlists_good_create;
            [ exact Hinv
            | split; cbn;
              [ repeat constructor; intros [] | repeat constructor; congruence ] ]
          | apply wishlists_good_save;
            [ exact Hinv
            | first [ eapply good_wishlist_push; eauto
                    | now apply good_wishlist_filter
                    | split; cbn; constructor ] ] ].
Qed.

Lemma wishlists_good_calls (cs : list WishlistCall) :
  forall w, wishlists_good (db w) -> wishlists_good (db (calls isUrl cs w)).
Proof.
  induction cs as [|c cs IH]; intros w H; [exact H|].
  apply IH, wishlists_good_call, H.
Qed.

Lemma addToWishlist_conflict (req : Request) (w : World) (u : User)
  (courseId : Id) (wl : Wishlist) (c : Course) :
  reliable w ->
  user req = Some u ->
  addToWishlistSchema (body req) = Valid courseId ->
  find_course courseId (db w) = Some c ->
  find_wishlist_of (user_id u) (db w) = Some wl ->
  includes courseId (wishlist_courses wl) = true ->
  res (snd (addToWishlist req w)) =
    res w ++ [ApiResponse.conflict "Course already in wishlist"]
  /\ db (snd (addToWishlist req w)) = db w.
Proof.
  intros Hrel Hu Hbody Hc Hwl Hin. use_reliable Hrel.
  run_known. split; reflexivity.
Qed.

(** C3. Along every sequence of [addToWishlist], [removeFromWishlist] and
    [clearWishlist] calls, from a store whose wishlists are absent or empty,
    no wishlist ever holds the same course id twice; and with a course id
    that the requester's wishlist already holds, [addToWishlist] answers
    conflict and leaves the store as it was. *)
Theorem wishlist_courses_stay_unique (cs : list WishlistCall) (w : World) :
  wishlists_empty (db w) ->
  let w' := calls isUrl cs w in
  unique_courses (db w')
  /\ forall req u courseId wl,
       reliable w' ->
       user req = Some u ->
       addToWishlistSchema (body req) = Valid courseId ->
       find_wishlist_of (user_id u) (db w') = Some wl ->
       In courseId (wishlist_courses wl) ->
       res (serve isUrl AddToWishlist req w') =
         [ApiResponse.conflict "Course already in wishlist"]
       /\ db (serve isUrl AddToWishlist req w') = db w'.
Proof.
  intros Hempty.
  assert (Hgood : wishlists_good (db (calls isUrl cs w))).
  { apply wishlists_good_calls. unfold wishlists_good, wishlists_empty in *.
    rewrite Forall_forall in *. intros wl Hwl. unfold good_wishlist.
    rewrite (Hempty wl Hwl). split; constructor. }
  cbv zeta. generalize dependent (calls isUrl cs w). clear w Hempty. intros w Hgood.
  split.
  - unfold unique_courses. unfold wishlists_good in Hgood.
    rewrite Forall_forall in *. intros wl Hwl. apply (Hgood wl Hwl).
  - intros req u courseId wl Hrel Hu Hbody Hwl Hin.
    destruct (found_wishlist_good _ _ _ Hgood Hwl) as [_ Hknown].
    rewrite Forall_forall in Hknown. specialize (Hknown _ Hin).
    apply includes_In in Hin.
    destruct (find_course courseId (db w)) eqn:Hc; [|congruence].
    exact (addToWishlist_conflict req (fresh_res w) u courseId wl c
             Hrel Hu Hbody Hc Hwl Hin).
Qed.

(** ** What the handlers leave alone *)

(** X1. A body that the schema of the handler rejects is answered before any
    model is touched: no ORM call is issued, the store and the supply of
    object ids are as they were. *)
Theorem rejected_body_touches_nothing (h : Handler) (req : Request) (w : World)
  (issues : list ZodIssue) :
  rejected isUrl h (body req) = Some issues ->
  let w' := snd (handle isUrl h req w) in
  db w' = db w /\ log w' = log w /\ faults w' = faults w /\ nextOid w' = nextOid w.
Proof.
  cbv zeta. destruct h; unfold rejected, invalid_issues, handle;
    intros Hrej; try discriminate Hrej; run_known;
    try discriminate Hrej; repeat split.
Qed.

(** X2. A request answered with bad request, forbidden, not found or conflict
    has written nothing: the store is as it was and no mutating call was
    issued. *)
Theorem client_errors_leave_store_unchanged (h : Handler) (req : Request)
  (w : World) (r : ApiResponse) :
  let w' := snd (handle isUrl h req w) in
  res w' = res w ++ [r] ->
  client_error (response_kind r) = true ->
  db w' = db w
  /\ exists new, log w' = log w ++ new /\ mutating_calls new = 0.
Proof.
  cbv zeta. destruct h; unfold handle; run_handler;
    intros Hres Hkind; apply app_inv_head in Hres; injection Hres as <-;
    try discriminate Hkind;
    (split; [reflexivity | log_suffix; reflexivity]).
Qed.

(** X3. The handlers of the GET routes never write, whatever they answer and
    whatever fails. *)
Theorem read_handlers_never_write (h : Handler) (req : Request) (w : World) :
  read_only h = true ->
  let w' := snd (handle isUrl h req w) in
  db w' = db w
  /\ nextOid w' = nextOid w
  /\ exists new, log w' = log w ++ new /\ mutating_calls new = 0.
Proof.
  cbv zeta. destruct h; intros Hro; try discriminate Hro;
    unfold handle; run_handler;
    (split; [reflexivity | split; [reflexivity | log_suffix; reflexivity]]).
Qed.

(** ** Updating and deleting a lecture *)

Lemma find_replace_lecture_same (doc l : Lecture) (ls : list Lecture) :
  find (fun x => String.eqb (lecture_id x) (lecture_id doc)) ls = Some l ->
  find (fun x => String.eqb (lecture_id x) (lecture_id doc)) (replace_lecture doc ls)
    = Some doc.
Proof.
  induction ls as [|x ls IH]; simpl; [discriminate|].
  destruct (String.eqb (lecture_id x) (lecture_id doc)) eqn:E.
  - intros _. now rewrite String.eqb_refl.
  - intros H. rewrite E. auto.
Qed.

Lemma find_replace_lecture_other (doc : Lecture) (id : Id) (ls : list Lecture) :
  id <> lecture_id doc ->
  find (fun x => String.eqb (lecture_id x) id) (replace_lecture doc ls) =
    find (fun x => String.eqb (lecture_id x) id) ls.
Proof.
  intros Hne. induction ls as [|x ls IH]; simpl; [reflexivity|].
  destruct (String.eqb (lecture_id x) (lecture_id doc)) eqn:E.
  - apply String.eqb_eq in E.
    assert (H1 : String.eqb (lecture_id doc) id = false)
      by (apply String.eqb_neq; congruence).
    assert (H2 : String.eqb (lecture_id x) id = false)
      by (apply String.eqb_neq; congruence).
    now rewrite H1, H2.
  - now rewrite IH.
Qed.

Lemma find_delete_lecture_same (id : Id) (ls : list Lecture) :
  find (fun x => String.eqb (lecture_id x) id) (delete_lecture id ls) = None.
Proof.
  induction ls as [|x ls IH]; simpl; [reflexivity|].
  destruct (String.eqb (lecture_id x) id) eqn:E; simpl; [exact IH|].
  now rewrite E.
Qed.

Lemma find_delete_lecture_other (id id' : Id) (ls : list Lecture) :
  id' <> id ->
  find (fun x => String.eqb (lecture_id x) id') (delete_lecture id ls) =
    find (fun x => String.eqb (lecture_id x) id') ls.
Proof.
  intros Hne. induction ls as [|x ls IH]; simpl; [reflexivity|].
  destruct (String.eqb (lecture_id x) id) eqn:E; simpl.
  - apply String.eqb_eq in E.
    assert (H : String.eqb (lecture_id x) id' = false)
      by (apply String.eqb_neq; congruence).
    now rewrite H.
  - destruct (String.eqb (lecture_id x) id'); auto.
Qed.

Lemma found_lecture_id (id : Id) (d : Db) (l : Lecture) :
  find_lecture id d = Some l -> lecture_id l = id.
Proof.
  unfold find_lecture. intros H. apply find_some in H. now apply String.eqb_eq.
Qed.

Lemma updateLectureSchema_omitted (fields : list (string * Json))
  (b : UpdateLectureBody) :
  updateLectureSchema isUrl (Some (JObj fields)) = Valid b ->
  (get_key "title" fields = None -> ub_title b = None)
  /\ (get_key "videoUrl" fields = None -> ub_videoUrl b = None)
  /\ (get_key "duration" fields = None -> ub_duration b = None)
  /\ (get_key "isPreview" fields = None -> ub_isPreview b = None)
  /\ (get_key "order" fields = None -> ub_order b = None).
Proof.
  unfold updateLectureSchema, z_object. intros H.
  apply parsed_map_valid in H. destruct H as ([t [v [d [i r]]]] & H & ->).
  apply parsed_pair_valid in H. destruct H as [Ht H].
  apply parsed_pair_valid in H. destruct H as [Hv H].
  apply parsed_pair_valid in H. destruct H as [Hd H].
  apply parsed_pair_valid in H. destruct H as [Hi Hr].
  cbn [fst snd ub_title ub_videoUrl ub_duration ub_isPreview ub_order] in *.
  repeat split; intros Hk; rewrite Hk in *; cbn [z_optional] in *; congruence.
Qed.

Lemma integer_value (q : Q) :
  is_integer q = true -> Qeq (inject_Z (to_integer q)) q.
Proof.
  unfold is_integer, to_integer, Qeq, inject_Z. cbn [Qnum Qden].
  intros H. apply Z.eqb_eq in H.
  rewrite Z.mul_1_r, Z.mul_comm.
  symmetry. apply Z_div_exact_full_2; [discriminate | exact H].
Qed.

Lemma updateLectureSchema_given (fields : list (string * Json))
  (b : UpdateLectureBody) :
  updateLectureSchema isUrl (Some (JObj fields)) = Valid b ->
  (forall t, get_key "title" fields = Some (JStr t) -> ub_title b = Some t)
  /\ (forall v, get_key "videoUrl" fields = Some (JStr v) -> ub_videoUrl b = Some v)
  /\ (forall q, get_key "duration" fields = Some (JNum q) -> ub_duration b = Some q)
  /\ (forall p, get_key "isPreview" fields = Some (JBool p) ->
      ub_isPreview b = Some p)
  /\ (forall q, get_key "order" fields = Some (JNum q) ->
      exists o, ub_order b = Some o /\ Qeq (inject_Z o) q).
Proof.
  unfold updateLectureSchema, z_object. intros H.
  apply parsed_map_valid in H. destruct H as ([t [v [d [i r]]]] & H & ->).
  apply parsed_pair_valid in H. destruct H as [Ht H].
  apply parsed_pair_valid in H. destruct H as [Hv H].
  apply parsed_pair_valid in H. destruct H as [Hd H].
  apply parsed_pair_valid in H. destruct H as [Hi Hr].
  cbn [fst snd ub_title ub_videoUrl ub_duration ub_isPreview ub_order] in *.
  split; [|split; [|split; [|split]]].
  - intros x Hk. rewrite Hk in Ht.
    unfold z_optional, z_string_min, z_string, parsed_map in Ht.
    destruct (Nat.ltb (String.length x) 3); congruence.
  - intros x Hk. rewrite Hk in Hv.
    unfold z_optional, z_string_url, z_string, parsed_map in Hv.
    destruct (isUrl x); congruence.
  - intros x Hk. rewrite Hk in Hd.
    unfold z_optional, z_number_min0, parsed_map in Hd.
    destruct (Qle_bool 0 x); congruence.
  - intros x Hk. rewrite Hk in Hi.
    unfold z_optional, z_boolean, parsed_map in Hi. congruence.
  - intros x Hk. rewrite Hk in Hr.
    unfold z_optional, z_number_int_min0, parsed_map in Hr.
    destruct (is_integer x) eqn:Hint; destruct (Qle_bool 0 x);
      try discriminate Hr.
    injection Hr as <-. exists (to_integer x).
    split; [reflexivity | exact (integer_value x Hint)].
Qed.

Lemma updateLecture_run (req : Request) (w : World) (b : UpdateLectureBody)
  (l : Lecture) (s : SectionDoc) (c : Course) (u : User) :
  reliable w ->
  updateLectureSchema isUrl (body req) = Valid b ->
  find_lecture (params_id req) (db w) = Some l ->
  find_section (lecture_section l) (db w) = Some s ->
  find_course (section_course s) (db w) = Some c ->
  user req = Some u ->
  not_instructor_nor_admin c u = false ->
  res (snd (updateLecture isUrl req w)) =
    res w ++ [ApiResponse.success "Lecture updated successfully"
                (DataPopulatedLecture (apply_updates b l, Some (s, Some c)))]
  /\ db (snd (updateLecture isUrl req w)) =
       set_lectures (replace_lecture (apply_updates b l) (lectures (db w))) (db w).
Proof.
  intros Hrel Hvalid Hl Hs Hc Hu Hauth.
  use_reliable Hrel. run_known. unfold populate_section. rewrite Hc.
  split; reflexivity.
Qed.

(** X4. [updateLecture] is a partial update.  When its checks pass and the ORM
    answers, the stored lecture takes the value of every field the body
    gives (title, videoUrl, duration, isPreview, order) and keeps every
    field the body leaves out, its id and its section never change, no other
    lecture changes, and the response carries the updated lecture. *)
Theorem updateLecture_partial_update (req : Request) (w : World)
  (fields : list (string * Json)) (b : UpdateLectureBody)
  (l : Lecture) (s : SectionDoc) (c : Course) (u : User) :
  reliable w ->
  body req = Some (JObj fields) ->
  updateLectureSchema isUrl (body req) = Valid b ->
  find_lecture (params_id req) (db w) = Some l ->
  find_section (lecture_section l) (db w) = Some s ->
  find_course (section_course s) (db w) = Some c ->
  user req = Some u ->
  not_instructor_nor_admin c u = false ->
  let w' := snd (updateLecture isUrl req w) in
  exists l',
    res w' = res w ++ [ApiResponse.success "Lecture updated successfully"
                         (DataPopulatedLecture (l', Some (s, Some c)))]
    /\ find_lecture (params_id req) (db w') = Some l'
    /\ lecture_id l' = lecture_id l
    /\ lecture_section l' = lecture_section l
    /\ lecture_title l' =
         match get_key "title" fields with
         | Some (JStr t) => t
         | _ => lecture_title l
         end
    /\ (forall o, ub_order b = Some o -> lecture_order l' = o)
    /\ (forall v, get_key "videoUrl" fields = Some (JStr v) ->
        lecture_videoUrl l' = Some v)
    /\ (forall q, get_key "duration" fields = Some (JNum q) ->
        lecture_duration l' = Some q)
    /\ (forall p, get_key "isPreview" fields = Some (JBool p) ->
        lecture_isPreview l' = p)
    /\ (forall q, get_key "order" fields = Some (JNum q) ->
        Qeq (inject_Z (lecture_order l')) q)
    /\ (get_key "videoUrl" fields = None -> lecture_videoUrl l' = lecture_videoUrl l)
    /\ (get_key "duration" fields = None -> lecture_duration l' = lecture_duration l)
    /\ (get_key "isPreview" fields = None ->
        lecture_isPreview l' = lecture_isPreview l)
    /\ (get_key "order" fields = None -> lecture_order l' = lecture_order l)
    /\ (forall id, id <> params_id req ->
        find_lecture id (db w') = find_lecture id (db w)).
Proof.
  intros Hrel Hbody Hvalid Hl Hs Hc Hu Hauth.
  assert (Hb := Hvalid). rewrite Hbody in Hb.
  destruct (updateLectureSchema_omitted fields b Hb) as (Ht & Hv & Hd & Hi & Ho).
  destruct (updateLectureSchema_given fields b Hb) as (_ & Gv & Gd & Gi & Go).
  assert (Htitle : match ub_title b with Some t => t | None => lecture_title l end =
                   match get_key "title" fields with
                   | Some (JStr t) => t
                   | _ => lecture_title l
                   end).
  { clear - Hb. unfold updateLectureSchema, z_object in Hb.
    apply parsed_map_valid in Hb. destruct Hb as ([t [v [d [i r]]]] & H & ->).
    apply parsed_pair_valid in H. destruct H as [Ht _].
    cbn [fst ub_title] in *.
    unfold z_optional, z_string_min, z_string, parsed_map in Ht.
    destruct (get_key "title" fields) as [[| | |x| |]|]; try discriminate Ht.
    - destruct (Nat.ltb (String.length x) 3); [discriminate Ht|].
      injection Ht as <-. reflexivity.
    - injection Ht as <-. reflexivity. }
  pose proof (found_lecture_id _ _ _ Hl) as Hid.
  destruct (updateLecture_run req w b l s c u Hrel Hvalid Hl Hs Hc Hu Hauth)
    as [Hres Hdb].
  cbv zeta. rewrite Hres, Hdb.
  exists (apply_updates b l). unfold find_lecture in *.
  cbn [lectures set_lectures apply_updates lecture_id lecture_section lecture_title
       lecture_videoUrl lecture_duration lecture_isPreview lecture_order].
  split; [reflexivity|]. split.
  { rewrite <- Hid in *.
    change (lecture_id l) with (lecture_id (apply_updates b l)) in Hl |- *.
    eapply find_replace_lecture_same. exact Hl. }
  repeat split; try exact Htitle.
  - intros o Hoo. now rewrite Hoo.
  - intros v Hk. now rewrite (Gv v Hk).
  - intros q Hk. now rewrite (Gd q Hk).
  - intros p Hk. now rewrite (Gi p Hk).
  - intros q Hk. destruct (Go q Hk) as (o & -> & Hq). exact Hq.
  - intros Hk. now rewrite (Hv Hk).
  - intros Hk. now rewrite (Hd Hk).
  - intros Hk. now rewrite (Hi Hk).
  - intros Hk. now rewrite (Ho Hk).
  - intros id Hne. apply find_replace_lecture_other.
    cbn [apply_updates lecture_id]. congruence.
Qed.

Lemma reliable_skipn (n : nat) (l : list bool) :
  Forall (fun b => b = false) l -> Forall (fun b => b = false) (skipn n l).
Proof.
  revert l. induction n as [|n IH]; intros l H; [exact H|].
  destruct l; [constructor|]. inversion H; subst. now apply IH.
Qed.

(** A handler consumes the fault schedule from the front: it leaves an ORM
    that answers as it found it. *)
Lemma handle_keeps_reliable (h : Handler) (req : Request) (w : World) :
  reliable w -> reliable (snd (handle isUrl h req w)).
Proof.
  unfold reliable. intros Hrel.
  destruct h; unfold handle; run_handler;
    repeat first [ exact Hrel | apply reliable_tl | apply reliable_skipn ].
Qed.

Lemma lecture_not_found (req : Request) (w : World) :
  reliable w ->
  find_lecture (params_id req) (db w) = None ->
  res (snd (getLecture req w)) = res w ++ [ApiResponse.notFound "Lecture not found"]
  /\ res (snd (deleteLecture req w)) =
       res w ++ [ApiResponse.notFound "Lecture not found"].
Proof.
  intros Hrel Hnone. use_reliable Hrel. split; run_known; reflexivity.
Qed.

Lemma deleteLecture_run (req : Request) (w : World)
  (l : Lecture) (s : SectionDoc) (c : Course) (u : User) :
  reliable w ->
  find_lecture (params_id req) (db w) = Some l ->
  find_section (lecture_section l) (db w) = Some s ->
  find_course (section_course s) (db w) = Some c ->
  user req = Some u ->
  not_instructor_nor_admin c u = false ->
  res (snd (deleteLecture req w)) =
    res w ++ [ApiResponse.success "Lecture deleted successfully" NoData]
  /\ db (snd (deleteLecture req w)) =
       set_lectures (delete_lecture (params_id req) (lectures (db w))) (db w).
Proof.
  intros Hrel Hl Hs Hc Hu Hauth.
  use_reliable Hrel. run_known. split; reflexivity.
Qed.

(** X5. [deleteLecture], when its checks pass and the ORM answers, removes the
    lecture and nothing else: the id is no longer found, every other id is
    found as before, and a later [getLecture] or [deleteLecture] of the same
    id is answered not found. *)
Theorem deleteLecture_removes_the_lecture (req : Request) (w : World)
  (l : Lecture) (s : SectionDoc) (c : Course) (u : User) :
  reliable w ->
  find_lecture (params_id req) (db w) = Some l ->
  find_section (lecture_section l) (db w) = Some s ->
  find_course (section_course s) (db w) = Some c ->
  user req = Some u ->
  not_instructor_nor_admin c u = false ->
  let w' := snd (deleteLecture req w) in
  res w' = res w ++ [ApiResponse.success "Lecture deleted successfully" NoData]
  /\ find_lecture (params_id req) (db w') = None
  /\ (forall id, id <> params_id req ->
      find_lecture id (db w') = find_lecture id (db w))
  /\ (forall req2,
      params_id req2 = params_id req ->
      res (snd (getLecture req2 w')) =
        res w' ++ [ApiResponse.notFound "Lecture not found"]
      /\ res (snd (deleteLecture req2 w')) =
           res w' ++ [ApiResponse.notFound "Lecture not found"]).
Proof.
  intros Hrel Hl Hs Hc Hu Hauth.
  destruct (deleteLecture_run req w l s c u Hrel Hl Hs Hc Hu Hauth) as [Hres Hdb].
  pose proof (handle_keeps_reliable DeleteLecture req w Hrel) as Hrel'.
  change (handle isUrl DeleteLecture req w) with (deleteLecture req w) in Hrel'.
  cbv zeta.
  assert (Hgone : find_lecture (params_id req) (db (snd (deleteLecture req w))) = None).
  { rewrite Hdb. apply find_delete_lecture_same. }
  split; [exact Hres|]. split; [exact Hgone|]. split.
  - intros id Hne. rewrite Hdb. now apply find_delete_lecture_other.
  - intros req2 Hid. apply lecture_not_found; [exact Hrel'|].
    rewrite Hid. exact Hgone.
Qed.

(** ** Creating and reordering lectures *)

Lemma createLecture_run (req : Request) (w : World) (b : CreateLectureBody)
  (s : SectionDoc) (c : Course) (u : User) :
  reliable w ->
  createLectureSchema isUrl (body req) = Valid b ->
  find_section (params_sectionId req) (db w) = Some s ->
  find_course (section_course s) (db w) = Some c ->
  user req = Some u ->
  not_instructor_nor_admin c u = false ->
  res (snd (createLecture isUrl req w)) =
    res w ++ [ApiResponse.created "Lecture created successfully"
                (DataLecture (created_lecture b (params_sectionId req) w))]
  /\ db (snd (createLecture isUrl req w)) =
       set_lectures (lectures (db w) ++ [created_lecture b (params_sectionId req) w])
                    (db w).
Proof.
  intros Hrel Hvalid Hs Hc Hu Hauth.
  use_reliable Hrel. unfold created_lecture, chosen_order.
  run_known; split; reflexivity.
Qed.

Lemma insert_by_before_last {A} (le : A -> A -> bool) (a x : A) (l : list A) :
  le a x = true -> insert_by le a (l ++ [x]) = insert_by le a l ++ [x].
Proof.
  intros H. induction l as [|y l IH]; simpl.
  - now rewrite H.
  - destruct (le a y); [reflexivity | now rewrite IH].
Qed.

Lemma sort_by_append_last {A} (le : A -> A -> bool) (x : A) (l : list A) :
  (forall a, In a l -> le a x = true) ->
  sort_by le (l ++ [x]) = sort_by le l ++ [x].
Proof.
  induction l as [|a l IH]; intros H; simpl; [reflexivity|].
  rewrite IH by (intros y Hy; apply H; now right).
  apply insert_by_before_last. apply H. now left.
Qed.

Lemma filter_in_section_other (sectionId sectionId' : Id) (doc : Lecture)
  (ls : list Lecture) :
  lecture_section doc = sectionId -> sectionId' <> sectionId ->
  filter (in_section sectionId') (ls ++ [doc]) = filter (in_section sectionId') ls.
Proof.
  intros Hs Hne. rewrite filter_app. cbn [filter]. unfold in_section at 2.
  rewrite Hs.
  assert (H : String.eqb sectionId sectionId' = false)
    by (apply String.eqb_neq; congruence).
  rewrite H. apply app_nil_r.
Qed.

(** X6. A lecture created without an order goes to the end of its section,
    as long as the orders of the section are safe integers (below [2^53] in
    magnitude, where adding one is exact): its order is above that of every
    lecture of the section, the listing of the section afterwards is the
    listing before followed by the new lecture, orders that were pairwise
    distinct stay so, and the listing of every other section is as
    before. *)
Theorem created_lecture_is_listed_last (req : Request) (w : World)
  (fields : list (string * Json)) (b : CreateLectureBody)
  (s : SectionDoc) (c : Course) (u : User) :
  reliable w ->
  body req = Some (JObj fields) ->
  createLectureSchema isUrl (body req) = Valid b ->
  get_key "order" fields = None ->
  find_section (params_sectionId req) (db w) = Some s ->
  find_course (section_course s) (db w) = Some c ->
  user req = Some u ->
  not_instructor_nor_admin c u = false ->
  (forall l, In l (lectures_of_section (params_sectionId req) (db w)) ->
             safe_integer (lecture_order l)) ->
  let sectionId := params_sectionId req in
  let w' := snd (createLecture isUrl req w) in
  exists doc,
    res w' = res w ++ [ApiResponse.created "Lecture created successfully"
                         (DataLecture doc)]
    /\ (forall l, In l (lectures_of_section sectionId (db w)) ->
        (lecture_order l < lecture_order doc)%Z)
    /\ lectures_of_section sectionId (db w') =
         lectures_of_section sectionId (db w) ++ [doc]
    /\ (NoDup (map lecture_order (lectures_of_section sectionId (db w))) ->
        NoDup (map lecture_order (lectures_of_section sectionId (db w'))))
    /\ (forall other, other <> sectionId ->
        lectures_of_section other (db w') = lectures_of_section other (db w)).
Proof.
  intros Hrel Hbody Hvalid Horder Hs Hc Hu Hauth Hsafe.
  assert (Hb := Hvalid). rewrite Hbody in Hb.
  destruct (createLectureSchema_omitted fields b Hb) as [Ho _].
  specialize (Ho Horder).
  destruct (createLecture_run req w b s c u Hrel Hvalid Hs Hc Hu Hauth)
    as [Hres Hdb].
  cbv zeta. rewrite Hres, Hdb.
  set (sid := params_sectionId req).
  set (doc := created_lecture b sid w).
  assert (Habove : forall l, In l (filter (in_section sid) (lectures (db w))) ->
                             (lecture_order l < lecture_order doc)%Z).
  { intros l Hl. unfold doc, created_lecture. cbn [lecture_order].
    unfold chosen_order. rewrite Ho.
    pose proof (last_lecture_largest sid (db w)) as Hlast.
    destruct (last_lecture sid (db w)) as [last|]; cbn [option_map] in Hlast.
    - symmetry in Hlast. apply largest_order_spec in Hlast.
      destruct Hlast as [(x & Hx & Hm) Hle]. specialize (Hle l Hl).
      rewrite js_add_1_safe; [lia|]. rewrite <- Hm. apply Hsafe.
      apply (Permutation_in _ (sort_by_perm _ order_asc _)). exact Hx.
    - destruct (filter (in_section sid) (lectures (db w))) as [|x rest];
        [destruct Hl|].
      simpl in Hlast. destruct (largest_order rest); discriminate. }
  assert (Hlisted : lectures_of_section sid
                      (set_lectures (lectures (db w) ++ [doc]) (db w)) =
                    lectures_of_section sid (db w) ++ [doc]).
  { unfold lectures_of_section. cbn [lectures set_lectures].
    rewrite filter_app. cbn [filter]. unfold in_section at 2.
    change (lecture_section doc) with sid. rewrite String.eqb_refl.
    apply sort_by_append_last. intros a Ha.
    unfold order_asc. apply Z.leb_le. specialize (Habove a Ha). lia. }
  exists doc. split; [reflexivity|]. split.
  { intros l Hl. apply Habove.
    apply (Permutation_in _ (Permutation_sym (sort_by_perm _ order_asc _))).
    exact Hl. }
  split; [exact Hlisted|]. split.
  - intros Hnd. rewrite Hlisted, map_app. cbn [map].
    apply NoDup_app; [exact Hnd | repeat constructor; intros [] |].
    intros o Hin [<- | []]. apply in_map_iff in Hin.
    destruct Hin as (l & Hlo & Hl).
    apply (Permutation_in _ (Permutation_sym (sort_by_perm _ order_asc _))) in Hl.
    specialize (Habove l Hl). lia.
  - intros other Hne. unfold lectures_of_section. cbn [lectures set_lectures].
    now rewrite (filter_in_section_other sid other doc).
Qed.

Lemma sorted_by_position {X I : Type} (id : X -> I) (ord : X -> Z) (xs : list X) :
  forall (ids : list I) (base : nat),
    NoDup ids ->
    Permutation (map id xs) ids ->
    (forall x k, In x xs -> nth_error ids k = Some (id x) ->
                 ord x = Z.of_nat (base + k)) ->
    StronglySorted (fun a b => (ord a <= ord b)%Z) xs ->
    map id xs = ids.
Proof.
  induction xs as [|x xs IH]; intros ids base Hnd Hperm Hord Hsorted.
  - apply Permutation_nil in Hperm. now subst.
  - destruct ids as [|i0 ids].
    { apply Permutation_sym, Permutation_nil in Hperm. discriminate. }
    inversion Hsorted as [|? ? Hs' Hall]; subst.
    assert (Hx : id x = i0).
    { assert (Hin : In (id x) (i0 :: ids))
        by (apply (Permutation_in _ Hperm); now left).
      apply In_nth_error in Hin. destruct Hin as [k Hk].
      pose proof (Hord x k (or_introl eq_refl) Hk) as Hxk.
      assert (Hi0 : In i0 (map id (x :: xs)))
        by (apply (Permutation_in _ (Permutation_sym Hperm)); now left).
      destruct Hi0 as [H0 | H0]; [exact H0|].
      apply in_map_iff in H0. destruct H0 as (y & Hy & Hyin).
      assert (Hy0 : nth_error (i0 :: ids) 0 = Some (id y)) by (simpl; now rewrite Hy).
      pose proof (Hord y 0 (or_intror Hyin) Hy0) as Hyo.
      rewrite Forall_forall in Hall. specialize (Hall y Hyin).
      assert (k = 0) by lia. subst k. simpl in Hk. congruence. }
    cbn [map]. rewrite Hx. f_equal.
    apply (IH ids (S base)).
    + now inversion Hnd.
    + cbn [map] in Hperm. rewrite Hx in Hperm.
      exact (Permutation_cons_inv Hperm).
    + intros y k Hy Hk.
      rewrite (Hord y (S k) (or_intror Hy) Hk). f_equal. lia.
    + exact Hs'.
Qed.

Lemma section_ids_distinct (sectionId : Id) (ls : list Lecture) :
  NoDup (map lecture_id ls) ->
  NoDup (map lecture_id (filter (in_section sectionId) ls)).
Proof.
  induction ls as [|a rest IH]; simpl; intros H; [constructor|].
  inversion H as [|? ? Hfresh Hrest]; subst.
  destruct (in_section sectionId a); [|auto]. simpl. constructor; [|auto].
  intros Hin. apply Hfresh. apply in_map_iff in Hin.
  destruct Hin as (x & Hx & Hxin).
  apply in_map_iff. exists x. split; [exact Hx|]. apply filter_In in Hxin.
  exact (proj1 Hxin).
Qed.

Lemma reordered_keeps (ids : list Id) (fs : list bool) (l : Lecture) :
  lecture_id (reordered ids fs l) = lecture_id l
  /\ lecture_section (reordered ids fs l) = lecture_section l.
Proof.
  unfold reordered. destruct (assigned_order ids 0 fs (lecture_id l)); split; reflexivity.
Qed.

Lemma filter_reordered (ids : list Id) (fs : list bool) (sectionId : Id)
  (ls : list Lecture) :
  filter (in_section sectionId) (map (reordered ids fs) ls) =
    map (reordered ids fs) (filter (in_section sectionId) ls).
Proof.
  induction ls as [|a ls IH]; [reflexivity|]. cbn [map filter].
  rewrite IH. unfold in_section. rewrite (proj2 (reordered_keeps ids fs a)).
  destruct (String.eqb (lecture_section a) sectionId); reflexivity.
Qed.

(** X7. The purpose of [reorderLectures]: when the submitted array names the
    lectures of the section, each once, and the ORM answers, the response
    lists the lectures in the order submitted, and each has its position as
    its order. *)
Theorem reorder_lists_in_submitted_order (req : Request) (w : World)
  (ids : list Id) :
  reliable w ->
  may_reorder req (db w) ids ->
  NoDup ids ->
  NoDup (map lecture_id (lectures (db w))) ->
  (forall l, In l (lectures (db w)) ->
             (in_section (params_sectionId req) l = true <-> In (lecture_id l) ids)) ->
  (forall id, In id ids -> exists l, In l (lectures (db w)) /\ lecture_id l = id) ->
  let w' := snd (reorderLectures req w) in
  exists listed,
    res w' = res w ++ [ApiResponse.success "Lectures reordered successfully"
                         (DataLectures listed)]
    /\ map lecture_id listed = ids
    /\ forall k l, nth_error listed k = Some l -> lecture_order l = Z.of_nat k.
Proof.
  intros Hrel (Hbody & s & c & u & Hs & Hc & Hu & Hauth) Hnd Hndl Hsec Hexists.
  pose proof (reliable_tl _ Hrel) as Hrel'.
  use_reliable Hrel. cbv zeta. run_known; try absurd_case.
  set (sid := params_sectionId req) in *.
  set (fs := tl (faults w)) in *.
  eexists. split; [reflexivity|].
  set (listed := lectures_of_section sid _).
  assert (Hlect : lectures (replay (batch_log ids 0 fs) (db w)) =
                  map (reordered ids fs) (lectures (db w))).
  { rewrite replay_batch. reflexivity. }
  assert (Hfilter : filter (in_section sid) (map (reordered ids fs) (lectures (db w))) =
                    map (reordered ids fs) (filter (in_section sid) (lectures (db w)))).
  { apply filter_reordered. }
  assert (Hperm : Permutation (map (reordered ids fs)
                                   (filter (in_section sid) (lectures (db w)))) listed).
  { unfold listed, lectures_of_section. rewrite Hlect, Hfilter. apply sort_by_perm. }
  assert (Hsorted : StronglySorted (fun a b => (lecture_order a <= lecture_order b)%Z)
                                   listed)
    by apply lectures_of_section_sorted.
  assert (Hidx : forall lx k, In lx listed ->
                              nth_error ids k = Some (lecture_id lx) ->
                              lecture_order lx = Z.of_nat (0 + k)).
  { intros lx k Hx Hk.
    apply (Permutation_in _ (Permutation_sym Hperm)) in Hx.
    apply in_map_iff in Hx. destruct Hx as (l & <- & Hl).
    rewrite (proj1 (reordered_keeps ids fs l)) in Hk.
    unfold reordered.
    rewrite (assigned_order_once ids 0 fs k (lecture_id l) Hk).
    - reflexivity.
    - intros j Hj. rewrite NoDup_nth_error in Hnd. symmetry. apply Hnd.
      + apply nth_error_Some. congruence.
      + congruence.
    - apply reliable_nth. exact Hrel'. }
  assert (Hids : map lecture_id listed = ids).
  { apply (sorted_by_position lecture_id lecture_order listed ids 0 Hnd); auto.
    apply Permutation_trans
      with (map lecture_id (map (reordered ids fs)
                                (filter (in_section sid) (lectures (db w))))).
    - apply Permutation_map, Permutation_sym, Hperm.
    - rewrite map_map.
      rewrite (map_ext _ lecture_id)
        by (intros a; apply (proj1 (reordered_keeps ids fs a))).
      apply NoDup_Permutation; [now apply section_ids_distinct | exact Hnd |].
      intros id. split.
      + intros Hin. apply in_map_iff in Hin. destruct Hin as (l & <- & Hl).
        apply filter_In in Hl. destruct Hl as [Hl Hin]. now apply (Hsec l Hl).
      + intros Hin. destruct (Hexists id Hin) as (l & Hl & <-).
        apply in_map_iff. exists l. split; [reflexivity|].
        apply filter_In. split; [exact Hl | now apply (Hsec l Hl)]. }
  split; [exact Hids|].
  intros k l Hk. apply (Hidx l k).
  - eapply nth_error_In; eauto.
  - rewrite <- Hids. rewrite nth_error_map, Hk. reflexivity.
Qed.

(** ** Requests without a user *)

(** X8. A preview lecture of a published course is served to everyone, with or
    without a user on the request, and without any enrollment lookup: the
    only ORM call is the lookup of the lecture. *)
Theorem preview_lecture_is_public (req : Request) (w : World)
  (l : Lecture) (s : SectionDoc) (c : Course) :
  reliable w ->
  find_lecture (params_id req) (db w) = Some l ->
  find_section (lecture_section l) (db w) = Some s ->
  find_course (section_course s) (db w) = Some c ->
  course_published c = true ->
  lecture_isPreview l = true ->
  let w' := snd (getLecture req w) in
  res w' = res w ++ [ApiResponse.success "Lecture fetched successfully"
                       (DataPopulatedLecture (l, Some (s, Some c)))]
  /\ log w' = log w ++ [mkEntry (Lecture_findById (params_id req)) false].
Proof.
  intros Hrel Hl Hs Hc Hpub Hprev. use_reliable Hrel. cbv zeta.
  run_known; try (cbn [negb orb andb] in *; discriminate).
  unfold populate_section. rewrite Hc. split; reflexivity.
Qed.

(** X9. The lectures of a section of a published course are listed for
    everyone, with or without a user on the request: the response holds the
    lectures of that section and no other, each once, by ascending order. *)
Theorem published_section_is_public (req : Request) (w : World)
  (s : SectionDoc) (c : Course) :
  reliable w ->
  find_section (params_sectionId req) (db w) = Some s ->
  find_course (section_course s) (db w) = Some c ->
  course_published c = true ->
  let w' := snd (getSectionLectures req w) in
  exists listed,
    res w' = res w ++ [ApiResponse.success "Lectures fetched successfully"
                         (DataLectures listed)]
    /\ Permutation (filter (in_section (params_sectionId req)) (lectures (db w)))
                   listed
    /\ (forall l, In l listed -> lecture_section l = params_sectionId req)
    /\ StronglySorted (fun a b => (lecture_order a <= lecture_order b)%Z) listed.
Proof.
  intros Hrel Hs Hc Hpub. use_reliable Hrel. cbv zeta.
  run_known; try (cbn [negb orb andb] in *; discriminate).
  eexists. split; [reflexivity|].
  destruct (lectures_of_section_sorted (params_sectionId req) (db w)) as [Hp Hsorted].
  split; [exact Hp|]. split; [|exact Hsorted].
  intros l Hl. apply (Permutation_in _ (Permutation_sym Hp)) in Hl.
  apply filter_In in Hl. destruct Hl as [_ Hl]. now apply String.eqb_eq in Hl.
Qed.

(** X10. Only [getSectionLectures] and [getLecture] test [req.user].  Every other
    handler reads it unguarded: when such a request carries no user, the
    read throws, the answer is the server error and not forbidden, and
    nothing is written. *)
Theorem no_user_is_a_server_error (h : Handler) (req : Request) (w : World) :
  rejected isUrl h (body req) = None ->
  reliable w ->
  reads_user isUrl h req (db w) = true ->
  user req = None ->
  let w' := snd (handle isUrl h req w) in
  (exists msg, res w' = res w ++ [ApiResponse.serverError msg])
  /\ db w' = db w.
Proof.
  intros Hrej Hrel. use_reliable Hrel. cbv zeta.
  destruct h;
    unfold rejected, invalid_issues, reads_user, course_of_section, is_none,
      handle in *;
    intros Hreads Hu; try discriminate Hreads; split_hyp Hreads; run_known;
    try absurd_case; split; eauto.
Qed.

(** ** The wishlist, call after call *)

Ltac run_checked :=
  run_known; try (cbn [negb orb andb] in *; discriminate).

Lemma find_user_replace (doc wl : Wishlist) (u : Id) (ws : list Wishlist) :
  find (fun x => String.eqb (wishlist_user x) u) ws = Some wl ->
  wishlist_id doc = wishlist_id wl ->
  wishlist_user doc = u ->
  find (fun x => String.eqb (wishlist_user x) u) (replace_wishlist doc ws) = Some doc.
Proof.
  intros Hf Hid Hu. induction ws as [|x ws IH]; simpl in *; [discriminate|].
  destruct (String.eqb (wishlist_user x) u) eqn:E.
  - injection Hf as ->. rewrite Hid, String.eqb_refl, Hu, String.eqb_refl. reflexivity.
  - destruct (String.eqb (wishlist_id x) (wishlist_id doc)).
    + now rewrite Hu, String.eqb_refl.
    + rewrite E. auto.
Qed.

Lemma find_user_append (doc : Wishlist) (u : Id) (ws : list Wishlist) :
  find (fun x => String.eqb (wishlist_user x) u) ws = None ->
  wishlist_user doc = u ->
  find (fun x => String.eqb (wishlist_user x) u) (ws ++ [doc]) = Some doc.
Proof.
  intros Hf Hu. induction ws as [|x ws IH]; simpl in *.
  - now rewrite Hu, String.eqb_refl.
  - destruct (String.eqb (wishlist_user x) u); [discriminate | auto].
Qed.

Lemma found_wishlist_user (u : Id) (d : Db) (wl : Wishlist) :
  find_wishlist_of u d = Some wl -> wishlist_user wl = u.
Proof.
  unfold find_wishlist_of. intros H. apply find_some in H. now apply String.eqb_eq.
Qed.

Lemma addToWishlist_run (req : Request) (w : World) (u : User) (courseId : Id)
  (c : Course) :
  reliable w ->
  user req = Some u ->
  addToWishlistSchema (body req) = Valid courseId ->
  find_course courseId (db w) = Some c ->
  (forall wl, find_wishlist_of (user_id u) (db w) = Some wl ->
              includes courseId (wishlist_courses wl) = false) ->
  (exists data, res (snd (addToWishlist req w)) =
                  res w ++ [ApiResponse.created "Course added to wishlist" data])
  /\ db (snd (addToWishlist req w)) =
       set_wishlists
         (match find_wishlist_of (user_id u) (db w) with
          | Some wl =>
              replace_wishlist
                (mkWishlist (wishlist_id wl) (wishlist_user wl)
                            (wishlist_courses wl ++ [courseId]))
                (wishlists (db w))
          | None =>
              wishlists (db w) ++
              [mkWishlist (oid (nextOid w)) (user_id u) [courseId]]
          end) (db w).
Proof.
  intros Hrel Hu Hbody Hc Hnew. use_reliable Hrel.
  destruct (find_wishlist_of (user_id u) (db w)) as [wl|] eqn:Hwl.
  - specialize (Hnew wl eq_refl). run_checked. split; [eexists|]; reflexivity.
  - run_checked. split; [eexists|]; reflexivity.
Qed.

Lemma checkWishlist_run (req : Request) (w : World) (u : User) (wl : Wishlist) :
  reliable w ->
  user req = Some u ->
  find_wishlist_of (user_id u) (db w) = Some wl ->
  res (snd (checkWishlist req w)) =
    res w ++ [ApiResponse.success "Wishlist status checked"
                (DataCheck (JsBool (includes (params_courseId req)
                                             (wishlist_courses wl))))].
Proof.
  intros Hrel Hu Hwl. use_reliable Hrel. run_checked. reflexivity.
Qed.

(** X11. After [addToWishlist] has added a course, the course is the last entry
    of the requester's wishlist, the entries before it are the ones that
    were there, and [checkWishlist] answers [true] for it. *)
Theorem added_course_is_in_the_wishlist (req : Request) (w : World) (u : User)
  (courseId : Id) (c : Course) :
  reliable w ->
  user req = Some u ->
  addToWishlistSchema (body req) = Valid courseId ->
  find_course courseId (db w) = Some c ->
  (forall wl, find_wishlist_of (user_id u) (db w) = Some wl ->
              includes courseId (wishlist_courses wl) = false) ->
  let w' := snd (addToWishlist req w) in
  exists wl',
    find_wishlist_of (user_id u) (db w') = Some wl'
    /\ wishlist_courses wl' =
         match find_wishlist_of (user_id u) (db w) with
         | Some wl => wishlist_courses wl
         | None => []
         end ++ [courseId]
    /\ (exists data, res w' = res w ++ [ApiResponse.created
                                          "Course added to wishlist" data])
    /\ forall req2,
         user req2 = Some u ->
         params_courseId req2 = courseId ->
         res (snd (checkWishlist req2 w')) =
           res w' ++ [ApiResponse.success "Wishlist status checked"
                        (DataCheck (JsBool true))].
Proof.
  intros Hrel Hu Hbody Hc Hnew.
  destruct (addToWishlist_run req w u courseId c Hrel Hu Hbody Hc Hnew)
    as [Hres Hdb].
  pose proof (handle_keeps_reliable AddToWishlist req w Hrel) as Hrel'.
  change (handle isUrl AddToWishlist req w) with (addToWishlist req w) in Hrel'.
  cbv zeta.
  assert (Hfound : exists wl',
            find_wishlist_of (user_id u) (db (snd (addToWishlist req w))) = Some wl'
            /\ wishlist_courses wl' =
                 match find_wishlist_of (user_id u) (db w) with
                 | Some wl => wishlist_courses wl
                 | None => []
                 end ++ [courseId]).
  { rewrite Hdb. unfold find_wishlist_of in *. cbn [wishlists set_wishlists].
    destruct (find (fun w0 => String.eqb (wishlist_user w0) (user_id u))
                   (wishlists (db w))) as [wl|] eqn:Hwl.
    - exists (mkWishlist (wishlist_id wl) (wishlist_user wl)
                         (wishlist_courses wl ++ [courseId])).
      split; [|reflexivity].
      apply (find_user_replace _ wl); [exact Hwl | reflexivity |].
      cbn. apply find_some in Hwl. now apply String.eqb_eq.
    - exists (mkWishlist (oid (nextOid w)) (user_id u) [courseId]).
      split; [|reflexivity]. now apply find_user_append. }
  destruct Hfound as (wl' & Hwl' & Hcourses).
  exists wl'. split; [exact Hwl'|]. split; [exact Hcourses|]. split; [exact Hres|].
  intros req2 Hu2 Hcid.
  rewrite (checkWishlist_run req2 _ u wl' Hrel' Hu2 Hwl'). repeat f_equal.
  rewrite Hcid, Hcourses. apply includes_In. apply in_or_app. right. now left.
Qed.

Lemma removeFromWishlist_run (req : Request) (w : World) (u : User) (wl : Wishlist) :
  reliable w ->
  user req = Some u ->
  find_wishlist_of (user_id u) (db w) = Some wl ->
  includes (params_courseId req) (wishlist_courses wl) = true ->
  res (snd (removeFromWishlist req w)) =
    res w ++ [ApiResponse.success "Course removed from wishlist" NoData]
  /\ db (snd (removeFromWishlist req w)) =
       set_wishlists
         (replace_wishlist
            (mkWishlist (wishlist_id wl) (wishlist_user wl)
               (filter (fun id => negb (String.eqb id (params_courseId req)))
                       (wishlist_courses wl)))
            (wishlists (db w))) (db w).
Proof.
  intros Hrel Hu Hwl Hin. use_reliable Hrel. run_checked. split; reflexivity.
Qed.

Lemma removeFromWishlist_absent (req : Request) (w : World) (u : User) :
  reliable w ->
  user req = Some u ->
  (forall wl, find_wishlist_of (user_id u) (db w) = Some wl ->
              includes (params_courseId req) (wishlist_courses wl) = false) ->
  res (snd (removeFromWishlist req w)) =
    res w ++ [ApiResponse.notFound "Course not in wishlist"].
Proof.
  intros Hrel Hu Hnot. use_reliable Hrel.
  destruct (find_wishlist_of (user_id u) (db w)) as [wl|] eqn:Hwl.
  - specialize (Hnot wl eq_refl). run_checked. reflexivity.
  - run_checked. reflexivity.
Qed.

Lemma includes_filter_out (id : Id) (ids : list Id) :
  includes id (filter (fun x => negb (String.eqb x id)) ids) = false.
Proof.
  destruct (includes id (filter (fun x => negb (String.eqb x id)) ids)) eqn:E;
    [|reflexivity].
  apply includes_In, filter_In in E. destruct E as [_ E].
  now rewrite String.eqb_refl in E.
Qed.

(** X12. [removeFromWishlist] takes the course out of the requester's wishlist
    and leaves the other entries in their order; the wishlist document
    stays, even when it becomes empty; asking again to remove the same
    course is answered not found. *)
Theorem removed_course_is_gone (req : Request) (w : World) (u : User)
  (wl : Wishlist) :
  reliable w ->
  user req = Some u ->
  find_wishlist_of (user_id u) (db w) = Some wl ->
  includes (params_courseId req) (wishlist_courses wl) = true ->
  let w' := snd (removeFromWishlist req w) in
  res w' = res w ++ [ApiResponse.success "Course removed from wishlist" NoData]
  /\ (exists wl',
        find_wishlist_of (user_id u) (db w') = Some wl'
        /\ wishlist_id wl' = wishlist_id wl
        /\ wishlist_courses wl' =
             filter (fun id => negb (String.eqb id (params_courseId req)))
                    (wishlist_courses wl)
        /\ includes (params_courseId req) (wishlist_courses wl') = false)
  /\ res (snd (removeFromWishlist req w')) =
       res w' ++ [ApiResponse.notFound "Course not in wishlist"].
Proof.
  intros Hrel Hu Hwl Hin.
  destruct (removeFromWishlist_run req w u wl Hrel Hu Hwl Hin) as [Hres Hdb].
  pose proof (handle_keeps_reliable RemoveFromWishlist req w Hrel) as Hrel'.
  change (handle isUrl RemoveFromWishlist req w) with (removeFromWishlist req w)
    in Hrel'.
  cbv zeta.
  assert (Hfound : find_wishlist_of (user_id u) (db (snd (removeFromWishlist req w))) =
                   Some (mkWishlist (wishlist_id wl) (wishlist_user wl)
                           (filter (fun id => negb (String.eqb id (params_courseId req)))
                                   (wishlist_courses wl)))).
  { rewrite Hdb. unfold find_wishlist_of in *. cbn [wishlists set_wishlists].
    apply (find_user_replace _ wl); [exact Hwl | reflexivity |].
    cbn. apply find_some in Hwl. now apply String.eqb_eq. }
  split; [exact Hres|]. split.
  - eexists. split; [exact Hfound|]. cbn. repeat split. apply includes_filter_out.
  - apply (removeFromWishlist_absent req _ u Hrel' Hu).
    intros wl2 Hwl2. rewrite Hfound in Hwl2. injection Hwl2 as <-. cbn.
    apply includes_filter_out.
Qed.

Lemma filter_out_appended (id : Id) (ids : list Id) :
  includes id ids = false ->
  filter (fun x => negb (String.eqb x id)) (ids ++ [id]) = ids.
Proof.
  intros H. rewrite filter_app. cbn. rewrite String.eqb_refl. cbn.
  rewrite app_nil_r.
  induction ids as [|x ids IH]; [reflexivity|].
  unfold includes in H. cbn in H. apply Bool.orb_false_elim in H.
  destruct H as [Hx Hrest]. cbn.
  rewrite String.eqb_sym in Hx. rewrite Hx. cbn. f_equal. now apply IH.
Qed.

(** X13. Adding a course and removing it again gives back the entries the
    wishlist had; a wishlist that did not exist before exists afterwards,
    empty. *)
Theorem add_then_remove_restores (req req2 : Request) (w : World) (u : User)
  (courseId : Id) (c : Course) :
  reliable w ->
  user req = Some u ->
  addToWishlistSchema (body req) = Valid courseId ->
  find_course courseId (db w) = Some c ->
  (forall wl, find_wishlist_of (user_id u) (db w) = Some wl ->
              includes courseId (wishlist_courses wl) = false) ->
  user req2 = Some u ->
  params_courseId req2 = courseId ->
  let w2 := snd (removeFromWishlist req2 (snd (addToWishlist req w))) in
  exists wl2,
    find_wishlist_of (user_id u) (db w2) = Some wl2
    /\ wishlist_courses wl2 =
         match find_wishlist_of (user_id u) (db w) with
         | Some wl => wishlist_courses wl
         | None => []
         end.
Proof.
  intros Hrel Hu Hbody Hc Hnew Hu2 Hcid.
  destruct (addToWishlist_run req w u courseId c Hrel Hu Hbody Hc Hnew)
    as [_ Hdb].
  pose proof (handle_keeps_reliable AddToWishlist req w Hrel) as Hrel'.
  change (handle isUrl AddToWishlist req w) with (addToWishlist req w) in Hrel'.
  cbv zeta.
  assert (Hfound : exists wl',
            find_wishlist_of (user_id u) (db (snd (addToWishlist req w))) = Some wl'
            /\ wishlist_courses wl' =
                 match find_wishlist_of (user_id u) (db w) with
                 | Some wl => wishlist_courses wl
                 | None => []
                 end ++ [courseId]).
  { rewrite Hdb. unfold find_wishlist_of in *. cbn [wishlists set_wishlists].
    destruct (find (fun w0 => String.eqb (wishlist_user w0) (user_id u))
                   (wishlists (db w))) as [wl|] eqn:Hwl.
    - exists (mkWishlist (wishlist_id wl) (wishlist_user wl)
                         (wishlist_courses wl ++ [courseId])).
      split; [|reflexivity].
      apply (find_user_replace _ wl); [exact Hwl | reflexivity |].
      cbn. apply find_some in Hwl. now apply String.eqb_eq.
    - exists (mkWishlist (oid (nextOid w)) (user_id u) [courseId]).
      split; [|reflexivity]. now apply find_user_append. }
  destruct Hfound as (wl' & Hwl' & Hcourses).
  assert (Hin : includes (params_courseId req2) (wishlist_courses wl') = true).
  { rewrite Hcid, Hcourses. apply includes_In, in_or_app. right. now left. }
  destruct (removeFromWishlist_run req2 _ u wl' Hrel' Hu2 Hwl' Hin) as [_ Hdb2].
  eexists. split.
  - rewrite Hdb2. unfold find_wishlist_of in *. cbn [wishlists set_wishlists].
    apply (find_user_replace _ wl'); [exact Hwl' | reflexivity |].
    cbn. apply find_some in Hwl'. now apply String.eqb_eq.
  - cbn. rewrite Hcid, Hcourses. apply filter_out_appended.
    destruct (find_wishlist_of (user_id u) (db w)) as [wl|] eqn:Hwl;
      [exact (Hnew wl eq_refl) | reflexivity].
Qed.

(** X14. [clearWishlist] empties the requester's wishlist and says how many
    entries it removed; the document stays, so that [checkWishlist] then
    answers with the boolean [false]; with no wishlist document it answers
    success and creates none. *)
Theorem cleared_wishlist_is_empty (req : Request) (w : World) (u : User) :
  reliable w ->
  user req = Some u ->
  let w' := snd (clearWishlist req w) in
  match find_wishlist_of (user_id u) (db w) with
  | Some wl =>
      res w' = res w ++ [ApiResponse.success
                           (count_message (List.length (wishlist_courses wl))) NoData]
      /\ find_wishlist_of (user_id u) (db w') =
           Some (mkWishlist (wishlist_id wl) (wishlist_user wl) [])
      /\ forall req2,
           user req2 = Some u ->
           res (snd (checkWishlist req2 w')) =
             res w' ++ [ApiResponse.success "Wishlist status checked"
                          (DataCheck (JsBool false))]
  | None =>
      res w' = res w ++ [ApiResponse.success "Wishlist is already empty" NoData]
      /\ db w' = db w
  end.
Proof.
  intros Hrel Hu.
  pose proof (handle_keeps_reliable ClearWishlist req w Hrel) as Hrel'.
  change (handle isUrl ClearWishlist req w) with (clearWishlist req w) in Hrel'.
  cbv zeta.
  destruct (find_wishlist_of (user_id u) (db w)) as [wl|] eqn:Hwl.
  - assert (Hrun : res (snd (clearWishlist req w)) =
                     res w ++ [ApiResponse.success
                                 (count_message (List.length (wishlist_courses wl)))
                                 NoData]
                   /\ db (snd (clearWishlist req w)) =
                        set_wishlists
                          (replace_wishlist
                             (mkWishlist (wishlist_id wl) (wishlist_user wl) [])
                             (wishlists (db w))) (db w)).
    { clear Hrel'. use_reliable Hrel. run_checked. split; reflexivity. }
    destruct Hrun as [Hres Hdb].
    assert (Hfound : find_wishlist_of (user_id u) (db (snd (clearWishlist req w))) =
                     Some (mkWishlist (wishlist_id wl) (wishlist_user wl) [])).
    { rewrite Hdb. unfold find_wishlist_of in *. cbn [wishlists set_wishlists].
      apply (find_user_replace _ wl); [exact Hwl | reflexivity |].
      cbn. apply find_some in Hwl. now apply String.eqb_eq. }
    split; [exact Hres|]. split; [exact Hfound|].
    intros req2 Hu2. rewrite (checkWishlist_run req2 _ u _ Hrel' Hu2 Hfound).
    reflexivity.
  - clear Hrel'. use_reliable Hrel. run_checked. split; reflexivity.
Qed.

(** ** What validation guarantees of the store *)

Lemma z_string_min_sound (n : nat) (path : list PathElem) (v : option Json)
  (t : string) :
  z_string_min n path v = Valid t -> n <= String.length t /\ v = Some (JStr t).
Proof.
  unfold z_string_min, z_string.
  destruct v as [[| | |x| |]|]; try discriminate.
  destruct (Nat.ltb (String.length x) n) eqn:E; [discriminate|].
  intros [= <-]. apply Nat.ltb_ge in E. auto.
Qed.

Lemma z_number_int_min0_sound (path : list PathElem) (v : option Json) (z : Z) :
  z_number_int_min0 path v = Valid z -> (0 <= z)%Z.
Proof.
  unfold z_number_int_min0.
  destruct v as [[| |q| | |]|]; try discriminate.
  destruct (is_integer q); destruct (Qle_bool 0 q) eqn:E; try discriminate.
  intros [= <-]. unfold Qle_bool in E. cbn in E. apply Z.leb_le in E.
  unfold to_integer. apply Z.div_pos; lia.
Qed.

Lemma z_optional_sound {A} (schema : list PathElem -> option Json -> Parsed A)
  (path : list PathElem) (v : option Json) (a : A) :
  z_optional schema path v = Valid (Some a) -> schema path v = Valid a.
Proof.
  unfold z_optional. destruct v; [|discriminate].
  destruct (schema path (Some j)); cbn; [intros [= <-]; reflexivity | discriminate].
Qed.

(** A body that [createLectureSchema] accepts has a title of three
    characters at least, and an order, when it has one, that is not
    negative. *)
Lemma createLectureSchema_sound (body0 : option Json) (b : CreateLectureBody) :
  createLectureSchema isUrl body0 = Valid b ->
  3 <= String.length (cb_title b)
  /\ (forall o, cb_order b = Some o -> (0 <= o)%Z)
  /\ (forall v, cb_videoUrl b = Some v -> isUrl v = true).
Proof.
  unfold createLectureSchema, z_object.
  destruct body0 as [[| | | | |fields]|]; try discriminate. intros H.
  apply parsed_map_valid in H. destruct H as ([t [v [d [i r]]]] & H & ->).
  apply parsed_pair_valid in H. destruct H as [Ht H].
  apply parsed_pair_valid in H. destruct H as [Hv H].
  apply parsed_pair_valid in H. destruct H as [_ H].
  apply parsed_pair_valid in H. destruct H as [_ Hr].
  cbn [fst snd cb_title cb_order cb_videoUrl] in *.
  split; [exact (proj1 (z_string_min_sound _ _ _ _ Ht))|]. split.
  - intros o ->. apply z_optional_sound in Hr.
    exact (z_number_int_min0_sound _ _ _ Hr).
  - intros x ->. apply z_optional_sound in Hv.
    unfold z_string_url, z_string in Hv.
    destruct (get_key "videoUrl" fields) as [[| | |y| |]|]; try discriminate.
    destruct (isUrl y) eqn:E; [|discriminate]. now injection Hv as <-.
Qed.

Lemma updateLectureSchema_sound (body0 : option Json) (b : UpdateLectureBody) :
  updateLectureSchema isUrl body0 = Valid b ->
  (forall t, ub_title b = Some t -> 3 <= String.length t)
  /\ (forall o, ub_order b = Some o -> (0 <= o)%Z).
Proof.
  unfold updateLectureSchema, z_object.
  destruct body0 as [[| | | | |fields]|]; try discriminate. intros H.
  apply parsed_map_valid in H. destruct H as ([t [v [d [i r]]]] & H & ->).
  apply parsed_pair_valid in H. destruct H as [Ht H].
  apply parsed_pair_valid in H. destruct H as [_ H].
  apply parsed_pair_valid in H. destruct H as [_ H].
  apply parsed_pair_valid in H. destruct H as [_ Hr].
  cbn [fst snd ub_title ub_order] in *.
  split.
  - intros x ->. apply z_optional_sound in Ht.
    exact (proj1 (z_string_min_sound _ _ _ _ Ht)).
  - intros o ->. apply z_optional_sound in Hr.
    exact (z_number_int_min0_sound _ _ _ Hr).
Qed.

Lemma assigned_order_nonneg (ids : list Id) :
  forall i fs id o, assigned_order ids i fs id = Some o -> (0 <= o)%Z.
Proof.
  induction ids as [|x rest IH]; intros i fs id o; simpl; [discriminate|].
  destruct (assigned_order rest (S i) (tl fs) id) as [o'|] eqn:E.
  - intros [= <-]. eapply IH; eauto.
  - destruct (String.eqb id x && negb (hd false fs)); [|discriminate].
    intros [= <-]. lia.
Qed.

Lemma lectures_valid_reordered (ids : list Id) (fs : list bool) (d : Db) :
  lectures_valid d -> lectures_valid (replay (batch_log ids 0 fs) d).
Proof.
  unfold lectures_valid. rewrite replay_batch. cbn [lectures set_lectures].
  intros H. rewrite Forall_forall in *. intros l Hl.
  apply in_map_iff in Hl. destruct Hl as (x & <- & Hx).
  specialize (H x Hx). destruct H as [Ht Ho].
  destruct (assigned_order ids 0 fs (lecture_id x)) as [o|] eqn:E; [|split; auto].
  split; [exact Ht|]. cbn. eapply assigned_order_nonneg; eauto.
Qed.

Lemma last_lecture_in (sectionId : Id) (d : Db) (l : Lecture) :
  last_lecture sectionId d = Some l -> In l (lectures d).
Proof.
  unfold last_lecture. intros H.
  destruct (sort_by_head _ order_desc order_desc_total order_desc_trans
              (filter (in_section sectionId) (lectures d)) l) as [Hin _].
  - intros a. unfold order_desc. apply Z.leb_refl.
  - exact H.
  - apply filter_In in Hin. tauto.
Qed.

Lemma valid_replace (doc : Lecture) (ls : list Lecture) :
  Forall lecture_valid ls -> lecture_valid doc ->
  Forall lecture_valid (replace_lecture doc ls).
Proof.
  intros H Hd. unfold replace_lecture. rewrite Forall_forall in *.
  intros x Hx. apply in_map_iff in Hx. destruct Hx as (y & <- & Hy).
  destruct (String.eqb (lecture_id y) (lecture_id doc)); auto.
Qed.

Lemma valid_delete (id : Id) (ls : list Lecture) :
  Forall lecture_valid ls -> Forall lecture_valid (delete_lecture id ls).
Proof.
  intros H. unfold delete_lecture. rewrite Forall_forall in *.
  intros x Hx. apply filter_In in Hx. apply H. tauto.
Qed.

Lemma valid_updated (b : UpdateLectureBody) (body0 : option Json) (l : Lecture) :
  updateLectureSchema isUrl body0 = Valid b ->
  lecture_valid l -> lecture_valid (apply_updates b l).
Proof.
  intros Hb [Ht Ho]. destruct (updateLectureSchema_sound _ _ Hb) as (Htb & Hob).
  split; cbn.
  - destruct (ub_title b) as [t|]; [apply Htb; reflexivity | exact Ht].
  - destruct (ub_order b) as [o|]; [apply Hob; reflexivity | exact Ho].
Qed.

Lemma found_lecture_valid (id : Id) (d : Db) (l : Lecture) :
  lectures_valid d -> find_lecture id d = Some l -> lecture_valid l.
Proof.
  unfold lectures_valid, find_lecture. rewrite Forall_forall.
  intros H Hf. apply find_some in Hf. apply H. tauto.
Qed.

(** X15. The store keeps what validation asks: if every lecture has a title of
    three characters at least and an order that is not negative, then so it
    is after any request to any handler, whatever the body, whoever the
    requester and whatever fails. *)
Theorem lectures_stay_valid (h : Handler) (req : Request) (w : World) :
  lectures_valid (db w) ->
  lectures_valid (db (snd (handle isUrl h req w))).
Proof.
  intros Hinv.
  destruct h; unfold handle; run_handler; cbn [apply_call] in *;
    try exact Hinv;
    try (apply lectures_valid_reordered; exact Hinv);
    unfold lectures_valid; cbn [lectures set_lectures];
    try (apply valid_delete; exact Hinv).
  all: try match goal with
           | |- Forall _ (_ ++ [_]) =>
               apply Forall_app; split; [exact Hinv|];
               constructor; [|constructor];
               match goal with
               | H : createLectureSchema isUrl _ = Valid ?b |- _ =>
                   destruct (createLectureSchema_sound _ _ H) as (Ht & Ho & _)
               end;
               split; cbn; [exact Ht|];
               first [ apply Ho; assumption
                     | match goal with
                       | H : last_lecture _ _ = Some ?l |- _ =>
                           apply last_lecture_in in H;
                           unfold lectures_valid in Hinv;
                           rewrite Forall_forall in Hinv;
                           destruct (Hinv l H) as [_ Hl];
                           apply js_add_nonneg; lia
                       end
                     | lia ]
           end.
  all: apply valid_replace; [exact Hinv|].
  all: match goal with
       | H : updateLectureSchema isUrl _ = Valid _ |- _ =>
           apply (valid_updated _ _ _ H)
       end.
  all: match goal with
       | H : option_map _ (find_lecture ?i ?d) = Some (?l, _) |- _ =>
           destruct (find_lecture i d) as [l0|] eqn:Hf; [|discriminate H];
           cbn in H; injection H as <- _;
           exact (found_lecture_valid _ _ _ Hinv Hf)
       end.
Qed.

(** ** The body of a reorder request *)

Lemma z_array_items_strings (path : list PathElem) (ids : list string) :
  forall i, z_array_items path i (map JStr ids) = Valid ids.
Proof.
  induction ids as [|x ids IH]; intros i; [reflexivity|].
  cbn [map z_array_items z_string]. rewrite IH. reflexivity.
Qed.

Lemma z_array_items_valid (path : list PathElem) (items : list Json) :
  forall i ids, z_array_items path i items = Valid ids -> items = map JStr ids.
Proof.
  induction items as [|x items IH]; intros i ids H.
  - cbn in H. now injection H as <-.
  - cbn [z_array_items] in H.
    apply parsed_map_valid in H. destruct H as ([a rest] & H & ->).
    apply parsed_pair_valid in H. destruct H as [Hx Hrest]. cbn [fst snd] in *.
    unfold z_string in Hx. destruct x; try discriminate Hx. injection Hx as <-.
    cbn [map]. f_equal. eapply IH; eauto.
Qed.

(** X16. [reorderSchema] accepts exactly the objects whose [lectureIds] is an
    array of strings that is not empty, and gives back those strings in
    their order; other keys of the object do not matter. *)
Theorem reorderSchema_accepts (body0 : option Json) (ids : list string) :
  reorderSchema body0 = Valid ids <->
  ids <> []
  /\ exists fields,
       body0 = Some (JObj fields)
       /\ get_key "lectureIds" fields = Some (JArr (map JStr ids)).
Proof.
  unfold reorderSchema, z_object, z_array_string_min1. split.
  - destruct body0 as [[| | | | |fields]|]; try discriminate.
    destruct (get_key "lectureIds" fields) as [[| | | |items|]|] eqn:Hk;
      try discriminate.
    intros H. apply parsed_map_valid in H. destruct H as ([[] l] & H & ->).
    apply parsed_pair_valid in H. destruct H as [Hlen Hitems]. cbn [fst snd] in *.
    apply z_array_items_valid in Hitems. subst items. split.
    + intros ->. discriminate Hlen.
    + exists fields. split; [reflexivity | exact Hk].
  - intros (Hne & fields & -> & ->).
    rewrite z_array_items_strings.
    destruct ids as [|x ids]; [congruence | reflexivity].
Qed.

(** X17. An empty [lectureIds] array is a bad request: the one issue is
    [too_small] at [lectureIds], and no model is touched. *)
Theorem reorder_rejects_the_empty_array (req : Request) (w : World)
  (fields : list (string * Json)) :
  body req = Some (JObj fields) ->
  get_key "lectureIds" fields = Some (JArr []) ->
  let w' := snd (reorderLectures req w) in
  res w' = res w ++ [ApiResponse.badRequest "Validation failed"
                       [mkIssue too_small [Key "lectureIds"]]]
  /\ db w' = db w
  /\ log w' = log w.
Proof.
  intros Hbody Hk. cbv zeta.
  unfold reorderLectures, reorderLectures_try, try_catch, bind, parse.
  unfold reorderSchema, z_object. rewrite Hbody, Hk. cbn.
  repeat split.
Qed.

(** ** One wishlist for each user *)

Lemma oid_injective (a b : nat) : oid a = oid b -> a = b.
Proof.
  unfold oid. cbn. intros H. injection H as H.
  apply (f_equal NilEmpty.uint_of_string) in H.
  rewrite !NilEmpty.usu in H. injection H as H.
  apply (f_equal Nat.of_uint) in H. now rewrite !Unsigned.of_to in H.
Qed.

Lemma wishlists_keyed_later (ws : list Wishlist) (n m : nat) :
  wishlists_keyed ws n -> n <= m -> wishlists_keyed ws m.
Proof.
  intros (Hu & Hi & Hk) Hle. repeat split; auto.
  rewrite Forall_forall in *. intros i Hin.
  destruct (Hk i Hin) as (k & Hlt & ->). exists k. split; [lia | reflexivity].
Qed.

Lemma wishlists_keyed_create (ws : list Wishlist) (n : nat) (u : Id)
  (courseIds : list Id) :
  wishlists_keyed ws n ->
  find (fun x => String.eqb (wishlist_user x) u) ws = None ->
  wishlists_keyed (ws ++ [mkWishlist (oid n) u courseIds]) (S n).
Proof.
  intros (Hu & Hi & Hk) Hnone. unfold wishlists_keyed. rewrite !map_app. cbn [map].
  cbn [wishlist_user wishlist_id]. repeat split.
  - apply NoDup_app; [exact Hu | repeat constructor; intros [] |].
    intros x Hx [<- | []]. apply in_map_iff in Hx. destruct Hx as (y & Hy & Hin).
    pose proof (find_none _ _ Hnone _ Hin) as Hfalse. cbn in Hfalse.
    rewrite Hy, String.eqb_refl in Hfalse. discriminate.
  - apply NoDup_app; [exact Hi | repeat constructor; intros [] |].
    intros x Hx [<- | []]. rewrite Forall_forall in Hk.
    destruct (Hk _ Hx) as (k & Hlt & Hk'). apply oid_injective in Hk'. lia.
  - apply Forall_app. split.
    + rewrite Forall_forall in *. intros i Hin.
      destruct (Hk i Hin) as (k & Hlt & ->). exists k. split; [lia | reflexivity].
    + repeat constructor. exists n. split; [lia | reflexivity].
Qed.

Lemma NoDup_map_same {A B} (f : A -> B) (l : list A) (x y : A) :
  NoDup (map f l) -> In x l -> In y l -> f x = f y -> x = y.
Proof.
  induction l as [|a l IH]; simpl; intros Hnd Hx Hy Hf; [destruct Hx|].
  inversion Hnd as [|? ? Hn Hd]; subst.
  destruct Hx as [<- | Hx], Hy as [<- | Hy]; auto.
  - exfalso. apply Hn. rewrite Hf. now apply in_map.
  - exfalso. apply Hn. rewrite <- Hf. now apply in_map.
Qed.

Lemma wishlists_keyed_save (ws : list Wishlist) (n : nat) (u : Id)
  (wl : Wishlist) (courseIds : list Id) :
  wishlists_keyed ws n ->
  find (fun x => String.eqb (wishlist_user x) u) ws = Some wl ->
  wishlists_keyed
    (replace_wishlist (mkWishlist (wishlist_id wl) (wishlist_user wl) courseIds) ws)
    n.
Proof.
  intros (Hu & Hi & Hk) Hf. apply find_some in Hf. destruct Hf as [Hin _].
  assert (Hsame : forall (g : Wishlist -> Id),
            g (mkWishlist (wishlist_id wl) (wishlist_user wl) courseIds) = g wl ->
            map g (replace_wishlist
                     (mkWishlist (wishlist_id wl) (wishlist_user wl) courseIds) ws) =
            map g ws).
  { intros g Hg. unfold replace_wishlist. rewrite map_map.
    apply map_ext_in. intros x Hx. cbn [wishlist_id].
    destruct (String.eqb (wishlist_id x) (wishlist_id wl)) eqn:E; [|reflexivity].
    apply String.eqb_eq in E.
    rewrite (NoDup_map_same wishlist_id ws x wl Hi Hx Hin E). exact Hg. }
  unfold wishlists_keyed.
  rewrite (Hsame wishlist_user eq_refl), (Hsame wishlist_id eq_refl). auto.
Qed.

Lemma wishlists_replay_batch (ids : list Id) (fs : list bool) (d : Db) :
  wishlists (replay (batch_log ids 0 fs) d) = wishlists d.
Proof. rewrite replay_batch. reflexivity. Qed.

Lemma wishlists_keyed_handle (h : Handler) (req : Request) (w : World) :
  wishlists_keyed (wishlists (db w)) (nextOid w) ->
  wishlists_keyed (wishlists (db (snd (handle isUrl h req w))))
                  (nextOid (snd (handle isUrl h req w))).
Proof.
  intros Hinv.
  destruct h; unfold handle; run_handler; cbn [apply_call] in *;
    rewrite ?wishlists_replay_batch;
    cbn [wishlists set_lectures set_wishlists];
    unfold find_wishlist_of in *;
    first [ exact Hinv
          | apply (wishlists_keyed_later _ _ _ Hinv); lia
          | apply wishlists_keyed_create; assumption
          | eapply wishlists_keyed_save; eassumption
          | eapply wishlists_keyed_later;
            [ eapply wishlists_keyed_save; eassumption | lia ] ].
Qed.

(** X18. Whatever requests are served, one after the other, starting with no
    wishlist: no two wishlist documents belong to the same user, and no two
    have the same id.  ([addToWishlist] creates a document only when it
    finds none for the user; nothing else creates one.) *)
Theorem one_wishlist_per_user (reqs : list (Handler * Request)) (w : World) :
  wishlists (db w) = [] ->
  let w' := serve_all isUrl reqs w in
  NoDup (map wishlist_user (wishlists (db w')))
  /\ NoDup (map wishlist_id (wishlists (db w')))
  /\ forall a b,
       In a (wishlists (db w')) -> In b (wishlists (db w')) ->
       wishlist_user a = wishlist_user b -> a = b.
Proof.
  intros Hempty. cbv zeta.
  assert (Hinv : wishlists_keyed (wishlists (db (serve_all isUrl reqs w)))
                                 (nextOid (serve_all isUrl reqs w))).
  { assert (H0 : wishlists_keyed (wishlists (db w)) (nextOid w)).
    { rewrite Hempty. repeat split; constructor. }
    clear Hempty. revert w H0. unfold serve_all.
    induction reqs as [|[h req] reqs IH]; intros w H0; [exact H0|].
    cbn [fold_left fst snd]. apply IH. unfold serve.
    apply (wishlists_keyed_handle h req (fresh_res w)). exact H0. }
  destruct Hinv as (Hu & Hi & _).
  split; [exact Hu|]. split; [exact Hi|].
  intros a b Ha Hb. exact (NoDup_map_same wishlist_user _ a b Hu Ha Hb).
Qed.

(** ** Listing a wishlist *)

Lemma found_course_id (id : Id) (d : Db) (c : Course) :
  find_course id d = Some c -> course_id c = id.
Proof.
  unfold find_course. intros H. apply find_some in H. now apply String.eqb_eq.
Qed.

Lemma populate_courses_In (d : Db) (ids : list Id) (c : Course) :
  In c (populate_courses d ids) <->
  In (course_id c) ids /\ find_course (course_id c) d = Some c.
Proof.
  induction ids as [|i rest IH]; cbn [populate_courses].
  - cbn. tauto.
  - destruct (find_course i d) as [ci|] eqn:Hi.
    + pose proof (found_course_id _ _ _ Hi) as Hid. split.
      * intros [<- | Hin].
        -- rewrite Hid. split; [now left | exact Hi].
        -- apply IH in Hin. destruct Hin as [Hin Hc]. split; [now right | exact Hc].
      * intros [[<- | Hin] Hc].
        -- left. congruence.
        -- right. apply IH. now split.
    + rewrite IH. split.
      * intros [Hin Hc]. split; [now right | exact Hc].
      * intros [[<- | Hin] Hc]; [congruence | now split].
Qed.

Lemma populate_courses_ids (d : Db) (ids : list Id) :
  Forall (fun id => find_course id d <> None) ids ->
  map course_id (populate_courses d ids) = ids.
Proof.
  induction 1 as [|i rest Hi _ IH]; cbn [populate_courses]; [reflexivity|].
  destruct (find_course i d) as [ci|] eqn:Hci; [|congruence].
  cbn [map]. now rewrite IH, (found_course_id _ _ _ Hci).
Qed.

Lemma getMyWishlist_run (req : Request) (w : World) (u : User) :
  reliable w ->
  user req = Some u ->
  res (snd (getMyWishlist req w)) =
    res w ++ [ApiResponse.success "Wishlist fetched successfully"
                (DataWishlist (Some (shown_wishlist u (db w))))].
Proof.
  intros Hrel Hu. unfold shown_wishlist.
  destruct (find_wishlist_of (user_id u) (db w)) as [wl|] eqn:Hwl;
    use_reliable Hrel; run_checked; reflexivity.
Qed.

(** X19. [getMyWishlist] answers with the requester's own wishlist and writes
    nothing.  The courses shown are the stored courses whose id the wishlist
    holds, an id that names no course being passed over without an error;
    when every id names a course they are shown in the order of the
    wishlist.  A requester with no wishlist is shown an empty one, which is
    not stored. *)
Theorem getMyWishlist_shows_the_wishlist (req : Request) (w : World) (u : User) :
  reliable w ->
  user req = Some u ->
  let w' := snd (getMyWishlist req w) in
  exists shown,
    res w' = res w ++ [ApiResponse.success "Wishlist fetched successfully"
                         (DataWishlist (Some shown))]
    /\ db w' = db w
    /\ pw_user shown = user_id u
    /\ (forall wl,
          find_wishlist_of (user_id u) (db w) = Some wl ->
          pw_id shown = Some (wishlist_id wl)
          /\ (forall c, In c (pw_courses shown) <->
                        In (course_id c) (wishlist_courses wl)
                        /\ find_course (course_id c) (db w) = Some c)
          /\ (Forall (fun id => find_course id (db w) <> None) (wishlist_courses wl) ->
              map course_id (pw_courses shown) = wishlist_courses wl))
    /\ (find_wishlist_of (user_id u) (db w) = None ->
        pw_id shown = None /\ pw_courses shown = []
        /\ find_wishlist_of (user_id u) (db w') = None).
Proof.
  intros Hrel Hu. cbv zeta.
  destruct (read_handlers_never_write GetMyWishlist req w eq_refl) as (Hdb & _).
  change (handle isUrl GetMyWishlist req w) with (getMyWishlist req w) in Hdb.
  exists (shown_wishlist u (db w)).
  split; [exact (getMyWishlist_run req w u Hrel Hu)|].
  split; [exact Hdb|].
  unfold shown_wishlist. rewrite Hdb.
  destruct (find_wishlist_of (user_id u) (db w)) as [wl|] eqn:Hwl.
  - split; [exact (found_wishlist_user _ _ _ Hwl)|].
    split; [|discriminate].
    intros wl0 H0. injection H0 as <-.
    split; [reflexivity|]. split.
    + intros c. apply populate_courses_In.
    + apply populate_courses_ids.
  - split; [reflexivity|]. split; [discriminate|].
    intros _. repeat split.
Qed.

End ControllerProperties.

(** ** The enrollment router *)

Section RouterProperties.

Variable decodes : string -> bool.
Variable run_middleware : Middleware -> HttpRequest -> MiddlewareResult.

(** What the role middleware does when it calls [next()]: the request has a
    user, whose role is one of the roles it was given. *)
Hypothesis authorize_checks_role :
  forall roles req req',
    run_middleware (authorize roles) req = Next req' ->
    exists u, http_user req = Some u /\ In (user_role u) roles.

(** C6. A request reaches an enrollment controller only after [authenticate]
    has let it through; and [getCourseEnrollments] is reached only when the
    user of the authenticated request has the role instructor or admin. *)
Theorem enrollment_routes_are_gated (req : HttpRequest)
  (c : EnrollmentController) (req' : HttpRequest) :
  dispatch decodes run_middleware enrollmentRouter req = Reached c req' ->
  exists authenticated,
    run_middleware authenticate req = Next authenticated
    /\ (c = getCourseEnrollments ->
        exists u, http_user authenticated = Some u
                  /\ (user_role u = "instructor" \/ user_role u = "admin")).
Proof.
  unfold enrollmentRouter. cbn [dispatch run_guards].
  destruct (run_middleware authenticate req) as [r|] eqn:Hauth; [|discriminate].
  intros H. exists r. split; [reflexivity|].
  repeat match type of H with
         | (if ?b then _ else _) = _ => destruct b
         end;
    try (injection H as <- _; discriminate);
    try discriminate H.
  all: destruct (run_middleware (authorize ["instructor"; "admin"]) r)
    as [r'|] eqn:Hrole; [|discriminate H].
  all: intros _; destruct (authorize_checks_role _ _ _ Hrole) as (u & Hu & Hin).
  all: exists u; split; [exact Hu|].
  all: destruct Hin as [<- | [<- | []]]; auto.
Qed.

End RouterProperties.

(** * Instances on the small school *)

Lemma auth_middleware_checks_role (sessions : list (string * User))
  (roles : list string) (req req' : HttpRequest) :
  auth_middleware sessions (authorize roles) req = Next req' ->
  exists u, http_user req = Some u /\ In (user_role u) roles.
Proof.
  cbn. destruct (http_user req) as [u|]; [|discriminate].
  destruct (existsb (String.eqb (user_role u)) roles) eqn:E; [|discriminate].
  intros _. exists u. split; [reflexivity|].
  apply existsb_exists in E. destruct E as (x & Hx & He).
  apply String.eqb_eq in He. now subst.
Qed.

(** C1, as stated, fails: a student who is enrolled in the course, neither
    its instructor nor an admin, is served a lecture that is not a preview. *)
Lemma enrolled_student_is_served_the_lecture :
  instructor_or_admin course1 student = false
  /\ lecture_isPreview lectureA = false
  /\ res (serve any_url GetLecture (lecture_request "l1" (Some student) None) world0) =
       [ApiResponse.success "Lecture fetched successfully"
          (DataPopulatedLecture (lectureA, Some (section1, Some course1)))].
Proof. vm_compute. repeat split. Qed.

Lemma authorization_check_witness :
  reliable world0
  /\ (exists r,
        res (snd (deleteLecture (lecture_request "l1" (Some student) None) world0)) =
          res world0 ++ [r]
        /\ response_kind r = Forbidden)
  /\ (exists r,
        res (snd (getLecture (lecture_request "l1" (Some student) None) world0)) =
          res world0 ++ [r]
        /\ response_kind r = Success).
Proof.
  assert (Hrel : reliable world0) by constructor.
  split; [exact Hrel|].
  destruct (authorization_check any_url (lecture_request "l1" (Some student) None)
              world0 Hrel) as [_ Hl].
  destruct (Hl lectureA section1 course1 eq_refl eq_refl eq_refl)
    as (_ & Hdelete & Hget).
  split; [exact (Hdelete student eq_refl) | exact (Hget (or_intror eq_refl))].
Defined.

Lemma error_result_by_failure_class_witness :
  res (snd (handle any_url CreateLecture
              (section_request "s1" (Some teacher)
                 (Some (JObj [("title", JStr "ab")]))) world0)) =
    [ApiResponse.badRequest "Validation failed" [mkIssue too_small [Key "title"]]]
  /\ (exists msg,
        res (snd (handle any_url GetLecture
                    (lecture_request "l9" (Some student) None) world0)) =
          [ApiResponse.notFound msg])
  /\ (exists msg,
        res (snd (handle any_url DeleteLecture
                    (lecture_request "l1" (Some student) None) world0)) =
          [ApiResponse.forbidden msg])
  /\ (exists msg,
        res (snd (handle any_url CreateLecture
                    (section_request "s1" None
                       (Some (JObj [("title", JStr "Next steps")]))) world0)) =
          [ApiResponse.serverError msg]).
Proof.
  assert (Hrel : reliable world0) by constructor.
  split; [|split; [|split]].
  - pose proof (error_result_by_failure_class any_url CreateLecture
                  (section_request "s1" (Some teacher)
                     (Some (JObj [("title", JStr "ab")]))) world0) as H.
    cbv zeta in H. destruct H as (H & _). exact (H _ eq_refl).
  - pose proof (error_result_by_failure_class any_url GetLecture
                  (lecture_request "l9" (Some student) None) world0) as H.
    cbv zeta in H. destruct H as (_ & H & _). exact (H eq_refl Hrel eq_refl).
  - pose proof (error_result_by_failure_class any_url DeleteLecture
                  (lecture_request "l1" (Some student) None) world0) as H.
    cbv zeta in H. destruct H as (_ & _ & H & _). exact (H eq_refl Hrel eq_refl).
  - pose proof (error_result_by_failure_class any_url CreateLecture
                  (section_request "s1" None
                     (Some (JObj [("title", JStr "Next steps")]))) world0) as H.
    cbv zeta in H. destruct H as (_ & _ & _ & H).
    eapply (H TypeError); [vm_compute; reflexivity | intros issues; discriminate].
Defined.

Lemma wishlist_courses_stay_unique_witness :
  let add id := Add (wishlist_request "" (Some student) (courseId_body id)) in
  let w' := calls any_url [add "c1"; add "c1"; add "c2"] world0 in
  wishlists_empty (db world0)
  /\ unique_courses (db w')
  /\ res (serve any_url AddToWishlist
            (wishlist_request "" (Some student) (courseId_body "c2")) w') =
       [ApiResponse.conflict "Course already in wishlist"]
  /\ db (serve any_url AddToWishlist
           (wishlist_request "" (Some student) (courseId_body "c2")) w') = db w'.
Proof.
  cbv zeta.
  assert (Hempty : wishlists_empty (db world0)) by constructor.
  split; [exact Hempty|].
  pose proof (wishlist_courses_stay_unique any_url
                [Add (wishlist_request "" (Some student) (courseId_body "c1"));
                 Add (wishlist_request "" (Some student) (courseId_body "c1"));
                 Add (wishlist_request "" (Some student) (courseId_body "c2"))]
                world0 Hempty) as H.
  cbv zeta in H. destruct H as [Huniq Hconflict].
  split; [exact Huniq|].
  apply (Hconflict _ student "c2" (mkWishlist "oid0" "u-student" ["c1"; "c2"])).
  - vm_compute. constructor.
  - reflexivity.
  - reflexivity.
  - vm_compute. reflexivity.
  - simpl. auto.
Defined.

Lemma no_retry_no_rollback_witness :
  let req := section_request "s1" (Some teacher) (lectureIds_body ["l2"; "l1"]) in
  let w := world_failing [false; false; true] in
  let w' := snd (handle any_url ReorderLectures req w) in
  reaches_updates req w ["l2"; "l1"]
  /\ res w' = [ApiResponse.serverError "Failed to reorder lectures"]
  /\ find_lecture "l2" (db w') = Some (with_order 0 lectureB).
Proof.
  cbv zeta.
  assert (Hreach : reaches_updates
                     (section_request "s1" (Some teacher) (lectureIds_body ["l2"; "l1"]))
                     (world_failing [false; false; true]) ["l2"; "l1"]).
  { split; [|reflexivity]. split; [reflexivity|].
    exists section1, course1, teacher. repeat split. }
  split; [exact Hreach|].
  pose proof (no_retry_no_rollback any_url ReorderLectures
                (section_request "s1" (Some teacher) (lectureIds_body ["l2"; "l1"]))
                (world_failing [false; false; true])) as H.
  cbv zeta in H. destruct H as [_ H].
  destruct (H ["l2"; "l1"] eq_refl Hreach eq_refl) as [Hres Hkept].
  split; [exact Hres|].
  apply (Hkept 0 "l2" lectureB); try reflexivity.
  intros [|[|[|j]]] Hj; try reflexivity; discriminate Hj.
Defined.

(** C5, as stated, fails: one reorder request with two ids issues two
    mutating calls. *)
Lemma reorder_issues_one_update_per_id :
  mutating_calls
    (log (serve any_url ReorderLectures
            (section_request "s1" (Some teacher) (lectureIds_body ["l2"; "l1"]))
            world0)) = 2
  /\ log (serve any_url ReorderLectures
            (section_request "s1" (Some teacher) (lectureIds_body ["l2"; "l1"]))
            world0) =
       [mkEntry (Section_findById "s1") false;
        mkEntry (Lecture_findByIdAndUpdate "l2" 0) false;
        mkEntry (Lecture_findByIdAndUpdate "l1" 1) false;
        mkEntry (Lecture_find "s1") false].
Proof. vm_compute. split; reflexivity. Qed.

Lemma mutating_calls_per_request_witness :
  let req := section_request "s1" (Some teacher) (lectureIds_body ["l2"; "l1"]) in
  reaches_updates req world0 ["l2"; "l1"]
  /\ exists new,
       log (snd (handle any_url ReorderLectures req world0)) = new
       /\ map entry_call (filter (fun e => mutating (entry_call e)) new) =
            [Lecture_findByIdAndUpdate "l2" 0; Lecture_findByIdAndUpdate "l1" 1].
Proof.
  cbv zeta.
  assert (Hreach : reaches_updates
                     (section_request "s1" (Some teacher)
                        (lectureIds_body ["l2"; "l1"]))
                     world0 ["l2"; "l1"]).
  { split; [|reflexivity]. split; [reflexivity|].
    exists section1, course1, teacher. repeat split. }
  split; [exact Hreach|].
  destruct (mutating_calls_per_request any_url ReorderLectures
              (section_request "s1" (Some teacher) (lectureIds_body ["l2"; "l1"]))
              world0) as (new & Hlog & Hall & _).
  exists new. split; [exact Hlog|].
  destruct (Hall _ Hreach) as (_ & Hlen & Hnth).
  pose proof (Hnth 0 "l2" eq_refl) as H0.
  pose proof (Hnth 1 "l1" eq_refl) as H1.
  destruct (map entry_call (filter (fun e => mutating (entry_call e)) new))
    as [|a [|b [|c rest]]]; try discriminate Hlen.
  cbn in H0, H1. now injection H0 as ->; injection H1 as ->.
Defined.

(** An id listed twice gets both updates; the later index is the one the
    lecture is left with. *)
Lemma repeated_id_keeps_the_later_index :
  let ids := ["l1"; "l1"] in
  let w' := serve any_url ReorderLectures
              (section_request "s1" (Some teacher) (lectureIds_body ids)) world0 in
  nth_error ids 0 = Some "l1"
  /\ find_lecture "l1" (db world0) = Some lectureA
  /\ option_map response_kind (hd_error (res w')) = Some Success
  /\ option_map lecture_order (find_lecture "l1" (db w')) = Some 1%Z
  /\ 1%Z <> Z.of_nat 0.
Proof. vm_compute. repeat split. discriminate. Qed.

Lemma reorderLectures_sets_order_witness :
  let req := section_request "s1" (Some teacher) (lectureIds_body ["l3"]) in
  let w' := snd (reorderLectures req world0) in
  reliable world0
  /\ may_reorder req (db world0) ["l3"]
  /\ lecture_section lectureC <> params_sectionId req
  /\ lecture_order lectureC = 5%Z
  /\ exists l',
       find_lecture "l3" (db w') = Some l'
       /\ lecture_order l' = 0%Z
       /\ lecture_section l' = "s2"
       /\ lecture_title l' = "Drafts".
Proof.
  cbv zeta.
  assert (Hrel : reliable world0) by constructor.
  assert (Hmay : may_reorder
                   (section_request "s1" (Some teacher) (lectureIds_body ["l3"]))
                   (db world0) ["l3"]).
  { split; [reflexivity|]. exists section1, course1, teacher. repeat split. }
  split; [exact Hrel|]. split; [exact Hmay|].
  split; [discriminate|]. split; [reflexivity|].
  pose proof (reorderLectures_sets_order
                (section_request "s1" (Some teacher) (lectureIds_body ["l3"]))
                world0 ["l3"] Hrel Hmay) as H.
  cbv zeta in H. destruct H as (_ & Hset & _).
  destruct (Hset 0 "l3" lectureC) as (l' & Hfound & Horder & Hkept);
    try reflexivity.
  { intros [|[|j]] Hj; try reflexivity; discriminate Hj. }
  destruct Hkept as (_ & Htitle & Hsection & _).
  exists l'. split; [exact Hfound|]. split; [exact Horder|].
  split; [exact Hsection | exact Htitle].
Defined.

Lemma createLecture_default_order_witness :
  let req := section_request "s1" (Some teacher)
               (Some (JObj [("title", JStr "Next steps")])) in
  exists doc,
    res (snd (createLecture any_url req world0)) =
      [ApiResponse.created "Lecture created successfully" (DataLecture doc)]
    /\ lecture_order doc = 2%Z
    /\ lecture_isPreview doc = false.
Proof.
  cbv zeta.
  assert (Hrel : reliable world0) by constructor.
  destruct (createLecture_default_order any_url
              (section_request "s1" (Some teacher)
                 (Some (JObj [("title", JStr "Next steps")])))
              world0 [("title", JStr "Next steps")]
              (mkCreateBody "Next steps" None None None None)
              section1 course1 teacher
              Hrel eq_refl eq_refl eq_refl eq_refl eq_refl eq_refl eq_refl)
    as (doc & Hres & _ & _ & Hlargest & _ & Hpreview).
  exists doc. split; [exact Hres|]. split; [|exact (Hpreview eq_refl)].
  destruct (Hlargest 1%Z eq_refl) as (_ & Hsafe & _).
  apply Hsafe. reflexivity.
Defined.

(** C9, as stated, fails: orders are JavaScript numbers.  A lecture is
    created with the largest safe integer as its order; the next one,
    created without an order, gets [2^53], one more; the one after gets
    [2^53] again, the order of the last lecture and not one more. *)
Lemma default_order_stalls_at_2_53 :
  let create fields :=
    serve any_url CreateLecture
      (section_request "s1" (Some teacher) (Some (JObj fields))) in
  let w1 := create [("title", JStr "Appendix");
                    ("order", JNum (9007199254740991 # 1))] world0 in
  let w2 := create [("title", JStr "Index")] w1 in
  let w3 := create [("title", JStr "Errata")] w2 in
  largest_order (filter (in_section "s1") (lectures (db w2))) =
    Some 9007199254740992%Z
  /\ exists doc,
       res w3 = [ApiResponse.created "Lecture created successfully"
                   (DataLecture doc)]
       /\ lecture_order doc = 9007199254740992%Z
       /\ lecture_order doc <> (9007199254740992 + 1)%Z.
Proof.
  cbv zeta. split; [vm_compute; reflexivity|].
  eexists. split; [vm_compute; reflexivity|].
  split; [reflexivity | discriminate].
Qed.

Lemma checkWishlist_payload_witness :
  exists v,
    res (snd (checkWishlist (wishlist_request "c1" (Some student) None) world0)) =
      [ApiResponse.success "Wishlist status checked" (DataCheck v)]
    /\ v = JsNull
    /\ is_boolean v = false.
Proof.
  assert (Hrel : reliable world0) by constructor.
  destruct (checkWishlist_payload (wishlist_request "c1" (Some student) None)
              world0 student Hrel eq_refl) as (v & Hres & Hnull & _ & Hbool & _).
  exists v. split; [exact Hres|]. split; [exact Hnull | exact Hbool].
Defined.

Lemma enrollment_routes_are_gated_witness :
  let req := mkHttpRequest GET ["course"; "c1"] (Some "t-teacher") None in
  let req' := mkHttpRequest GET ["course"; "c1"] (Some "t-teacher") (Some teacher) in
  dispatch plain (auth_middleware sessions0) enrollmentRouter req =
    Reached getCourseEnrollments req'
  /\ dispatch plain (auth_middleware sessions0) enrollmentRouter
       (mkHttpRequest GET ["course"; "c1"] (Some "t-student") None) =
       StoppedBy (authorize ["instructor"; "admin"])
  /\ dispatch plain (auth_middleware sessions0) enrollmentRouter
       (mkHttpRequest GET ["my"] None None) = StoppedBy authenticate
  /\ exists authenticated,
       auth_middleware sessions0 authenticate req = Next authenticated
       /\ exists u, http_user authenticated = Some u
                    /\ (user_role u = "instructor" \/ user_role u = "admin").
Proof.
  cbv zeta. repeat (split; [reflexivity|]).
  destruct (enrollment_routes_are_gated plain (auth_middleware sessions0)
              (auth_middleware_checks_role sessions0)
              (mkHttpRequest GET ["course"; "c1"] (Some "t-teacher") None)
              getCourseEnrollments
              (mkHttpRequest GET ["course"; "c1"] (Some "t-teacher") (Some teacher))
              eq_refl) as (a & Ha & Hrole).
  exists a. split; [exact Ha | exact (Hrole eq_refl)].
Defined.

(** * Further properties of the router *)

Lemma lower_ascii_percent (c : ascii) :
  Ascii.eqb (lower_ascii c) "%" = Ascii.eqb c "%".
Proof. destruct c as [[] [] [] [] [] [] [] []]; reflexivity. Qed.

Lemma plain_lower (s : string) : plain (lower s) = plain s.
Proof.
  induction s as [|c rest IH]; [reflexivity|].
  cbn [lower plain]. now rewrite lower_ascii_percent, IH.
Qed.

Lemma lower_empty (s : string) : lower s = "" -> s = "".
Proof. destruct s; [reflexivity | discriminate]. Qed.

Section Routing.

Variable decodes : string -> bool.
Variable run_middleware : Middleware -> HttpRequest -> MiddlewareResult.

(** What is known of the decoder: a segment with no percent sign decodes. *)
Hypothesis decodes_plain : forall s, plain s = true -> decodes s = true.

Lemma spelled_decodes (lit x : string) :
  plain lit = true -> String.eqb (lower lit) (lower x) = true -> decodes x = true.
Proof.
  intros Hp He. apply String.eqb_eq in He. apply decodes_plain.
  rewrite <- plain_lower, <- He, plain_lower. exact Hp.
Qed.

(** X20. The routing table of the enrollment router, whatever the middleware
    does.  A request that [authenticate] ends reaches nothing, even on a path
    no route matches.  Past [authenticate], each verb and path reaches its
    controller, the case of the letters of the fixed segments apart:
    [GET /my] goes to [getMyEnrollments] and never to [getEnrollment], which
    takes every other one-segment path whose segment decodes; only
    [GET /course/:courseId] consults [authorize], so that every other route
    is open to any authenticated user whatever the role; and a one-segment
    path whose segment does not decode enters no route, whatever the
    verb. *)
Theorem enrollment_routing (req : HttpRequest) :
  (run_middleware authenticate req = Ended ->
   dispatch decodes run_middleware enrollmentRouter req = StoppedBy authenticate)
  /\ forall r,
       run_middleware authenticate req = Next r ->
       let reached := dispatch decodes run_middleware enrollmentRouter req in
       (http_method r = POST -> http_path r = [] ->
        reached = Reached enrollCourse r)
       /\ (forall x, spells "my" x = true ->
           http_method r = GET -> http_path r = [x] ->
           reached = Reached getMyEnrollments r)
       /\ (forall c x, spells "check" c = true -> x <> "" -> decodes x = true ->
           http_method r = GET -> http_path r = [c; x] ->
           reached = Reached checkEnrollment r)
       /\ (forall x, x <> "" -> spells "my" x = false -> decodes x = true ->
           http_method r = GET -> http_path r = [x] ->
           reached = Reached getEnrollment r)
       /\ (forall x, x <> "" -> decodes x = true ->
           http_method r = DELETE -> http_path r = [x] ->
           reached = Reached unenrollCourse r)
       /\ (forall x c, spells "complete" c = true -> x <> "" -> decodes x = true ->
           http_method r = PATCH -> http_path r = [x; c] ->
           reached = Reached markCourseCompleted r)
       /\ (forall c x, spells "course" c = true -> x <> "" -> decodes x = true ->
           http_method r = GET -> http_path r = [c; x] ->
           reached =
             match run_middleware (authorize ["instructor"; "admin"]) r with
             | Next r' => Reached getCourseEnrollments r'
             | Ended => StoppedBy (authorize ["instructor"; "admin"])
             end)
       /\ (forall x, x <> "" -> decodes x = false -> http_path r = [x] ->
           reached = BadParameter).
Proof.
  unfold enrollmentRouter. cbn [dispatch run_guards]. split.
  - intros ->. reflexivity.
  - intros r ->. cbv zeta.
    repeat split; intros; subst.
    all: repeat match goal with
                | H : http_method _ = _ |- _ => rewrite H; clear H
                | H : http_path _ = _ |- _ => rewrite H; clear H
                end.
    all: cbn [method_eqb path_matches params_decode andb]; unfold spells in *.
    all: try match goal with
             | H : decodes ?x = false |- _ =>
                 destruct (String.eqb (lower "my") (lower x)) eqn:Hmy;
                 [ rewrite (spelled_decodes "my" x eq_refl Hmy) in H;
                   discriminate H | ]
             end.
    all: repeat match goal with
                | H : String.eqb (lower ?lit) (lower ?c) = true |- _ =>
                    let Hd := fresh "Hd" in
                    let Hn := fresh "Hn" in
                    assert (Hd : decodes c = true)
                      by exact (spelled_decodes lit c eq_refl H);
                    assert (Hn : String.eqb c "" = false)
                      by (destruct c; [discriminate H | reflexivity]);
                    apply String.eqb_eq in H;
                    let v := eval vm_compute in (lower lit) in
                    change (lower lit) with v in H;
                    rewrite <- H; clear H
                | H : ?x <> "" |- _ => apply String.eqb_neq in H
                end.
    all: repeat match goal with
                | H : _ = true |- _ => rewrite H; clear H
                | H : _ = false |- _ => rewrite H; clear H
                end.
    all: repeat match goal with
                | |- context [String.eqb (lower ?a) ?b] =>
                    lazymatch b with
                    | lower _ => fail
                    | _ =>
                        let v := eval vm_compute in (String.eqb (lower a) b) in
                        change (String.eqb (lower a) b) with v
                    end
                end.
    all: cbn [negb andb]; rewrite ?Bool.andb_false_r; cbn [negb andb].
    all: repeat match goal with
                | |- context [String.eqb (lower ?a) (lower ?b)] =>
                    destruct (String.eqb (lower a) (lower b)); cbn [negb andb]
                end.
    all: try reflexivity.
    all: try (destruct (run_middleware (authorize ["instructor"; "admin"]) r); reflexivity).
Qed.

End Routing.

(** * Further instances on the small school *)

Lemma rejected_body_touches_nothing_witness :
  let req := section_request "s1" (Some teacher) (Some (JObj [("title", JStr "ab")])) in
  let w' := snd (handle any_url CreateLecture req world0) in
  rejected any_url CreateLecture (body req) = Some [mkIssue too_small [Key "title"]]
  /\ db w' = db world0 /\ log w' = log world0.
Proof.
  cbv zeta. split; [reflexivity|].
  pose proof (rejected_body_touches_nothing any_url CreateLecture
                (section_request "s1" (Some teacher)
                   (Some (JObj [("title", JStr "ab")])))
                world0 _ eq_refl) as H.
  cbv zeta in H. destruct H as (Hdb & Hlog & _). split; [exact Hdb | exact Hlog].
Defined.

Lemma client_errors_leave_store_unchanged_witness :
  let req := lecture_request "l1" (Some student) None in
  db (snd (handle any_url DeleteLecture req world0)) = db world0.
Proof.
  cbv zeta.
  pose proof (client_errors_leave_store_unchanged any_url DeleteLecture
                (lecture_request "l1" (Some student) None) world0
                (ApiResponse.forbidden "Only the course instructor can delete lectures"))
    as H.
  cbv zeta in H. exact (proj1 (H eq_refl eq_refl)).
Defined.

Lemma read_handlers_never_write_witness :
  db (snd (handle any_url GetLecture (lecture_request "l1" (Some student) None)
             (world_failing [false; true]))) = school.
Proof.
  pose proof (read_handlers_never_write any_url GetLecture
                (lecture_request "l1" (Some student) None)
                (world_failing [false; true]) eq_refl) as H.
  cbv zeta in H. exact (proj1 H).
Defined.

Lemma updateLecture_partial_update_witness :
  let req := lecture_request "l2" (Some teacher)
               (Some (JObj [("title", JStr "Basics, revised");
                            ("videoUrl", JStr "https://videos.example/basics");
                            ("isPreview", JBool false)])) in
  exists l',
    find_lecture "l2" (db (snd (updateLecture any_url req world0))) = Some l'
    /\ lecture_title l' = "Basics, revised"
    /\ lecture_videoUrl l' = Some "https://videos.example/basics"
    /\ lecture_isPreview l' = false
    /\ lecture_order l' = 1%Z
    /\ lecture_duration l' = None.
Proof.
  cbv zeta.
  assert (Hrel : reliable world0) by constructor.
  destruct (updateLecture_partial_update any_url
              (lecture_request "l2" (Some teacher)
                 (Some (JObj [("title", JStr "Basics, revised");
                              ("videoUrl", JStr "https://videos.example/basics");
                              ("isPreview", JBool false)])))
              world0
              [("title", JStr "Basics, revised");
               ("videoUrl", JStr "https://videos.example/basics");
               ("isPreview", JBool false)]
              (mkUpdateBody (Some "Basics, revised")
                 (Some "https://videos.example/basics") None (Some false) None)
              lectureB section1 course1 teacher
              Hrel eq_refl eq_refl eq_refl eq_refl eq_refl eq_refl eq_refl)
    as (l' & _ & Hfound & _ & _ & Htitle & _ & Hurl & _ & Hprev & _ & _ & Hdur
        & _ & Horder & _).
  exists l'. split; [exact Hfound|]. split; [exact Htitle|].
  split; [exact (Hurl _ eq_refl)|]. split; [exact (Hprev _ eq_refl)|].
  split; [exact (Horder eq_refl) | exact (Hdur eq_refl)].
Defined.

Lemma deleteLecture_removes_the_lecture_witness :
  let req := lecture_request "l2" (Some teacher) None in
  let w' := snd (deleteLecture req world0) in
  find_lecture "l2" (db w') = None
  /\ find_lecture "l1" (db w') = Some lectureA
  /\ res (snd (getLecture (lecture_request "l2" (Some student) None) w')) =
       res w' ++ [ApiResponse.notFound "Lecture not found"].
Proof.
  cbv zeta.
  assert (Hrel : reliable world0) by constructor.
  destruct (deleteLecture_removes_the_lecture any_url
              (lecture_request "l2" (Some teacher) None) world0
              lectureB section1 course1 teacher
              Hrel eq_refl eq_refl eq_refl eq_refl eq_refl)
    as (_ & Hgone & Hother & Hlater).
  split; [exact Hgone|]. split.
  - rewrite (Hother "l1"); [reflexivity | discriminate].
  - exact (proj1 (Hlater (lecture_request "l2" (Some student) None) eq_refl)).
Defined.

Lemma created_lecture_is_listed_last_witness :
  let req := section_request "s1" (Some teacher)
               (Some (JObj [("title", JStr "Next steps")])) in
  exists doc,
    lecture_order doc = 2%Z
    /\ lectures_of_section "s1" (db (snd (createLecture any_url req world0))) =
         [lectureA; lectureB; doc].
Proof.
  cbv zeta.
  assert (Hrel : reliable world0) by constructor.
  destruct (created_lecture_is_listed_last any_url
              (section_request "s1" (Some teacher)
                 (Some (JObj [("title", JStr "Next steps")])))
              world0 [("title", JStr "Next steps")]
              (mkCreateBody "Next steps" None None None None)
              section1 course1 teacher
              Hrel eq_refl eq_refl eq_refl eq_refl eq_refl eq_refl eq_refl)
    as (doc & Hres & _ & Hlisted & _).
  { intros l [<- | [<- | []]]; reflexivity. }
  exists doc. split; [|exact Hlisted].
  apply app_inv_head in Hres. injection Hres as <-. reflexivity.
Defined.

Lemma reorder_lists_in_submitted_order_witness :
  let req := section_request "s1" (Some teacher) (lectureIds_body ["l2"; "l1"]) in
  exists listed,
    res (snd (reorderLectures req world0)) =
      [ApiResponse.success "Lectures reordered successfully" (DataLectures listed)]
    /\ map lecture_id listed = ["l2"; "l1"].
Proof.
  cbv zeta.
  assert (Hrel : reliable world0) by constructor.
  assert (Hmay : may_reorder
                   (section_request "s1" (Some teacher) (lectureIds_body ["l2"; "l1"]))
                   (db world0) ["l2"; "l1"]).
  { split; [reflexivity|]. exists section1, course1, teacher. repeat split. }
  destruct (reorder_lists_in_submitted_order
              (section_request "s1" (Some teacher) (lectureIds_body ["l2"; "l1"]))
              world0 ["l2"; "l1"] Hrel Hmay) as (listed & Hres & Hids & _).
  - repeat constructor; simpl; intuition discriminate.
  - repeat constructor; simpl; intuition discriminate.
  - intros l [<- | [<- | [<- | []]]]; cbn; split; intuition discriminate.
  - intros id [<- | [<- | []]].
    + exists lectureB. cbn. auto.
    + exists lectureA. cbn. auto.
  - exists listed. split; [exact Hres | exact Hids].
Defined.

Lemma preview_lecture_is_public_witness :
  res (snd (getLecture (lecture_request "l2" None None) world0)) =
    [ApiResponse.success "Lecture fetched successfully"
       (DataPopulatedLecture (lectureB, Some (section1, Some course1)))].
Proof.
  assert (Hrel : reliable world0) by constructor.
  exact (proj1 (preview_lecture_is_public (lecture_request "l2" None None) world0
                  lectureB section1 course1 Hrel eq_refl eq_refl eq_refl
                  eq_refl eq_refl)).
Defined.

Lemma published_section_is_public_witness :
  exists listed,
    res (snd (getSectionLectures (section_request "s1" None None) world0)) =
      [ApiResponse.success "Lectures fetched successfully" (DataLectures listed)]
    /\ forall l, In l listed -> lecture_section l = "s1".
Proof.
  assert (Hrel : reliable world0) by constructor.
  destruct (published_section_is_public (section_request "s1" None None) world0
              section1 course1 Hrel eq_refl eq_refl eq_refl)
    as (listed & Hres & _ & Hsec & _).
  exists listed. split; [exact Hres | exact Hsec].
Defined.

Lemma no_user_is_a_server_error_witness :
  (exists msg,
     res (snd (handle any_url DeleteLecture (lecture_request "l1" None None) world0)) =
       [ApiResponse.serverError msg])
  /\ db (snd (handle any_url DeleteLecture (lecture_request "l1" None None) world0)) =
       school.
Proof.
  assert (Hrel : reliable world0) by constructor.
  pose proof (no_user_is_a_server_error any_url DeleteLecture
                (lecture_request "l1" None None) world0
                eq_refl Hrel eq_refl eq_refl) as H.
  cbv zeta in H. exact H.
Defined.

Lemma added_course_is_in_the_wishlist_witness :
  let req := wishlist_request "" (Some student) (courseId_body "c1") in
  let w' := snd (addToWishlist req world0) in
  exists wl',
    find_wishlist_of "u-student" (db w') = Some wl'
    /\ wishlist_courses wl' = ["c1"]
    /\ res (snd (checkWishlist (wishlist_request "c1" (Some student) None) w')) =
         res w' ++ [ApiResponse.success "Wishlist status checked"
                      (DataCheck (JsBool true))].
Proof.
  cbv zeta.
  assert (Hrel : reliable world0) by constructor.
  destruct (added_course_is_in_the_wishlist any_url
              (wishlist_request "" (Some student) (courseId_body "c1"))
              world0 student "c1" course1 Hrel eq_refl eq_refl eq_refl)
    as (wl' & Hfound & Hcourses & _ & Hcheck).
  - intros wl Hwl. discriminate Hwl.
  - exists wl'. split; [exact Hfound|]. split; [exact Hcourses|].
    exact (Hcheck (wishlist_request "c1" (Some student) None) eq_refl eq_refl).
Defined.

(** The school after the student has wished for both courses. *)
Lemma removed_course_is_gone_witness :
  let w := mkWorld (set_wishlists [mkWishlist "w1" "u-student" ["c1"; "c2"]] school)
                   [] 0 [] [] in
  let w' := snd (removeFromWishlist (wishlist_request "c1" (Some student) None) w) in
  exists wl',
    find_wishlist_of "u-student" (db w') = Some wl'
    /\ wishlist_courses wl' = ["c2"].
Proof.
  cbv zeta.
  destruct (removed_course_is_gone any_url
              (wishlist_request "c1" (Some student) None)
              (mkWorld (set_wishlists [mkWishlist "w1" "u-student" ["c1"; "c2"]] school)
                       [] 0 [] [])
              student (mkWishlist "w1" "u-student" ["c1"; "c2"]))
    as (_ & (wl' & Hfound & _ & Hcourses & _) & _).
  - constructor.
  - reflexivity.
  - reflexivity.
  - reflexivity.
  - exists wl'. split; [exact Hfound | exact Hcourses].
Defined.

Lemma add_then_remove_restores_witness :
  let w := mkWorld (set_wishlists [mkWishlist "w1" "u-student" ["c2"]] school)
                   [] 0 [] [] in
  let w2 := snd (removeFromWishlist (wishlist_request "c1" (Some student) None)
                   (snd (addToWishlist
                           (wishlist_request "" (Some student) (courseId_body "c1"))
                           w))) in
  exists wl2,
    find_wishlist_of "u-student" (db w2) = Some wl2
    /\ wishlist_courses wl2 = ["c2"].
Proof.
  cbv zeta.
  destruct (add_then_remove_restores any_url
              (wishlist_request "" (Some student) (courseId_body "c1"))
              (wishlist_request "c1" (Some student) None)
              (mkWorld (set_wishlists [mkWishlist "w1" "u-student" ["c2"]] school)
                       [] 0 [] [])
              student "c1" course1)
    as (wl2 & Hfound & Hcourses).
  - constructor.
  - reflexivity.
  - reflexivity.
  - reflexivity.
  - intros wl Hwl. injection Hwl as <-. reflexivity.
  - reflexivity.
  - reflexivity.
  - exists wl2. split; [exact Hfound | exact Hcourses].
Defined.

Lemma cleared_wishlist_is_empty_witness :
  let w := mkWorld (set_wishlists [mkWishlist "w1" "u-student" ["c1"; "c2"]] school)
                   [] 0 [] [] in
  let w' := snd (clearWishlist (wishlist_request "" (Some student) None) w) in
  res w' = [ApiResponse.success "Wishlist cleared (2 items removed)" NoData]
  /\ find_wishlist_of "u-student" (db w') = Some (mkWishlist "w1" "u-student" []).
Proof.
  cbv zeta.
  pose proof (cleared_wishlist_is_empty any_url
                (wishlist_request "" (Some student) None)
                (mkWorld (set_wishlists [mkWishlist "w1" "u-student" ["c1"; "c2"]] school)
                         [] 0 [] [])
                student (Forall_nil _) eq_refl) as H.
  cbv zeta in H. destruct H as (Hres & Hfound & _).
  split; [exact Hres | exact Hfound].
Defined.

Lemma lectures_stay_valid_witness :
  lectures_valid school
  /\ lectures_valid
       (db (snd (handle any_url UpdateLecture
                   (lecture_request "l2" (Some teacher)
                      (Some (JObj [("title", JStr "Basics, revised");
                                   ("order", JNum (7 # 1))])))
                   world0))).
Proof.
  assert (Hvalid : lectures_valid school).
  { repeat constructor; cbn; lia. }
  split; [exact Hvalid|].
  exact (lectures_stay_valid any_url UpdateLecture _ world0 Hvalid).
Defined.

Lemma reorder_rejects_the_empty_array_witness :
  res (snd (reorderLectures (section_request "s1" (Some teacher) (lectureIds_body []))
              world0)) =
    [ApiResponse.badRequest "Validation failed" [mkIssue too_small [Key "lectureIds"]]].
Proof.
  pose proof (reorder_rejects_the_empty_array
                (section_request "s1" (Some teacher) (lectureIds_body []))
                world0 [("lectureIds", JArr [])] eq_refl eq_refl) as H.
  cbv zeta in H. exact (proj1 H).
Defined.

Lemma one_wishlist_per_user_witness :
  let add u id := (AddToWishlist, wishlist_request "" (Some u) (courseId_body id)) in
  let w' := serve_all any_url
              [add student "c1"; add teacher "c1"; add student "c2";
               (ClearWishlist, wishlist_request "" (Some teacher) None)] world0 in
  wishlists (db world0) = []
  /\ NoDup (map wishlist_user (wishlists (db w')))
  /\ List.length (wishlists (db w')) = 2.
Proof.
  cbv zeta. split; [reflexivity|].
  pose proof (one_wishlist_per_user any_url
                [(AddToWishlist, wishlist_request "" (Some student) (courseId_body "c1"));
                 (AddToWishlist, wishlist_request "" (Some teacher) (courseId_body "c1"));
                 (AddToWishlist, wishlist_request "" (Some student) (courseId_body "c2"));
                 (ClearWishlist, wishlist_request "" (Some teacher) None)]
                world0 eq_refl) as H.
  cbv zeta in H. split; [exact (proj1 H) | reflexivity].
Defined.

Lemma enrollment_routing_witness :
  dispatch plain (auth_middleware sessions0) enrollmentRouter
    (mkHttpRequest GET ["MY"] (Some "t-student") None) =
    Reached getMyEnrollments
      (mkHttpRequest GET ["MY"] (Some "t-student") (Some student))
  /\ dispatch plain (auth_middleware sessions0) enrollmentRouter
       (mkHttpRequest DELETE ["%zz"] (Some "t-student") None) = BadParameter
  /\ dispatch plain (auth_middleware sessions0) enrollmentRouter
       (mkHttpRequest GET ["nowhere"; "at"; "all"] None None) =
       StoppedBy authenticate.
Proof.
  pose proof (fun s (H : plain s = true) => H) as Hplain.
  destruct (enrollment_routing plain (auth_middleware sessions0) Hplain
              (mkHttpRequest GET ["MY"] (Some "t-student") None)) as [_ H].
  specialize (H _ eq_refl). cbv zeta in H. destruct H as (_ & Hmy & _).
  split; [exact (Hmy "MY" eq_refl eq_refl eq_refl)|].
  destruct (enrollment_routing plain (auth_middleware sessions0) Hplain
              (mkHttpRequest DELETE ["%zz"] (Some "t-student") None)) as [_ H].
  specialize (H _ eq_refl). cbv zeta in H.
  destruct H as (_ & _ & _ & _ & _ & _ & _ & Hbad).
  split; [apply (Hbad "%zz"); [discriminate | reflexivity | reflexivity]|].
  exact (proj1 (enrollment_routing plain (auth_middleware sessions0) Hplain
                  (mkHttpRequest GET ["nowhere"; "at"; "all"] None None)) eq_refl).
Defined.

Lemma getMyWishlist_shows_the_wishlist_witness :
  let w := mkWorld (set_wishlists [mkWishlist "w1" "u-student" ["c2"; "c1"]] school)
                   [] 0 [] [] in
  exists shown,
    res (snd (getMyWishlist (wishlist_request "" (Some student) None) w)) =
      [ApiResponse.success "Wishlist fetched successfully" (DataWishlist (Some shown))]
    /\ map course_id (pw_courses shown) = ["c2"; "c1"].
Proof.
  cbv zeta.
  destruct (getMyWishlist_shows_the_wishlist any_url
              (wishlist_request "" (Some student) None)
              (mkWorld (set_wishlists [mkWishlist "w1" "u-student" ["c2"; "c1"]] school)
                       [] 0 [] [])
              student (Forall_nil _) eq_refl)
    as (shown & Hres & _ & _ & Hfound & _).
  exists shown. split; [exact Hres|].
  destruct (Hfound _ eq_refl) as (_ & _ & Hids).
  apply Hids. repeat constructor; discriminate.
Defined.
